(** * AscentPro: the data model, its mutations and its persistence

    A shallow embedding of the data-carrying part of [AscentPro.py]: the
    attributes [team_members], [skills_data], [subskills_data], [meetings]
    and [categories] of the [AscentPro] object, the event handlers that
    change them, and [load_data] / [save_data].

    Conventions of the embedding.
    - A Python [str] is a [string]; a character is a code point below 256.
    - A value obtained from [json.load] is a [pyval]; a [dict] is an
      association list in insertion order (Python dicts iterate in
      insertion order, and the migration in [load_data] depends on it).
    - A Tk widget is represented by what the handler reads from it (the
      value of a [StringVar], the text of an entry) and by what the handler
      writes back; message boxes and file writes are collected in a trace
      of [event]s.
    - A function that may raise returns a [result]. *)

From Stdlib Require Import String Ascii List ZArith Lia Bool Arith.
From Stdlib Require Import Numbers.DecimalString.
From Stdlib Require Import Sorting.Permutation Sorting.Sorted.
From Stdlib Require Import Structures.OrderedTypeEx.
Import ListNotations.
Open Scope string_scope.
Open Scope list_scope.

(** ** Python strings *)

Module PyStr.

(** [str.isspace] on code points below 256. *)
Definition is_space (c : ascii) : bool :=
  let n := nat_of_ascii c in
  (((9 <=? n) && (n <=? 13)) || ((28 <=? n) && (n <=? 32))
   || (n =? 133) || (n =? 160))%nat.

Fixpoint lstrip (s : string) : string :=
  match s with
  | EmptyString => EmptyString
  | String c r => if is_space c then lstrip r else s
  end.

Fixpoint rstrip (s : string) : string :=
  match s with
  | EmptyString => EmptyString
  | String c r =>
      match rstrip r with
      | EmptyString => if is_space c then EmptyString else String c EmptyString
      | r' => String c r'
      end
  end.

(** [s.strip()] *)
Definition strip (s : string) : string := rstrip (lstrip s).

(** [s.split(sep)] for a one-character separator: never the empty list. *)
Fixpoint split (sep : ascii) (s : string) : list string :=
  match s with
  | EmptyString => [EmptyString]
  | String c r =>
      if Ascii.eqb c sep then EmptyString :: split sep r
      else match split sep r with
           | h :: t => String c h :: t
           | [] => [String c EmptyString]
           end
  end.

(** [sep.join(l)] *)
Fixpoint join (sep : string) (l : list string) : string :=
  match l with
  | [] => EmptyString
  | [x] => x
  | x :: t => x ++ sep ++ join sep t
  end.

(** [needle in s] for two strings: substring test. *)
Fixpoint is_substring (needle s : string) : bool :=
  if String.prefix needle s then true
  else match s with
       | EmptyString => false
       | String _ r => is_substring needle r
       end.

(** One-character strings of [s], as iterating over a [str] yields them. *)
Fixpoint chars (s : string) : list string :=
  match s with
  | EmptyString => []
  | String c r => String c EmptyString :: chars r
  end.

Definition lower_char (c : ascii) : ascii :=
  let n := nat_of_ascii c in
  if (((65 <=? n) && (n <=? 90))
      || ((192 <=? n) && (n <=? 222) && negb (n =? 215)))%nat
  then ascii_of_nat (n + 32) else c.

Fixpoint map_chars (f : ascii -> ascii) (s : string) : string :=
  match s with
  | EmptyString => EmptyString
  | String c r => String (f c) (map_chars f r)
  end.

(** [s.lower()] *)
Definition lower : string -> string := map_chars lower_char.

(** [s.replace(a, b)] for one-character [a] and [b]. *)
Definition replace (a b : ascii) : string -> string :=
  map_chars (fun c => if Ascii.eqb c a then b else c).

(** [str(n)] for a length. *)
Definition of_nat (n : nat) : string := NilZero.string_of_uint (Nat.to_uint n).

(** The one-character string "\n". *)
Definition newline : ascii := "010"%char.
Definition nl : string := String newline EmptyString.

(** A [str] is true when it is not empty. *)
Definition truthy (s : string) : bool :=
  match s with EmptyString => false | _ => true end.

End PyStr.

(** ** Exceptions and results *)

Inductive exn : Type :=
| KeyError
| TypeError
| AttributeError
| ValueError
| StopIteration
| InvalidRowFormat (row : list string).  (* ValueError(f"Invalid row format: {row}") *)

Inductive result (A : Type) : Type :=
| Ok (a : A)
| Raise (e : exn).
Arguments Ok {A} a.
Arguments Raise {A} e.

Definition bind {A B : Type} (c : result A) (k : A -> result B) : result B :=
  match c with
  | Ok a => k a
  | Raise e => Raise e
  end.

Notation "x <- c ;; k" := (bind c (fun x => k))
  (at level 61, c at next level, right associativity).

Fixpoint mapM {A B : Type} (f : A -> result B) (l : list A) : result (list B) :=
  match l with
  | [] => Ok []
  | x :: t => y <- f x ;; ys <- mapM f t ;; Ok (y :: ys)
  end.

(** ** Dictionaries in insertion order *)

Module Dict.
Section Ops.
Context {V : Type}.

(** [d.get(k)] *)
Fixpoint get (k : string) (d : list (string * V)) : option V :=
  match d with
  | [] => None
  | (k', v) :: r => if String.eqb k' k then Some v else get k r
  end.

(** [k in d] *)
Definition mem (k : string) (d : list (string * V)) : bool :=
  match get k d with Some _ => true | None => false end.

(** [d[k] = v]: an existing key keeps its place, a new one goes last. *)
Fixpoint set (k : string) (v : V) (d : list (string * V)) : list (string * V) :=
  match d with
  | [] => [(k, v)]
  | (k', v') :: r =>
      if String.eqb k' k then (k', v) :: r else (k', v') :: set k v r
  end.

(** [del d[k]] *)
Fixpoint del (k : string) (d : list (string * V)) : result (list (string * V)) :=
  match d with
  | [] => Raise KeyError
  | (k', v') :: r =>
      if String.eqb k' k then Ok r
      else r' <- del k r ;; Ok ((k', v') :: r')
  end.

(** [d[k]] *)
Definition item (k : string) (d : list (string * V)) : result V :=
  match get k d with Some v => Ok v | None => Raise KeyError end.

Definition keys (d : list (string * V)) : list string := map fst d.
Definition values (d : list (string * V)) : list V := map snd d.
End Ops.
End Dict.

(** ** Values read from the JSON document

    The values [json.load] builds: [None], booleans, numbers, strings,
    lists and dicts with string keys.  A number is an integer here; the
    application stores none. *)

#[local] Set Warnings "-register-all".

Inductive pyval : Type :=
| VNone
| VBool (b : bool)
| VInt (n : Z)
| VStr (s : string)
| VList (l : list pyval)
| VDict (d : list (string * pyval)).

Module Py.

Definition isinstance_dict (v : pyval) : bool :=
  match v with VDict _ => true | _ => false end.

(** [v.get(k)]: only a dict has the method. *)
Definition get (v : pyval) (k : string) : result pyval :=
  match v with
  | VDict d => Ok (match Dict.get k d with Some x => x | None => VNone end)
  | _ => Raise AttributeError
  end.

(** [v.get(k, default)] *)
Definition get_default (v : pyval) (k : string) (default : pyval) : result pyval :=
  match v with
  | VDict d => Ok (match Dict.get k d with Some x => x | None => default end)
  | _ => Raise AttributeError
  end.

(** [v[k]] for a string [k]. *)
Definition item (v : pyval) (k : string) : result pyval :=
  match v with
  | VDict d => Dict.item k d
  | _ => Raise TypeError
  end.

(** [v.items()] *)
Definition items (v : pyval) : result (list (string * pyval)) :=
  match v with
  | VDict d => Ok d
  | _ => Raise AttributeError
  end.

(** [v.values()] *)
Definition values (v : pyval) : result (list pyval) :=
  match v with
  | VDict d => Ok (Dict.values d)
  | _ => Raise AttributeError
  end.

(** [for x in v] *)
Definition iter (v : pyval) : result (list pyval) :=
  match v with
  | VList l => Ok l
  | VStr s => Ok (map VStr (PyStr.chars s))
  | VDict d => Ok (map VStr (Dict.keys d))
  | _ => Raise TypeError
  end.

Definition is_str (x : string) (v : pyval) : bool :=
  match v with VStr y => String.eqb y x | _ => false end.

(** [x in v] for a string [x]: a [str] only equals a [str]. *)
Definition contains (v : pyval) (x : string) : result bool :=
  match v with
  | VList l => Ok (existsb (is_str x) l)
  | VDict d => Ok (Dict.mem x d)
  | VStr s => Ok (PyStr.is_substring x s)
  | _ => Raise TypeError
  end.

(** [v.append(x)]: only a list has the method. *)
Definition append (v : pyval) (x : pyval) : result pyval :=
  match v with
  | VList l => Ok (VList (l ++ [x]))
  | _ => Raise AttributeError
  end.

End Py.

(** Python [for x in l: body] threading the variables the body assigns. *)
Fixpoint for_each {A S : Type} (l : list A) (body : A -> S -> result S) (s : S)
  : result S :=
  match l with
  | [] => Ok s
  | x :: t => s' <- body x s ;; for_each t body s'
  end.

(** The same loop when the variables live on after an exception: the result
    is their value when the loop was left and the exception that ended it.
    It fits a body that raises before it changes anything. *)
Fixpoint for_each_keep {A S : Type} (l : list A) (body : A -> S -> result S) (s : S)
  : S * option exn :=
  match l with
  | [] => (s, None)
  | x :: t =>
      match body x s with
      | Ok s' => for_each_keep t body s'
      | Raise e => (s, Some e)
      end
  end.

(** ** The application object *)

(** Outcome of opening [data_file] and [json.load]: the file is missing,
    it does not parse, or it parses to a value.  [json.dump] followed by
    [json.load] gives back the value that was dumped. *)
Inductive file : Type :=
| Missing
| Malformed
| Parsed (data : pyval).

(** [self.categories] is created by [initialize_data_structures] and only
    changed by the handlers below, never read from the document: it always
    is a dict of dicts of lists of [str]. *)
Definition taxonomy : Type := list (string * list (string * list string)).

(** The attributes [initialize_data_structures] creates. *)
Record Initial : Type := {
  init_team_members : pyval;
  init_skills_data : pyval;
  init_categories : taxonomy
}.

(** The data attributes once [load_data] has run. *)
Record App : Type := {
  team_members : pyval;
  skills_data : pyval;
  subskills_data : pyval;
  meetings : pyval;
  categories : taxonomy
}.

Definition set_team_members (v : pyval) (s : App) : App :=
  {| team_members := v; skills_data := skills_data s;
     subskills_data := subskills_data s; meetings := meetings s;
     categories := categories s |}.

Definition set_subskills_data (v : pyval) (s : App) : App :=
  {| team_members := team_members s; skills_data := skills_data s;
     subskills_data := v; meetings := meetings s;
     categories := categories s |}.

Definition set_meetings (v : pyval) (s : App) : App :=
  {| team_members := team_members s; skills_data := skills_data s;
     subskills_data := subskills_data s; meetings := v;
     categories := categories s |}.

Definition set_categories (c : taxonomy) (s : App) : App :=
  {| team_members := team_members s; skills_data := skills_data s;
     subskills_data := subskills_data s; meetings := meetings s;
     categories := c |}.

(** What a handler shows or writes. *)
Inductive event : Type :=
| ShowError (title message : string)
| ShowWarning (title message : string)
| ShowInfo (title message : string)
| ShowErrorExn (title prefix : string) (e : exn)  (* message is prefix + str(e) *)
| Write (f : file).                               (* json.dump to data_file *)

Definition initialize_data_structures : Initial :=
  {| init_team_members := VDict [];
     init_skills_data :=
       VDict [("Technical Skills", VList []); ("Soft Skills", VList []);
              ("Software Skills", VList []); ("Certifications", VList [])];
     init_categories :=
       [("Technical Skills", []); ("Soft Skills", []);
        ("Software Skills", []); ("Certifications", [])] |}.

Definition default_skills_data : pyval :=
  VDict [("Technical Skills", VDict []); ("Soft Skills", VDict []);
         ("Software Skills", VList []); ("Certifications", VList [])].

Definition default_subskills_data : pyval :=
  VDict [("Technical Skills", VDict []); ("Soft Skills", VDict [])].

Definition initialize_empty_data (self : Initial) : App :=
  {| team_members := VDict [];
     skills_data := default_skills_data;
     subskills_data := default_subskills_data;
     meetings := VList [];
     categories := init_categories self |}.

(** [save_data]: the content of [data_file] after the dump (the write is
    taken to succeed; [handle_save_error] is dialog code). *)
Definition save_data (s : App) : file :=
  Parsed (VDict [("team_members", team_members s);
                 ("skills_data", skills_data s);
                 ("subskills_data", subskills_data s);
                 ("meetings", meetings s)]).

Section Formatting.

(** [str(v)] for a value that is not a [str]: left abstract. *)
Variable str_other : pyval -> string.

(** [f"{v}"] *)
Definition py_str (v : pyval) : string :=
  match v with
  | VStr s => s
  | _ => str_other v
  end.

(** The body of [for skill_type in ["technical_skills", "soft_skills"]]
    in [load_data], for one member. *)
Definition convert_skill_type (skill_type : string) (member : pyval)
  : result pyval :=
  old <- Py.get member skill_type ;;
  if Py.isinstance_dict old then
    entries <- Py.items old ;;
    new_skills <-
      for_each entries
        (fun '(category, skills) new_skills =>
           skills <- Py.iter skills ;;
           for_each skills
             (fun skill new_skills =>
                Ok (new_skills ++ [VStr (category ++ ": " ++ py_str skill)%string]))
             new_skills)
        [] ;;
    match member with
    | VDict d => Ok (VDict (Dict.set skill_type (VList new_skills) d))
    | _ => Raise TypeError
    end
  else Ok member.

Definition convert_member (member : pyval) : result pyval :=
  for_each ["technical_skills"; "soft_skills"] convert_skill_type member.

(** [for member in self.team_members.values()]: the members are changed
    in place, so every name keeps its record and its position. *)
Definition convert_members (tm : pyval) : result pyval :=
  match tm with
  | VDict d =>
      d' <- mapM (fun '(name, member) =>
                    member' <- convert_member member ;; Ok (name, member')) d ;;
      Ok (VDict d')
  | _ => Raise AttributeError
  end.

(** The [try] block of [load_data]. *)
Definition load_body (data : pyval) (self : Initial) : result App :=
  tm <- Py.get_default data "team_members" (VDict []) ;;
  sd <- Py.get_default data "skills_data" default_skills_data ;;
  ssd <- Py.get_default data "subskills_data" default_subskills_data ;;
  ms <- Py.get_default data "meetings" (VList []) ;;
  tm' <- convert_members tm ;;
  Ok {| team_members := tm'; skills_data := sd; subskills_data := ssd;
        meetings := ms; categories := init_categories self |}.

(** [load_data]: each of the three [except] clauses calls
    [initialize_empty_data]. *)
Definition load_data (f : file) (self : Initial) : App :=
  match f with
  | Missing => initialize_empty_data self
  | Malformed => initialize_empty_data self
  | Parsed data =>
      match load_body data self with
      | Ok s => s
      | Raise _ => initialize_empty_data self
      end
  end.

(** *** Meetings *)

(** [sorted(l, key=..., reverse=True)] on keys that are [str]: stable,
    greatest key first. *)
Fixpoint insert_desc {A : Type} (kx : string * A) (l : list (string * A))
  : list (string * A) :=
  match l with
  | [] => [kx]
  | ky :: t =>
      if String.ltb (fst ky) (fst kx) then kx :: l
      else ky :: insert_desc kx t
  end.

Definition sorted_desc {A : Type} (l : list (string * A)) : list (string * A) :=
  fold_left (fun acc kx => insert_desc kx acc) l [].

(** [lambda x: x['date']].  Every meeting written by [add_meeting] or
    [update_meeting] has a [str] date; a key of another type is outside
    this model and reported as [TypeError]. *)
Definition date_key (x : pyval) : result (string * pyval) :=
  d <- Py.item x "date" ;;
  match d with
  | VStr k => Ok (k, x)
  | _ => Raise TypeError
  end.

(** [refresh_meetings_list]: the lines put in the listbox, first to last. *)
Definition refresh_meetings_list (s : App) : result (list string) :=
  ms <- Py.iter (meetings s) ;;
  keyed <- mapM date_key ms ;;
  mapM (fun '(_, meeting) =>
          d <- Py.item meeting "date" ;;
          t <- Py.item meeting "title" ;;
          Ok (py_str d ++ " - " ++ py_str t)%string)
       (sorted_desc keyed).

End Formatting.

(** ** Event handlers *)

(** What a handler leaves behind: the data attributes, the dialogs shown
    and files written in order, and the exception that left the handler,
    if one did. *)
Record outcome : Type := mk_outcome {
  self_after : App;
  shown : list event;
  raised : option exn
}.

Definition done (s : App) (evs : list event) : outcome := mk_outcome s evs None.
Definition propagate (s : App) (evs : list event) (e : exn) : outcome :=
  mk_outcome s evs (Some e).

(** [skill_type.lower().replace(' ', '_')] *)
Definition skill_key (skill_type : string) : string :=
  PyStr.replace " "%char "_"%char (PyStr.lower skill_type).

(** [refresh_categories] only reads: [self.categories[skill_type]] raises
    [KeyError] for an unknown family. *)
Definition refresh_categories (skill_type : string) (s : App) : result unit :=
  _ <- Dict.item skill_type (categories s) ;; Ok tt.


(** ** Startup: [__init__], [create_widgets] and the tabs

    The construction of the window changes data in two places
    ([populate_skill_dropdowns] and the last statement of
    [create_widgets]) and can be left by an exception where it reads the
    data or one of the dictionaries of Tk variables and widgets.  These
    dictionaries are represented by their keys. *)

Record Widgets : Type := {
  category_vars : list string;
  subskill_vars : list string;
  category_dropdowns : list string;
  subskill_dropdowns : list string
}.

(** [d[k]] on such a dictionary: the lookup raises [KeyError] for a key
    that is not there. *)
Definition widget (k : string) (keys : list string) : result unit :=
  if existsb (String.eqb k) keys then Ok tt else Raise KeyError.

(** [d[k] = ...] *)
Definition with_widget (k : string) (keys : list string) : list string :=
  if existsb (String.eqb k) keys then keys else keys ++ [k].

Definition skill_families : list string :=
  ["Technical Skills"; "Soft Skills"; "Software Skills"; "Certifications"].

(** The two dictionaries of [StringVar]s that [__init__] builds after
    [initialize_data_structures]; the dictionaries of dropdowns do not
    exist yet. *)
Definition initial_vars : Widgets :=
  {| category_vars := skill_families; subskill_vars := skill_families;
     category_dropdowns := []; subskill_dropdowns := [] |}.

(** [initialize_ui_components], which [__init__] calls next: the four
    dictionaries are assigned [{}], also the two that were just filled. *)
Definition initialize_ui_components (w : Widgets) : Widgets :=
  {| category_vars := []; subskill_vars := [];
     category_dropdowns := []; subskill_dropdowns := [] |}.

(** A step of the construction: the dictionaries, and what it leaves of
    the application. *)
Definition step : Type := Widgets -> App -> Widgets * outcome.

Definition and_then (first next : step) : step :=
  fun w s =>
    let '(w1, o1) := first w s in
    match raised o1 with
    | Some _ => (w1, o1)
    | None =>
        let '(w2, o2) := next w1 (self_after o1) in
        (w2, mk_outcome (self_after o2) (shown o1 ++ shown o2) (raised o2))
    end.

(** A step that only reads. *)
Definition reading (read : App -> result unit) : step :=
  fun w s =>
    match read s with
    | Ok _ => (w, done s [])
    | Raise e => (w, propagate s [] e)
    end.

(** [refresh_team_list]: a row per member, from [data.get] on its
    record. *)
Definition refresh_team_list (s : App) : result unit :=
  members <- Py.items (team_members s) ;;
  _ <- mapM (fun '(_, data) =>
               _ <- Py.get_default data "job_title" (VStr "") ;;
               _ <- Py.get_default data "join_date" (VStr "") ;;
               _ <- Py.get_default data "birthday" (VStr "") ;;
               Ok tt)
            members ;;
  Ok tt.

(** [refresh_certifications]: [for cert in self.skills_data["Certifications"]]. *)
Definition refresh_certifications (s : App) : result unit :=
  catalog <- Py.item (skills_data s) "Certifications" ;;
  _ <- Py.iter catalog ;;
  Ok tt.

(** The [try] block of [populate_skill_dropdowns] for one of the three
    hierarchical names when both of its dropdowns are in place: the
    application after the block and the exception that ended it, if one
    did.  The family is added empty when [subskills_data] lacks it; the
    keys of the family are read; then [self.category_vars[skill_type]]
    is set and, when the family has no category,
    [self.subskill_vars[skill_type]] too ([on_category_select], called
    when it has one, raises nothing). *)
Definition populate_hierarchical (skill_type : string) (w : Widgets) (s : App)
  : App * option exn :=
  match Py.contains (subskills_data s) skill_type with
  | Raise e => (s, Some e)
  | Ok present =>
      match (if present then Ok s
             else
               match subskills_data s with
               | VDict d =>
                   Ok (set_subskills_data
                         (VDict (Dict.set skill_type (VDict []) d)) s)
               | _ => Raise TypeError
               end) with
      | Raise e => (s, Some e)
      | Ok s' =>
          match (family <- Py.item (subskills_data s') skill_type ;;
                 categories <- Py.items family ;;
                 _ <- widget skill_type (category_vars w) ;;
                 match categories with
                 | [] => widget skill_type (subskill_vars w)
                 | _ :: _ => Ok tt
                 end) with
          | Raise e => (s', Some e)
          | Ok _ => (s', None)
          end
      end
  end.

(** [populate_skill_dropdowns]: every exception of the body is caught and
    shown.  For "Certifications" the dropdown made by
    [create_member_details_tab] is given
    [self.skills_data.get("Certifications", [])] (a list of names; what
    Tk makes of another value is not part of the model); another name
    does nothing. *)
Definition populate_skill_dropdowns (skill_type : string) : step :=
  fun w s =>
    let failed e :=
      ShowErrorExn "Error"
        ("An error occurred while populating " ++ skill_type ++ " dropdowns: ") e in
    if existsb (String.eqb skill_type)
         ["Technical Skills"; "Soft Skills"; "Software Skills"] then
      if existsb (String.eqb skill_type) (category_dropdowns w)
         && existsb (String.eqb skill_type) (subskill_dropdowns w) then
        match populate_hierarchical skill_type w s with
        | (s', Some e) => (w, done s' [failed e])
        | (s', None) => (w, done s' [])
        end
      else (w, done s [])
    else if String.eqb skill_type "Certifications" then
      match Py.get_default (skills_data s) "Certifications" (VList []) with
      | Raise e => (w, done s [failed e])
      | Ok _ => (w, done s [])
      end
    else (w, done s []).

(** [create_skill_section]: the comboboxes are made with
    [textvariable=self.category_vars[skill_type]] (and
    [self.subskill_vars[skill_type]] for a hierarchical name), the
    dropdowns are stored, and [populate_skill_dropdowns] is called. *)
Definition create_skill_section (skill_type : string) : step :=
  let hierarchical :=
    existsb (String.eqb skill_type)
      ["Technical Skills"; "Soft Skills"; "Software Skills"] in
  fun w s =>
    match (_ <- widget skill_type (category_vars w) ;;
           if hierarchical then widget skill_type (subskill_vars w) else Ok tt) with
    | Raise e => (w, propagate s [] e)
    | Ok _ =>
        let w' :=
          {| category_vars := category_vars w;
             subskill_vars := subskill_vars w;
             category_dropdowns := with_widget skill_type (category_dropdowns w);
             subskill_dropdowns :=
               if hierarchical then with_widget skill_type (subskill_dropdowns w)
               else subskill_dropdowns w |} in
        populate_skill_dropdowns skill_type w' s
    end.

(** [create_member_details_tab]: the three sections, in this order. *)
Definition create_member_details_tab : step :=
  and_then (create_skill_section "Technical Skills")
    (and_then (create_skill_section "Soft Skills")
       (create_skill_section "Certifications")).

(** [create_hierarchical_skills_section]: the variables and dropdowns of
    the family are stored, then [refresh_categories] reads
    [self.categories[skill_type]]. *)
Definition create_hierarchical_skills_section (skill_type : string) : step :=
  fun w s =>
    reading (refresh_categories skill_type)
      {| category_vars := with_widget skill_type (category_vars w);
         subskill_vars := with_widget skill_type (subskill_vars w);
         category_dropdowns := with_widget skill_type (category_dropdowns w);
         subskill_dropdowns := with_widget skill_type (subskill_dropdowns w) |}
      s.

(** [create_skills_management_tab] *)
Definition create_skills_management_tab : step :=
  and_then (create_hierarchical_skills_section "Technical Skills")
    (and_then (create_hierarchical_skills_section "Soft Skills")
       (reading refresh_certifications)).

Section Startup.

Variable str_other : pyval -> string.

(** [create_widgets]: [create_team_members_tab] ends with
    [refresh_team_list], [create_meetings_tab] with
    [refresh_meetings_list]; the last statement is [self.meetings = []]. *)
Definition create_widgets : step :=
  and_then (reading refresh_team_list)
    (and_then create_member_details_tab
       (and_then create_skills_management_tab
          (and_then
             (reading (fun s => _ <- refresh_meetings_list str_other s ;; Ok tt))
             (fun w s => (w, done (set_meetings (VList []) s) []))))).

(** [AscentPro.__init__] from the point where [load_config] has
    returned, up to the return of [create_widgets]:
    [initialize_data_structures] and the two dictionaries of variables
    come before, [initialize_ui_components] empties them, [load_data]
    reads the data file [f], and [create_widgets] builds the window.  An
    exception leaves [__init__] (it is logged and raised again). *)
Definition startup (f : file) : outcome :=
  snd (create_widgets (initialize_ui_components initial_vars)
         (load_data str_other f initialize_data_structures)).

End Startup.

(** *** Taxonomy: [add_category], [add_subskills_to_category], [delete_category] *)

(** [add_subskills_to_category]: the [while True] loop asks for one
    subskill after the other; [answers] are the replies of [askstring],
    [None] for a cancelled dialog.  The loop ends at the first reply that
    is [None] or empty (a list that runs out stands for a cancel). *)
Fixpoint add_subskills_loop (skill_type category : string)
    (answers : list (option string)) (c : taxonomy) (evs : list event)
  : result (taxonomy * list event) :=
  match answers with
  | Some new_subskill :: rest =>
      if PyStr.truthy new_subskill then
        let new_subskill := PyStr.strip new_subskill in
        cats <- Dict.item skill_type c ;;
        subs <- Dict.item category cats ;;
        if existsb (String.eqb new_subskill) subs then
          add_subskills_loop skill_type category rest c
            (evs ++ [ShowWarning "Duplicate"
                       ("Subskill '" ++ new_subskill
                        ++ "' already exists in this category.")%string])
        else
          add_subskills_loop skill_type category rest
            (Dict.set skill_type
               (Dict.set category (subs ++ [new_subskill]) cats) c)
            evs
      else Ok (c, evs)
  | _ => Ok (c, evs)
  end.

Definition add_subskills_to_category (skill_type category : string)
    (answers : list (option string)) (s : App) (evs : list event) : outcome :=
  match add_subskills_loop skill_type category answers (categories s) evs with
  | Raise e => propagate s evs e
  | Ok (c, evs) =>
      let s := set_categories c s in
      let evs := evs ++ [Write (save_data s)] in
      match refresh_categories skill_type s with
      | Raise e => propagate s evs e
      | Ok _ => done s evs
      end
  end.

(** [add_category]: [answer] is the reply to "Enter new ... category",
    [answers] the replies to the subskill prompts that follow. *)
Definition add_category (skill_type : string) (answer : option string)
    (answers : list (option string)) (s : App) : outcome :=
  match answer with
  | Some new_category =>
      if PyStr.truthy new_category then
        let new_category := PyStr.strip new_category in
        match Dict.item skill_type (categories s) with
        | Raise e => propagate s [] e
        | Ok cats =>
            if Dict.mem new_category cats then
              done s [ShowError "Error"
                        ("Category '" ++ new_category ++ "' already exists in "
                         ++ skill_type ++ ".")%string]
            else
              let s := set_categories
                         (Dict.set skill_type (Dict.set new_category [] cats)
                            (categories s)) s in
              add_subskills_to_category skill_type new_category answers s
                [Write (save_data s);
                 ShowInfo "Success"
                   ("Category '" ++ new_category ++ "' added to "
                    ++ skill_type ++ ".")%string]
        end
      else done s []
  | None => done s []
  end.

(** [delete_category]: [category] is the value of the category variable,
    [confirm] the answer to the yes/no question. *)
Definition delete_category (skill_type category : string) (confirm : bool)
    (s : App) : outcome :=
  if negb (PyStr.truthy category) then
    done s [ShowError "Error"
              ("Please select a category to delete from " ++ skill_type ++ ".")%string]
  else if confirm then
    match (cats <- Dict.item skill_type (categories s) ;;
           cats' <- Dict.del category cats ;;
           Ok (Dict.set skill_type cats' (categories s))) with
    | Raise e => propagate s [] e
    | Ok c =>
        let s := set_categories c s in
        done s [Write (save_data s);
                ShowInfo "Deleted"
                  ("Category '" ++ category
                   ++ "' and all its subskills have been deleted from "
                   ++ skill_type ++ ".")%string]
    end
  else done s [].

(** *** Taxonomy: [add_multiple_subskills] *)

(** [self.subskills_data[skill_type][category]] *)
Definition subskills_of (skill_type category : string) (s : App) : result pyval :=
  by_type <- Py.item (subskills_data s) skill_type ;;
  Py.item by_type category.

(** The list reached through [self.subskills_data[skill_type][category]]
    is changed in place. *)
Definition store_subskills (skill_type category : string) (v : pyval) (s : App)
  : result App :=
  match subskills_data s with
  | VDict d1 =>
      match Dict.get skill_type d1 with
      | Some (VDict d2) =>
          Ok (set_subskills_data
                (VDict (Dict.set skill_type (VDict (Dict.set category v d2)) d1)) s)
      | _ => Raise TypeError
      end
  | _ => Raise TypeError
  end.

(** The variables of the loop: the application, [added_subskills] and the
    warnings shown so far. *)
Definition add_one_subskill (skill_type category subskill : string)
    (st : App * list string * list event) : result (App * list string * list event) :=
  let '(s, added_subskills, evs) := st in
  target <- subskills_of skill_type category s ;;
  present <- Py.contains target subskill ;;
  if negb present then
    target' <- Py.append target (VStr subskill) ;;
    s' <- store_subskills skill_type category target' s ;;
    Ok (s', added_subskills ++ [subskill], evs)
  else
    Ok (s, added_subskills,
        evs ++ [ShowWarning "Duplicate"
                  ("Subskill '" ++ subskill
                   ++ "' already exists in this category.")%string]).

(** [[s.strip() for s in subskills_text.split(',') if s.strip()]] *)
Definition parse_subskills (subskills_text : string) : list string :=
  map PyStr.strip
    (filter (fun s => PyStr.truthy (PyStr.strip s))
       (PyStr.split ","%char subskills_text)).

(** [add_multiple_subskills]: [category] is the value of the category
    variable, [entry] the text of the subskill entry. *)
Definition add_multiple_subskills (skill_type category entry : string) (s : App)
  : outcome :=
  if negb (PyStr.truthy category) then
    done s [ShowError "Error" "Please select a category first."]
  else
    let subskills_text := PyStr.strip entry in
    if negb (PyStr.truthy subskills_text) then
      done s [ShowError "Error" "Please enter subskills separated by commas."]
    else
      let subskills := parse_subskills subskills_text in
      match for_each_keep subskills (add_one_subskill skill_type category)
              (s, [], []) with
      | ((s', _, evs), Some e) => propagate s' evs e
      | ((s', added_subskills, evs), None) =>
          match added_subskills with
          | _ :: _ =>
              let evs := evs ++ [Write (save_data s')] in
              match refresh_categories skill_type s' with
              | Raise e => propagate s' evs e
              | Ok _ =>
                  done s'
                    (evs ++ [ShowInfo "Success"
                               ("Added " ++ PyStr.of_nat (length added_subskills)
                                ++ " new subskills to '" ++ category ++ "'.")%string])
              end
          | [] => done s' (evs ++ [ShowInfo "No Changes" "No new subskills were added."])
          end
      end.

(** *** Members: [add_skill_to_member], [move_goal_to_achievement] *)

(** The skill that [add_skill_to_member] builds from the variables passed
    in [*args] ([args] holds their values): "category: subskill" for the
    two families named in the source, the selected value otherwise.
    [None] stands for the "Please select ..." dialog. *)
Definition skill_of_args (skill_type : string) (args : list string)
  : result (option string) :=
  if existsb (String.eqb skill_type) ["Technical Skills"; "Soft Skills"] then
    match args with
    | [category; subskill] =>
        if negb (PyStr.truthy category) || negb (PyStr.truthy subskill)
        then Ok None
        else Ok (Some (category ++ ": " ++ subskill)%string)
    | _ => Raise ValueError
    end
  else
    match args with
    | [skill] => if negb (PyStr.truthy skill) then Ok None else Ok (Some skill)
    | _ => Raise ValueError
    end.

Definition select_message (skill_type : string) : string :=
  if existsb (String.eqb skill_type) ["Technical Skills"; "Soft Skills"] then
    ("Please select a category and subskill for " ++ skill_type ++ ".")%string
  else ("Please select a " ++ skill_type ++ ".")%string.

(** [member[key]] is a list changed in place: the member keeps its place
    in [team_members] and the list its place in the member. *)
Definition store_member_field (member_name key : string) (v : pyval) (s : App)
  : result App :=
  match team_members s with
  | VDict tm =>
      match Dict.get member_name tm with
      | Some (VDict member) =>
          Ok (set_team_members
                (VDict (Dict.set member_name (VDict (Dict.set key v member)) tm)) s)
      | _ => Raise TypeError
      end
  | _ => Raise TypeError
  end.

(** [add_skill_to_member]: [member_name] is the value of [member_var].
    Every exception comes before the list is changed. *)
Definition add_skill_to_member (member_name skill_type : string)
    (args : list string) (s : App) : outcome :=
  if negb (PyStr.truthy member_name) then
    done s [ShowError "Error" "Please select a team member."]
  else
    match (member <- Py.item (team_members s) member_name ;;
           skill_list <- Py.item member (skill_key skill_type) ;;
           choice <- skill_of_args skill_type args ;;
           Ok (skill_list, choice)) with
    | Raise e => propagate s [] e
    | Ok (_, None) => done s [ShowError "Error" (select_message skill_type)]
    | Ok (skill_list, Some skill) =>
        match Py.contains skill_list skill with
        | Raise e => propagate s [] e
        | Ok true =>
            done s [ShowInfo "Info"
                      (skill ++ " is already in the member's " ++ skill_type
                       ++ " list.")%string]
        | Ok false =>
            match (skill_list' <- Py.append skill_list (VStr skill) ;;
                   store_member_field member_name (skill_key skill_type)
                     skill_list' s) with
            | Raise e => propagate s [] e
            | Ok s' =>
                done s' [Write (save_data s');
                         ShowInfo "Success"
                           (skill ++ " has been added to " ++ member_name
                            ++ "'s " ++ skill_type ++ ".")%string]
            end
        end
    end.

(** [l.pop(i)] for an index known to be in range: the list without its
    element at [i]. *)
Definition remove_at {A : Type} (i : nat) (l : list A) : list A :=
  firstn i l ++ skipn (S i) l.

(** The goals text widget: [goals_text] is what
    [widget.get("1.0", tk.END)] returns (Tk ends the text with a newline). *)
Record goal_outcome : Type := mk_goal_outcome {
  goals_text : string;
  app_outcome : outcome
}.

(** [move_goal_to_achievement]: [line_num] is the line of the text index
    under the pointer, [text] the content of the goals widget,
    [member_name] the value of [member_var].  The whole body is in a
    [try]; [except Exception] shows an error. *)
Definition move_goal_to_achievement (line_num : Z) (text member_name : string)
    (s : App) : goal_outcome :=
  let goals := PyStr.split PyStr.newline (PyStr.strip text) in
  if (1 <=? line_num)%Z && (line_num <=? Z.of_nat (length goals))%Z then
    let i := Z.to_nat (line_num - 1) in
    let achieved_goal := nth i goals EmptyString in
    let goals := remove_at i goals in
    let text' := (PyStr.join PyStr.nl goals ++ PyStr.nl)%string in
    let failed := ShowError "Error"
                    "Failed to move goal to achievement. Please try again." in
    match (member <- Py.get_default (team_members s) member_name (VDict []) ;;
           achievements <- Py.item member "achievements" ;;
           achievements' <- Py.append achievements (VStr achieved_goal) ;;
           store_member_field member_name "achievements" achievements' s) with
    | Raise _ => mk_goal_outcome text' (done s [failed])
    | Ok s' =>
        mk_goal_outcome text'
          (done s' [Write (save_data s');
                    ShowInfo "Goal Achieved"
                      ("The goal '" ++ achieved_goal
                       ++ "' has been moved to achievements!")%string])
    end
  else mk_goal_outcome text (done s []).

(** *** Bulk import: [upload_skills_csv] *)

(** The fields of a data row: a row of one field is split again on
    commas. *)
Definition resolve_row (row : list string) : list string :=
  match row with
  | [single] => PyStr.split ","%char single
  | _ => row
  end.

(** The three [if ... not in ...] statements of the loop body. *)
Definition add_skill_row (category subcategory skill : string) (c : taxonomy)
  : taxonomy :=
  let c := if Dict.mem category c then c else Dict.set category [] c in
  let subs := match Dict.get category c with Some d => d | None => [] end in
  let subs := if Dict.mem subcategory subs then subs
              else Dict.set subcategory [] subs in
  let skills := match Dict.get subcategory subs with Some l => l | None => [] end in
  let skills := if existsb (String.eqb skill) skills then skills
                else skills ++ [skill] in
  Dict.set category (Dict.set subcategory skills subs) c.

Definition import_row (row : list string) (c : taxonomy) : result taxonomy :=
  let row := resolve_row row in
  match map PyStr.strip row with
  | [category; subcategory; skill] => Ok (add_skill_row category subcategory skill c)
  | _ => Raise (InvalidRowFormat row)
  end.

Definition csv_error (e : exn) : event :=
  ShowErrorExn "Error" "An error occurred while processing the CSV file: " e.

(** [upload_skills_csv]: [rows] is what [csv.reader(csv_file, delimiter='\t')]
    yields for the chosen file, the header row first. *)
Definition upload_skills_csv (rows : list (list string)) (s : App) : outcome :=
  match rows with
  | [] => done s [csv_error StopIteration]          (* next(csv_reader) *)
  | _header :: data =>
      match for_each_keep data import_row (categories s) with
      | (c, Some e) => done (set_categories c s) [csv_error e]
      | (c, None) =>
          let s := set_categories c s in
          match refresh_categories "Technical Skills" s with
          | Raise e => done s [Write (save_data s); csv_error e]
          | Ok _ =>
              done s [Write (save_data s);
                      ShowInfo "Success"
                        "Skills CSV uploaded and processed successfully."]
          end
      end
  end.

(** ** Python's [str] of a value that is not a [str]

    [str(None)], [str(True)], [str(5)], and for a list or a dict the
    [repr] of its parts between brackets or braces.  The [repr] of a
    [str] is quoted with ['], or with the double quote when the text
    holds a ['] and no double quote; the quote in use and the backslash
    are escaped, tab, newline and carriage return are written [\t],
    [\n] and [\r], and the other code points that are not printable as
    [\x] and two hexadecimal digits. *)

Module PyRepr.

Definition double_quote : ascii := ascii_of_nat 34.
Definition backslash : ascii := ascii_of_nat 92.

Fixpoint has (c : ascii) (s : string) : bool :=
  match s with
  | EmptyString => false
  | String a r => Ascii.eqb a c || has c r
  end.

Definition hex_digit (n : nat) : ascii :=
  nth n (list_ascii_of_string "0123456789abcdef") "0"%char.

(** A code point below 256 is printable unless it is a control character,
    the no-break space or the soft hyphen. *)
Definition printable (n : nat) : bool :=
  negb ((n <? 32) || ((127 <=? n) && (n <=? 160)) || (n =? 173))%nat.

Definition escaped (quote c : ascii) : string :=
  let n := nat_of_ascii c in
  let plain (x : ascii) := String x EmptyString in
  if Ascii.eqb c quote || Ascii.eqb c backslash then String backslash (plain c)
  else if (n =? 9)%nat then String backslash "t"
  else if (n =? 10)%nat then String backslash "n"
  else if (n =? 13)%nat then String backslash "r"
  else if printable n then plain c
  else String backslash
         (String "x" (String (hex_digit (n / 16)) (plain (hex_digit (n mod 16))))).

Fixpoint escape_all (quote : ascii) (s : string) : string :=
  match s with
  | EmptyString => EmptyString
  | String c r => (escaped quote c ++ escape_all quote r)%string
  end.

(** [repr(s)] for a [str]. *)
Definition of_str (s : string) : string :=
  let quote :=
    if has "'"%char s && negb (has double_quote s) then double_quote
    else "'"%char in
  String quote (escape_all quote s ++ String quote EmptyString)%string.

(** [repr(n)] for an [int]. *)
Definition of_int (n : Z) : string := NilZero.string_of_int (Z.to_int n).

(** [repr(v)] *)
Fixpoint repr (v : pyval) : string :=
  match v with
  | VNone => "None"
  | VBool true => "True"
  | VBool false => "False"
  | VInt n => of_int n
  | VStr s => of_str s
  | VList l => ("[" ++ PyStr.join ", " (map repr l) ++ "]")%string
  | VDict d =>
      ("{" ++ PyStr.join ", "
                (map (fun kv => (of_str (fst kv) ++ ": " ++ repr (snd kv))%string) d)
       ++ "}")%string
  end.

(** [str(v)]: a [str] is itself, another value has its [repr]. *)
Definition str (v : pyval) : string :=
  match v with
  | VStr s => s
  | _ => repr v
  end.

End PyRepr.

(** ** Definitions used to state the properties *)

Module Spec.

(** The legacy layout of a member's skill field, [{category: [skills...]}]. *)
Definition legacy_map (cats : list (string * list string)) : pyval :=
  VDict (map (fun '(category, skills) => (category, VList (map VStr skills))) cats).

(** One "category: skill" string per skill, categories in their stored
    order and skills in their order within the category. *)
Definition flat_skills (cats : list (string * list string)) : list string :=
  flat_map (fun '(category, skills) =>
              map (fun skill => (category ++ ": " ++ skill)%string) skills)
           cats.

(** A member of a well-formed document: a dict whose [skill_type] field,
    when it is a dict, is in the legacy layout. *)
Definition legacy_or_flat (skill_type : string) (member : list (string * pyval))
  : Prop :=
  forall v, Dict.get skill_type member = Some v ->
            Py.isinstance_dict v = true -> exists cats, v = legacy_map cats.

Definition well_formed_member (member : pyval) : Prop :=
  exists d, member = VDict d
            /\ legacy_or_flat "technical_skills" d
            /\ legacy_or_flat "soft_skills" d.

(** A member as [load_data] leaves it: no dict in the two skill fields. *)
Definition flat_member (member : pyval) : Prop :=
  exists d, member = VDict d
            /\ (forall v, Dict.get "technical_skills" d = Some v ->
                          Py.isinstance_dict v = false)
            /\ (forall v, Dict.get "soft_skills" d = Some v ->
                          Py.isinstance_dict v = false).

(** A date in the DD/MM/YYYY layout read as a calendar date, coded as
    the number YYYYMMDD so that later dates are greater. *)
Definition digit (c : ascii) : option Z :=
  let n := Z.of_nat (nat_of_ascii c) in
  if ((48 <=? n) && (n <=? 57))%Z then Some (n - 48)%Z else None.

Fixpoint number_from (acc : Z) (s : string) : option Z :=
  match s with
  | EmptyString => Some acc
  | String c r =>
      match digit c with
      | Some d => number_from (10 * acc + d)%Z r
      | None => None
      end
  end.

Definition number (s : string) : option Z :=
  match s with
  | EmptyString => None
  | _ => number_from 0%Z s
  end.

Definition parsed_date (s : string) : option Z :=
  match PyStr.split "/"%char s with
  | [dd; mm; yyyy] =>
      match number dd, number mm, number yyyy with
      | Some d, Some m, Some y => Some (y * 10000 + m * 100 + d)%Z
      | _, _, _ => None
      end
  | _ => None
  end.

(** The tokens of a bulk entry in the words of the specification: split
    on commas, trim each token, drop the empty ones. *)
Definition tokens (text : string) : list string :=
  filter PyStr.truthy (map PyStr.strip (PyStr.split ","%char text)).

(** The first occurrence of every element. *)
Fixpoint dedup (l : list string) : list string :=
  match l with
  | [] => []
  | x :: t => x :: filter (fun y => negb (String.eqb y x)) (dedup t)
  end.

(** The tokens that are new to the category, each once, in input order. *)
Definition new_tokens (existing : list pyval) (toks : list string) : list string :=
  dedup (filter (fun t => negb (existsb (Py.is_str t) existing)) toks).

(** A data row that resolves to three fields. *)
Definition three_fields (row : list string) : bool :=
  (length (resolve_row row) =? 3)%nat.

(** The skill families in which a skill is a category with a subskill. *)
Definition hierarchical : list string :=
  ["Technical Skills"; "Soft Skills"; "Software Skills"].

End Spec.

(** ** Auxiliary definitions of the proofs *)

Definition map_first {A : Type} (f : A -> A) (l : list A) : list A :=
  match l with
  | [] => []
  | x :: t => f x :: t
  end.

Fixpoint map_last {A : Type} (f : A -> A) (l : list A) : list A :=
  match l with
  | [] => []
  | [x] => [f x]
  | x :: t => x :: map_last f t
  end.

(** The subskills the loop of [add_multiple_subskills] appends to a
    category that holds [cur], and the ones it warns about. *)
Fixpoint added_from (cur : list pyval) (toks : list string) : list string :=
  match toks with
  | [] => []
  | t :: r =>
      if existsb (Py.is_str t) cur then added_from cur r
      else t :: added_from (cur ++ [VStr t]) r
  end.

Fixpoint skipped_from (cur : list pyval) (toks : list string) : list string :=
  match toks with
  | [] => []
  | t :: r =>
      if existsb (Py.is_str t) cur then t :: skipped_from cur r
      else skipped_from (cur ++ [VStr t]) r
  end.

(** [a] does not come before [b] in the order of the listbox: the key of
    [a] is not smaller, as text, than the key of [b]. *)
Definition not_below {A : Type} (a b : string * A) : Prop :=
  String.ltb (fst a) (fst b) = false.

(** The entries with the key [k], in order. *)
Definition with_key {A : Type} (k : string) (l : list (string * A))
  : list (string * A) :=
  filter (fun x => String.eqb (fst x) k) l.

Definition duplicate_warning (subskill : string) : event :=
  ShowWarning "Duplicate"
    ("Subskill '" ++ subskill ++ "' already exists in this category.")%string.

(** ** Four properties in the words of the specification

    The bulk add, the import, the skill assignment and the goal move as
    the specification words them.  The handlers do not satisfy them as
    they stand; the theorems below state what holds instead. *)

Module Stated.

(** A count report: the success dialog with the number, or the
    "No Changes" dialog for zero. *)
Definition reports_count (n : nat) (category : string) (evs : list event) : Prop :=
  In (match n with
      | O => ShowInfo "No Changes" "No new subskills were added."
      | _ => ShowInfo "Success"
               ("Added " ++ PyStr.of_nat n ++ " new subskills to '"
                ++ category ++ "'.")%string
      end) evs.

(** Bulk subskill add: for every hierarchical family, present category
    and input text, the new tokens are appended in order, their number is
    reported, duplicates are skipped silently and the call does not fail. *)
Definition bulk_add : Prop :=
  forall (skill_type category entry : string) (s : App)
         (by_type by_category : list (string * pyval)) (existing : list pyval),
    In skill_type Spec.hierarchical ->
    subskills_data s = VDict by_type ->
    Dict.get skill_type by_type = Some (VDict by_category) ->
    Dict.get category by_category = Some (VList existing) ->
    let added := Spec.new_tokens existing (Spec.tokens entry) in
    let o := add_multiple_subskills skill_type category entry s in
    raised o = None
    /\ subskills_of skill_type category (self_after o)
       = Ok (VList (existing ++ map VStr added))
    /\ reports_count (length added) category (shown o)
    /\ (forall title message, ~ In (ShowWarning title message) (shown o)).

(** A data row that resolves to three fields none of which is empty once
    trimmed. *)
Definition three_nonempty_fields (row : list string) : bool :=
  match map PyStr.strip (resolve_row row) with
  | [category; subcategory; skill] =>
      PyStr.truthy category && PyStr.truthy subcategory && PyStr.truthy skill
  | _ => false
  end.

(** CSV import: the import fails with the format error if and only if
    some data row does not resolve to three non-empty trimmed fields. *)
Definition import_failure : Prop :=
  forall (header : list string) (data : list (list string)) (s : App),
    (exists row,
        shown (upload_skills_csv (header :: data) s)
        = [csv_error (InvalidRowFormat row)])
    <-> (exists row, In row data /\ three_nonempty_fields row = false).

(** The member's list of a family after a handler has run. *)
Definition skills_of (member_name skill_type : string) (s : App) : result pyval :=
  member <- Py.item (team_members s) member_name ;;
  Py.item member (skill_key skill_type).

(** Skill assignment: for every hierarchical family the canonical string
    is built; a duplicate is reported and changes nothing, a new string
    is appended once. *)
Definition assign_skill : Prop :=
  forall (member_name skill_type category subskill : string) (s : App)
         (skill_list : list pyval),
    In skill_type Spec.hierarchical ->
    member_name <> EmptyString -> category <> EmptyString ->
    subskill <> EmptyString ->
    skills_of member_name skill_type s = Ok (VList skill_list) ->
    let skill := (category ++ ": " ++ subskill)%string in
    let o := add_skill_to_member member_name skill_type [category; subskill] s in
    (In (VStr skill) skill_list ->
       self_after o = s /\ exists title message, shown o = [ShowInfo title message])
    /\ (~ In (VStr skill) skill_list ->
          skills_of member_name skill_type (self_after o)
          = Ok (VList (skill_list ++ [VStr skill]))).

(** Goal move: a position outside the goals is reported as an error; a
    position inside removes that goal, keeps the order of the others and
    appends the goal to the achievements. *)
Definition move_goal : Prop :=
  forall (line_num : Z) (text member_name : string) (s : App)
         (tm member : list (string * pyval)) (achievements : list pyval),
    team_members s = VDict tm ->
    Dict.get member_name tm = Some (VDict member) ->
    Dict.get "achievements" member = Some (VList achievements) ->
    let goals := PyStr.split PyStr.newline (PyStr.strip text) in
    let r := move_goal_to_achievement line_num text member_name s in
    ((line_num < 1 \/ Z.of_nat (length goals) < line_num)%Z ->
       exists title message, In (ShowError title message) (shown (app_outcome r)))
    /\ ((1 <= line_num <= Z.of_nat (length goals))%Z ->
        exists before goal after,
          goals = before ++ goal :: after
          /\ Z.of_nat (length before) = (line_num - 1)%Z
          /\ goals_text r
             = (PyStr.join PyStr.nl (before ++ after) ++ PyStr.nl)%string
          /\ (member <- Py.item (team_members (self_after (app_outcome r)))
                          member_name ;;
              Py.item member "achievements")
             = Ok (VList (achievements ++ [VStr goal]))).

End Stated.

(** ** Sample data *)

Module Sample.

Definition meeting (date title : string) : pyval :=
  VDict [("date", VStr date); ("title", VStr title); ("highlights", VStr "");
         ("notes", VStr ""); ("action_items", VStr "")].

Definition member_fields (technical soft : pyval) (goals achievements : list string)
  : list (string * pyval) :=
  [("job_title", VStr "Engineer"); ("join_date", VStr "01/02/2020");
   ("birthday", VStr "03/04/1990");
   ("technical_skills", technical); ("soft_skills", soft);
   ("software_skills", VList []); ("certifications", VList []);
   ("goals", VList (map VStr goals)); ("development_plan", VStr "");
   ("hobbies", VList []); ("interests", VList []); ("family", VStr "");
   ("achievements", VList (map VStr achievements));
   ("issues_concerns", VStr ""); ("other_personal_details", VStr "")].

(** A member whose technical skills are in the legacy layout. *)
Definition ada_stored : list (string * pyval) :=
  member_fields (Spec.legacy_map [("A", ["x"; "y"])]) (VList []) ["g1"; "g2"] [].

(** The same member in the flat layout. *)
Definition ada : list (string * pyval) :=
  member_fields (VList [VStr "A: x"; VStr "A: y"]) (VList []) ["g1"; "g2"] [].

Definition members_stored : list (string * pyval) := [("Ada", VDict ada_stored)].
Definition members : list (string * pyval) := [("Ada", VDict ada)].

Definition technical_subskills : list (string * pyval) :=
  [("Languages", VList [VStr "Python"])].

Definition subskills : list (string * pyval) :=
  [("Technical Skills", VDict technical_subskills); ("Soft Skills", VDict [])].

(** A document in the layout [save_data] writes, with one member and one
    meeting. *)
Definition document_fields : list (string * pyval) :=
  [("team_members", VDict members_stored);
   ("skills_data", default_skills_data);
   ("subskills_data", VDict subskills);
   ("meetings", VList [meeting "05/03/2024" "Review"])].

Definition document : pyval := VDict document_fields.

(** [str], where a run on the sample data needs it. *)
Definition str_other (v : pyval) : string := PyRepr.str v.

(** The application once [load_data] has read [document]. *)
Definition app : App :=
  load_data str_other (Parsed document) initialize_data_structures.

(** The application with a meeting log. *)
Definition app_with_meetings (ms : list pyval) : App := set_meetings (VList ms) app.

(** The application once the category "A" with the subskills "x" and "y"
    has been added to the technical skills. *)
Definition app_with_category : App :=
  self_after (add_category "Technical Skills" (Some "A") [Some "x"; Some "y"] app).

(** The goals text of Ada. *)
Definition goals_text : string := ("g1" ++ PyStr.nl ++ "g2" ++ PyStr.nl)%string.

Definition header : list string := ["Category"; "Subcategory"; "Skill"].

End Sample.

(** ** More of the application

    The handlers of the team, certification and meeting tabs, the
    validation of dates and the removal of skills.  The refresh methods a
    handler calls after its save only fill widgets from the data
    ([refresh_team_list], [refresh_member_dropdown],
    [refresh_member_skills], [refresh_certifications],
    [refresh_skills_listbox]); they are taken to run through, as the
    construction of the widgets is. *)

(** *** More of Python's lists and dicts *)

Module PyMore.

(** [l.remove(x)] on a list: the first element equal to the string [x]
    goes. *)
Fixpoint remove_first (x : string) (l : list pyval) : option (list pyval) :=
  match l with
  | [] => None
  | v :: t =>
      if Py.is_str x v then Some t
      else match remove_first x t with
           | Some t' => Some (v :: t')
           | None => None
           end
  end.

(** [v.remove(x)]: only a list has the method. *)
Definition remove (v : pyval) (x : string) : result pyval :=
  match v with
  | VList l =>
      match remove_first x l with
      | Some l' => Ok (VList l')
      | None => Raise ValueError
      end
  | _ => Raise AttributeError
  end.

(** [v[k] = x] for a string [k]: only a dict takes it. *)
Definition setitem (v : pyval) (k : string) (x : pyval) : result pyval :=
  match v with
  | VDict d => Ok (VDict (Dict.set k x d))
  | _ => Raise TypeError
  end.

(** [del v[k]] for a string [k]. *)
Definition delitem (v : pyval) (k : string) : result pyval :=
  match v with
  | VDict d => d' <- Dict.del k d ;; Ok (VDict d')
  | _ => Raise TypeError
  end.

(** [v.pop(k)] for a string [k]: the value and what is left.  A list
    refuses the string as an index; the other values have no [pop]. *)
Definition pop (v : pyval) (k : string) : result (pyval * pyval) :=
  match v with
  | VDict d =>
      x <- Dict.item k d ;;
      d' <- Dict.del k d ;;
      Ok (x, VDict d')
  | VList _ => Raise TypeError
  | _ => Raise AttributeError
  end.

(** The list with the first element equal to the string [old] replaced:
    [i = l.index(old); l[i] = new]. *)
Fixpoint replace_first (old : string) (new : pyval) (l : list pyval)
  : option (list pyval) :=
  match l with
  | [] => None
  | v :: t =>
      if Py.is_str old v then Some (new :: t)
      else match replace_first old new t with
           | Some t' => Some (v :: t')
           | None => None
           end
  end.

(** [i = v.index(old); v[i] = new] for strings: a list is changed or
    raises [ValueError]; a [str] finds the index of a substring and then
    refuses the assignment; the other values have no [index]. *)
Definition rename_in (v : pyval) (old new : string) : result pyval :=
  match v with
  | VList l =>
      match replace_first old (VStr new) l with
      | Some l' => Ok (VList l')
      | None => Raise ValueError
      end
  | VStr s => if PyStr.is_substring old s then Raise TypeError else Raise ValueError
  | _ => Raise AttributeError
  end.

End PyMore.

(** [[x.strip() for x in text.split(sep) if x.strip()]] *)
Definition stripped_items (sep : ascii) (text : string) : list string :=
  map PyStr.strip
    (filter (fun x => PyStr.truthy (PyStr.strip x)) (PyStr.split sep text)).

(** *** [datetime.strptime] for the formats "%d/%m/%Y" and "%d-%m-%Y"

    [strptime] turns the format into a regular expression, matches it at
    the head of the text, refuses text that the match leaves over, and
    builds the date, which refuses a day the month does not have and the
    year 0.  [%d] is [3[0-1]|[1-2]\d|0[1-9]|[1-9]| [1-9]], [%m] is
    [1[0-2]|0[1-9]|[1-9]], [%Y] is [\d\d\d\d]; the alternatives are tried
    in this order.  The text is one of ASCII characters, where [\d] is
    a digit from 0 to 9. *)

Module Strptime.

(** The value of a digit between ['0' + lo] and ['0' + hi]. *)
Definition digit_between (lo hi : nat) (c : ascii) : option Z :=
  let n := nat_of_ascii c in
  if ((48 + lo <=? n) && (n <=? 48 + hi))%nat
  then Some (Z.of_nat (n - 48)) else None.

Definition blank (c : ascii) : option Z :=
  if Ascii.eqb c " "%char then Some 0%Z else None.

(** Two characters read as a number, one character read as a number:
    the value and the rest of the text, or nothing. *)
Definition two (first second : ascii -> option Z) (s : string)
  : list (Z * string) :=
  match s with
  | String a (String b r) =>
      match first a, second b with
      | Some x, Some y => [((10 * x + y)%Z, r)]
      | _, _ => []
      end
  | _ => []
  end.

Definition one (only : ascii -> option Z) (s : string) : list (Z * string) :=
  match s with
  | String a r =>
      match only a with
      | Some x => [(x, r)]
      | None => []
      end
  | EmptyString => []
  end.

Definition day (s : string) : list (Z * string) :=
  two (digit_between 3 3) (digit_between 0 1) s
  ++ two (digit_between 1 2) (digit_between 0 9) s
  ++ two (digit_between 0 0) (digit_between 1 9) s
  ++ one (digit_between 1 9) s
  ++ two blank (digit_between 1 9) s.

Definition month (s : string) : list (Z * string) :=
  two (digit_between 1 1) (digit_between 0 2) s
  ++ two (digit_between 0 0) (digit_between 1 9) s
  ++ one (digit_between 1 9) s.

Definition year (s : string) : option (Z * string) :=
  match s with
  | String a (String b (String c (String d r))) =>
      match digit_between 0 9 a, digit_between 0 9 b,
            digit_between 0 9 c, digit_between 0 9 d with
      | Some x, Some y, Some z, Some w =>
          Some ((1000 * x + 100 * y + 10 * z + w)%Z, r)
      | _, _, _, _ => None
      end
  | _ => None
  end.

(** The separator of the format, a character that is not a letter. *)
Definition literal (sep : ascii) (s : string) : option string :=
  match s with
  | String c r => if Ascii.eqb c sep then Some r else None
  | EmptyString => None
  end.

(** The first alternative with which the rest of the pattern matches. *)
Fixpoint first_match {A B : Type} (rest : A -> option B) (l : list A) : option B :=
  match l with
  | [] => None
  | x :: t =>
      match rest x with
      | Some y => Some y
      | None => first_match rest t
      end
  end.

Definition after_month (sep : ascii) (d : Z) (alt : Z * string)
  : option (Z * Z * Z * string) :=
  let '(m, r) := alt in
  match literal sep r with
  | Some r =>
      match year r with
      | Some (y, r) => Some (d, m, y, r)
      | None => None
      end
  | None => None
  end.

Definition after_day (sep : ascii) (alt : Z * string) : option (Z * Z * Z * string) :=
  let '(d, r) := alt in
  match literal sep r with
  | Some r => first_match (after_month sep d) (month r)
  | None => None
  end.

(** [format_regex.match(data_string)]: day, month, year and what the
    match leaves over. *)
Definition regex_match (sep : ascii) (s : string) : option (Z * Z * Z * string) :=
  first_match (after_day sep) (day s).

Definition is_leap (y : Z) : bool :=
  ((y mod 4 =? 0) && (negb (y mod 100 =? 0) || (y mod 400 =? 0)))%Z.

Definition days_in_month (y m : Z) : Z :=
  if (m =? 2)%Z then (if is_leap y then 29 else 28)%Z
  else if ((m =? 4) || (m =? 6) || (m =? 9) || (m =? 11))%Z then 30%Z
  else 31%Z.

(** [datetime.strptime(s, "%d" + sep + "%m" + sep + "%Y")]: the date, or
    [None] for [ValueError]. *)
Definition strptime (sep : ascii) (s : string) : option (Z * Z * Z) :=
  match regex_match sep s with
  | Some (d, m, y, EmptyString) =>
      if ((1 <=? y) && (d <=? days_in_month y m))%Z then Some (d, m, y) else None
  | _ => None
  end.

End Strptime.

(** [AscentPro.validate_date]: the format "%d/%m/%Y". *)
Definition validate_date (date_text : string) : bool :=
  match Strptime.strptime "/"%char date_text with
  | Some _ => true
  | None => false
  end.

(** [TeamMemberDialog.validate_date]: the format "%d-%m-%Y". *)
Definition dialog_validate_date (date_text : string) : bool :=
  match Strptime.strptime "-"%char date_text with
  | Some _ => true
  | None => false
  end.

(** *** The team tab: [TeamMemberDialog.on_ok], [add_team_member],
    [modify_team_member], [delete_team_member] *)

Definition dialog_result : Type := string * string * string * string.

(** [on_ok]: the four entries of the dialog; the result it sets, if any,
    and the error it shows otherwise. *)
Definition on_ok (name_entry job_title_entry join_date_entry birthday_entry : string)
  : option dialog_result * list event :=
  let name := PyStr.strip name_entry in
  let job_title := PyStr.strip job_title_entry in
  let join_date := PyStr.strip join_date_entry in
  let birthday := PyStr.strip birthday_entry in
  if negb (PyStr.truthy name) then
    (None, [ShowError "Input Error" "Full Name is required."])
  else if negb (dialog_validate_date join_date) then
    (None, [ShowError "Input Error"
              "Join Date is not in the correct format (DD/MM/YYYY)."])
  else if negb (dialog_validate_date birthday) then
    (None, [ShowError "Input Error"
              "Birthday is not in the correct format (DD/MM/YYYY)."])
  else (Some (name, job_title, join_date, birthday), []).

(** The record [add_team_member] creates. *)
Definition new_member (job_title join_date birthday : string) : pyval :=
  VDict [("job_title", VStr job_title); ("join_date", VStr join_date);
         ("birthday", VStr birthday);
         ("technical_skills", VList []); ("soft_skills", VList []);
         ("software_skills", VList []); ("certifications", VList []);
         ("goals", VList []); ("development_plan", VStr "");
         ("hobbies", VList []); ("interests", VList []); ("family", VStr "");
         ("achievements", VList []); ("issues_concerns", VStr "");
         ("other_personal_details", VStr "")].

(** [add_team_member]: [result] is [dialog.result]. *)
Definition add_team_member (result : option dialog_result) (s : App) : outcome :=
  match result with
  | None => done s []
  | Some (name, job_title, join_date, birthday) =>
      match Py.contains (team_members s) name with
      | Raise e => propagate s [] e
      | Ok true =>
          done s [ShowError "Error" "A team member with this name already exists."]
      | Ok false =>
          match PyMore.setitem (team_members s) name
                  (new_member job_title join_date birthday) with
          | Raise e => propagate s [] e
          | Ok tm =>
              let s := set_team_members tm s in
              done s [Write (save_data s);
                      ShowInfo "Success" (name ++ " has been added to the team.")%string]
          end
      end
  end.

(** The three assignments [self.team_members[name][...] = ...] of
    [modify_team_member]. *)
Definition set_profile (name job_title join_date birthday : string) (tm : pyval)
  : result pyval :=
  member <- Py.item tm name ;;
  member <- PyMore.setitem member "job_title" (VStr job_title) ;;
  member <- PyMore.setitem member "join_date" (VStr join_date) ;;
  member <- PyMore.setitem member "birthday" (VStr birthday) ;;
  PyMore.setitem tm name member.

(** [modify_team_member]: [selected] is the name in the selected row of
    the tree, [result] is [dialog.result].  The dialog is opened with the
    three profile fields of the member, which must be there. *)
Definition modify_team_member (selected : option string)
    (result : option dialog_result) (s : App) : outcome :=
  match selected with
  | None => done s [ShowError "Error" "Please select a team member to modify."]
  | Some name =>
      match (data <- Py.item (team_members s) name ;;
             _ <- Py.item data "job_title" ;;
             _ <- Py.item data "join_date" ;;
             _ <- Py.item data "birthday" ;;
             Ok tt) with
      | Raise e => propagate s [] e
      | Ok _ =>
          match result with
          | None => done s []
          | Some (new_name, job_title, join_date, birthday) =>
              let renamed := negb (String.eqb new_name name) in
              match (if renamed then Py.contains (team_members s) new_name
                     else Ok false) with
              | Raise e => propagate s [] e
              | Ok true =>
                  done s [ShowError "Error"
                            "A team member with the new name already exists."]
              | Ok false =>
                  match (tm <- (if renamed then
                                  popped <- PyMore.pop (team_members s) name ;;
                                  PyMore.setitem (snd popped) new_name (fst popped)
                                else Ok (team_members s)) ;;
                         set_profile new_name job_title join_date birthday tm) with
                  | Raise e => propagate s [] e
                  | Ok tm =>
                      let s := set_team_members tm s in
                      done s [Write (save_data s);
                              ShowInfo "Success"
                                (new_name ++ "'s information has been updated.")%string]
                  end
              end
          end
      end
  end.

(** [delete_team_member]: [selected] is the name in the selected row,
    [confirm] the answer to the yes/no question. *)
Definition delete_team_member (selected : option string) (confirm : bool)
    (s : App) : outcome :=
  match selected with
  | None => done s [ShowError "Error" "Please select a team member to delete."]
  | Some name =>
      if confirm then
        match PyMore.delitem (team_members s) name with
        | Raise e => propagate s [] e
        | Ok tm =>
            let s := set_team_members tm s in
            done s [Write (save_data s);
                    ShowInfo "Deleted" (name ++ " has been deleted from the team.")%string]
        end
      else done s []
  end.

(** *** The member details: [update_team_member] *)

(** What [update_team_member] reads from the widgets.  A text widget
    gives its content as [get("1.0", tk.END)] returns it; a listbox
    attribute is [None] when no listbox was stored under it. *)
Record member_form : Type := {
  hobbies_entry : string;
  interests_entry : string;
  family_entry : string;
  other_personal_text : string;
  job_title_entry : string;
  join_date_entry : string;
  birthday_entry : string;
  technical_skills_listbox : option (list string);
  soft_skills_listbox : option (list string);
  software_skills_listbox : option (list string);
  certifications_listbox : option (list string);
  form_goals_text : string;
  dev_plan_text : string;
  achieved_goals_text : string
}.

(** [getattr(self, f"{skill_type.lower().replace(' ', '_')}_listbox")] *)
Definition listbox_of (form : member_form) (skill_type : string)
  : option (list string) :=
  if String.eqb skill_type "Technical Skills" then technical_skills_listbox form
  else if String.eqb skill_type "Soft Skills" then soft_skills_listbox form
  else if String.eqb skill_type "Software Skills" then software_skills_listbox form
  else certifications_listbox form.

(** [member[key] = value] for the member [name] of [tm], in place. *)
Definition set_member_field (name key : string) (value : pyval) (tm : pyval)
  : result pyval :=
  member <- Py.item tm name ;;
  member <- PyMore.setitem member key value ;;
  PyMore.setitem tm name member.

(** The body of the loop over the four families:
    [member[key] = list(listbox.get(0, tk.END))]. *)
Definition set_skills_from_listbox (form : member_form) (name skill_type : string)
    (tm : pyval) : result pyval :=
  match listbox_of form skill_type with
  | None => Raise AttributeError
  | Some items => set_member_field name (skill_key skill_type) (VList (map VStr items)) tm
  end.

Definition str_list (l : list string) : pyval := VList (map VStr l).

(** [update_team_member]: [name] is the value of [member_var]. *)
Definition update_team_member (name : string) (form : member_form) (s : App)
  : outcome :=
  match (present <- Py.contains (team_members s) name ;;
         if present then _ <- Py.item (team_members s) name ;; Ok true
         else Ok false) with
  | Raise e => propagate s [] e
  | Ok false => done s [ShowError "Error" "Please select a valid team member."]
  | Ok true =>
      let hobbies := stripped_items ","%char (hobbies_entry form) in
      let interests := stripped_items ","%char (interests_entry form) in
      let family := PyStr.strip (family_entry form) in
      let other_personal := PyStr.strip (other_personal_text form) in
      let job_title := PyStr.strip (job_title_entry form) in
      let join_date := PyStr.strip (join_date_entry form) in
      let birthday := PyStr.strip (birthday_entry form) in
      if negb (validate_date join_date) then
        done s [ShowError "Invalid Date"
                  "Join Date is not in the correct format (DD-MM-YYYY)."]
      else if negb (validate_date birthday) then
        done s [ShowError "Invalid Date"
                  "Birthday is not in the correct format (DD-MM-YYYY)."]
      else
        match for_each_keep
                ["Technical Skills"; "Soft Skills"; "Software Skills"; "Certifications"]
                (set_skills_from_listbox form name) (team_members s) with
        | (tm, Some e) => propagate (set_team_members tm s) [] e
        | (tm, None) =>
            let goals :=
              stripped_items PyStr.newline (PyStr.strip (form_goals_text form)) in
            let development_plan := PyStr.strip (dev_plan_text form) in
            let achieved_goals :=
              stripped_items PyStr.newline (PyStr.strip (achieved_goals_text form)) in
            match for_each_keep
                    [("hobbies", str_list hobbies);
                     ("interests", str_list interests);
                     ("family", VStr family);
                     ("other_personal_details", VStr other_personal);
                     ("job_title", VStr job_title);
                     ("join_date", VStr join_date);
                     ("birthday", VStr birthday);
                     ("goals", str_list goals);
                     ("development_plan", VStr development_plan);
                     ("achieved_goals", str_list achieved_goals)]
                    (fun '(key, value) => set_member_field name key value) tm with
            | (tm, Some e) => propagate (set_team_members tm s) [] e
            | (tm, None) =>
                let s := set_team_members tm s in
                done s [Write (save_data s);
                        ShowInfo "Success"
                          (name ++ "'s information has been updated.")%string]
            end
        end
  end.

(** *** Removing skills and subskills *)

(** [remove_skill_from_member]: [selection] is the selected line of the
    listbox, [member_name] the value of [member_var], [confirm] the
    answer to the yes/no question. *)
Definition remove_skill_from_member (skill_type : string) (selection : option string)
    (member_name : string) (confirm : bool) (s : App) : outcome :=
  match selection with
  | None =>
      done s [ShowError "Error" ("Please select a " ++ skill_type ++ " to remove.")%string]
  | Some skill =>
      if confirm then
        match (member <- Py.item (team_members s) member_name ;;
               skill_list <- Py.item member (skill_key skill_type) ;;
               skill_list' <- PyMore.remove skill_list skill ;;
               store_member_field member_name (skill_key skill_type) skill_list' s) with
        | Raise e => propagate s [] e
        | Ok s' =>
            done s' [Write (save_data s');
                     ShowInfo "Success"
                       (skill ++ " has been removed from " ++ member_name
                        ++ "'s " ++ skill_type ++ ".")%string]
        end
      else done s []
  end.

(** [remove_hierarchical_skill]: the same removal behind the "Remove
    Skill" button of the skills tab, with a check of the member name. *)
Definition remove_hierarchical_skill (skill_type : string) (selection : option string)
    (member_name : string) (confirm : bool) (s : App) : outcome :=
  match selection with
  | None =>
      done s [ShowError "Error" ("Please select a " ++ skill_type ++ " to remove.")%string]
  | Some skill =>
      if negb (PyStr.truthy member_name) then
        done s [ShowError "Error" "Please select a team member first."]
      else if confirm then
        match (member <- Py.item (team_members s) member_name ;;
               skill_list <- Py.item member (skill_key skill_type) ;;
               skill_list' <- PyMore.remove skill_list skill ;;
               store_member_field member_name (skill_key skill_type) skill_list' s) with
        | Raise e => propagate s [] e
        | Ok s' =>
            done s' [Write (save_data s');
                     ShowInfo "Deleted"
                       (skill ++ " has been deleted from " ++ member_name
                        ++ "'s " ++ skill_type ++ ".")%string]
        end
      else done s []
  end.

(** [delete_subskill]: [category] and [subskill] are the values of the
    two variables of the family. *)
Definition delete_subskill (skill_type category subskill : string) (confirm : bool)
    (s : App) : outcome :=
  if negb (PyStr.truthy category) || negb (PyStr.truthy subskill) then
    done s [ShowError "Error"
              ("Please select a category and subskill to delete from "
               ++ skill_type ++ ".")%string]
  else if confirm then
    match (target <- subskills_of skill_type category s ;;
           target' <- PyMore.remove target subskill ;;
           store_subskills skill_type category target' s) with
    | Raise e => propagate s [] e
    | Ok s' =>
        let evs := [Write (save_data s')] in
        match refresh_categories skill_type s' with
        | Raise e => propagate s' evs e
        | Ok _ =>
            done s'
              (evs ++ [ShowInfo "Deleted"
                         ("Subskill '" ++ subskill ++ "' has been deleted from '"
                          ++ category ++ "' in " ++ skill_type ++ ".")%string])
        end
    end
  else done s [].

(** *** The certification catalog: [add_certification],
    [remove_certification], [modify_certification] *)

Definition set_skills_data (v : pyval) (s : App) : App :=
  {| team_members := team_members s; skills_data := v;
     subskills_data := subskills_data s; meetings := meetings s;
     categories := categories s |}.

(** [self.skills_data["Certifications"]] *)
Definition certifications (s : App) : result pyval :=
  Py.item (skills_data s) "Certifications".

(** The list reached through [self.skills_data["Certifications"]] is
    changed in place. *)
Definition store_certifications (v : pyval) (s : App) : result App :=
  match skills_data s with
  | VDict d => Ok (set_skills_data (VDict (Dict.set "Certifications" v d)) s)
  | _ => Raise TypeError
  end.

(** [add_certification]: [answer] is the reply of [askstring]. *)
Definition add_certification (answer : option string) (s : App) : outcome :=
  match answer with
  | Some cert =>
      if PyStr.truthy cert then
        let cert := PyStr.strip cert in
        match (catalog <- certifications s ;;
               present <- Py.contains catalog cert ;;
               Ok (catalog, present)) with
        | Raise e => propagate s [] e
        | Ok (_, true) =>
            done s [ShowError "Error" "This certification already exists."]
        | Ok (catalog, false) =>
            match (catalog' <- Py.append catalog (VStr cert) ;;
                   store_certifications catalog' s) with
            | Raise e => propagate s [] e
            | Ok s' =>
                done s' [Write (save_data s');
                         ShowInfo "Success"
                           ("Certification '" ++ cert ++ "' has been added.")%string]
            end
        end
      else done s []
  | None => done s []
  end.

(** The body of the loop of [remove_certification]: a certification that
    is not in the catalog is passed over ([except ValueError]). *)
Definition remove_one_certification (cert : string) (s : App) : result App :=
  catalog <- certifications s ;;
  match PyMore.remove catalog cert with
  | Ok catalog' => store_certifications catalog' s
  | Raise ValueError => Ok s
  | Raise e => Raise e
  end.

(** [remove_certification]: [selection] holds the selected lines of the
    listbox, [confirm] the answer to the yes/no question. *)
Definition remove_certification (selection : list string) (confirm : bool)
    (s : App) : outcome :=
  match selection with
  | [] => done s [ShowError "Error" "Please select a certification to remove."]
  | _ :: _ =>
      if confirm then
        match for_each_keep selection remove_one_certification s with
        | (s', Some e) => propagate s' [] e
        | (s', None) =>
            done s' [Write (save_data s');
                     ShowInfo "Deleted" "Selected certification(s) have been deleted."]
        end
      else done s []
  end.

(** [modify_certification]: [selection] is the selected line, [answer]
    the reply of [askstring]. *)
Definition modify_certification (selection : option string) (answer : option string)
    (s : App) : outcome :=
  match selection with
  | None => done s [ShowError "Error" "Please select a certification to modify."]
  | Some old_cert =>
      match answer with
      | Some new_cert =>
          if PyStr.truthy new_cert then
            let new_cert := PyStr.strip new_cert in
            match (catalog <- certifications s ;;
                   present <- Py.contains catalog new_cert ;;
                   Ok (catalog, present)) with
            | Raise e => propagate s [] e
            | Ok (_, true) =>
                done s [ShowError "Error" "This certification already exists."]
            | Ok (catalog, false) =>
                match (catalog' <- PyMore.rename_in catalog old_cert new_cert ;;
                       store_certifications catalog' s) with
                | Raise e => propagate s [] e
                | Ok s' =>
                    done s' [Write (save_data s');
                             ShowInfo "Success"
                               ("Certification '" ++ old_cert
                                ++ "' has been renamed to '" ++ new_cert ++ "'.")%string]
                end
            end
          else done s []
      | None => done s []
      end
  end.

(** *** The meeting log: [add_meeting], [update_meeting], [delete_meeting] *)

(** What leaves a meeting handler: an exception of [exn], the
    [IndexError] of a list index out of range, or [IntegerKey] where
    Python would store the meeting in a dict under the integer, which
    [pyval] cannot hold. *)
Inductive failure : Type :=
| Exn (e : exn)
| IndexError
| IntegerKey.

Record meeting_outcome : Type := mk_meeting_outcome {
  log_after : App;
  log_shown : list event;
  log_raised : option failure
}.

(** The entries of the meetings tab; a text widget gives its content as
    [get("1.0", tk.END)] returns it. *)
Record meeting_form : Type := {
  meeting_date_entry : string;
  meeting_title_entry : string;
  meeting_highlights_text : string;
  meeting_notes_text : string;
  meeting_actions_text : string
}.

(** The dict the handlers build from the entries. *)
Definition meeting_of (form : meeting_form) : pyval :=
  VDict [("date", VStr (meeting_date_entry form));
         ("title", VStr (meeting_title_entry form));
         ("highlights", VStr (PyStr.strip (meeting_highlights_text form)));
         ("notes", VStr (PyStr.strip (meeting_notes_text form)));
         ("action_items", VStr (PyStr.strip (meeting_actions_text form)))].

Definition invalid_date : event :=
  ShowError "Invalid Date" "Please enter the date in DD/MM/YYYY format.".

(** [l[index] = x] for an index in range. *)
Definition replace_at {A : Type} (index : nat) (x : A) (l : list A) : list A :=
  firstn index l ++ x :: skipn (S index) l.

Section MeetingHandlers.

Variable str_other : pyval -> string.

(** [self.save_data(); self.refresh_meetings_list(); showinfo(...)] *)
Definition saved_meetings (s : App) (message : string) : meeting_outcome :=
  match refresh_meetings_list str_other s with
  | Raise e => mk_meeting_outcome s [Write (save_data s)] (Some (Exn e))
  | Ok _ =>
      mk_meeting_outcome s [Write (save_data s); ShowInfo "Success" message] None
  end.

Definition add_meeting (form : meeting_form) (s : App) : meeting_outcome :=
  if negb (validate_date (meeting_date_entry form)) then
    mk_meeting_outcome s [invalid_date] None
  else
    match Py.append (meetings s) (meeting_of form) with
    | Raise e => mk_meeting_outcome s [] (Some (Exn e))
    | Ok ms => saved_meetings (set_meetings ms s) "Meeting added successfully."
    end.

(** [update_meeting]: [selection] is the selected row of the listbox. *)
Definition update_meeting (selection : option nat) (form : meeting_form) (s : App)
  : meeting_outcome :=
  match selection with
  | None => mk_meeting_outcome s [ShowError "Error" "Please select a meeting to update."] None
  | Some index =>
      if negb (validate_date (meeting_date_entry form)) then
        mk_meeting_outcome s [invalid_date] None
      else
        match meetings s with
        | VList l =>
            if (index <? length l)%nat then
              saved_meetings (set_meetings (VList (replace_at index (meeting_of form) l)) s)
                "Meeting updated successfully."
            else mk_meeting_outcome s [] (Some IndexError)
        | VDict _ => mk_meeting_outcome s [] (Some IntegerKey)
        | _ => mk_meeting_outcome s [] (Some (Exn TypeError))
        end
  end.

(** [delete_meeting]: [selection] is the selected row, [confirm] the
    answer to the yes/no question. *)
Definition delete_meeting (selection : option nat) (confirm : bool) (s : App)
  : meeting_outcome :=
  match selection with
  | None => mk_meeting_outcome s [ShowError "Error" "Please select a meeting to delete."] None
  | Some index =>
      if confirm then
        match meetings s with
        | VList l =>
            if (index <? length l)%nat then
              saved_meetings (set_meetings (VList (remove_at index l)) s)
                "Meeting deleted successfully."
            else mk_meeting_outcome s [] (Some IndexError)
        | VDict _ => mk_meeting_outcome s [] (Some (Exn KeyError))
        | _ => mk_meeting_outcome s [] (Some (Exn TypeError))
        end
      else mk_meeting_outcome s [] None
  end.

End MeetingHandlers.

(** ** Further auxiliary definitions *)

(** [c in s] for a character. *)
Fixpoint has_char (c : ascii) (s : string) : bool :=
  match s with
  | EmptyString => false
  | String a r => Ascii.eqb a c || has_char c r
  end.

(** The skill [skill] is listed under [subcategory] of [category]. *)
Definition has_skill (category subcategory skill : string) (c : taxonomy) : Prop :=
  exists subs skills,
    Dict.get category c = Some subs
    /\ Dict.get subcategory subs = Some skills
    /\ In skill skills.

(** The three trimmed fields of a data row of three fields. *)
Definition row_fields (row : list string) : option (string * string * string) :=
  match map PyStr.strip (resolve_row row) with
  | [category; subcategory; skill] => Some (category, subcategory, skill)
  | _ => None
  end.

(** The certification catalog is a list of strings that are pairwise
    different. *)
Definition distinct_catalog (s : App) : Prop :=
  exists d l,
    skills_data s = VDict d
    /\ Dict.get "Certifications" d = Some (str_list l)
    /\ NoDup l.

(** What the three handlers of the catalog leave alone. *)
Definition same_but_skills_data (s s' : App) : Prop :=
  team_members s' = team_members s
  /\ subskills_data s' = subskills_data s
  /\ meetings s' = meetings s
  /\ categories s' = categories s.

(** ** More sample data *)

Module Example.

(** A document with a member that is not a dict. *)
Definition broken_members : list (string * pyval) :=
  [("Ada", VDict Sample.ada); ("Bob", VStr "x")].

Definition broken_document : list (string * pyval) :=
  [("team_members", VDict broken_members);
   ("skills_data", default_skills_data);
   ("subskills_data", VDict Sample.subskills);
   ("meetings", VList [Sample.meeting "05/03/2024" "Review"])].

(** The details form as the application builds it: no listbox for the
    software skills. *)
Definition form : member_form :=
  {| hobbies_entry := "chess, go";
     interests_entry := "";
     family_entry := "";
     other_personal_text := PyStr.nl;
     job_title_entry := "Engineer";
     join_date_entry := "01/02/2020";
     birthday_entry := "03/04/1990";
     technical_skills_listbox := Some ["A: x"];
     soft_skills_listbox := Some [];
     software_skills_listbox := None;
     certifications_listbox := Some [];
     form_goals_text := Sample.goals_text;
     dev_plan_text := PyStr.nl;
     achieved_goals_text := PyStr.nl |}.

(** The details form filled from a member that the dialog created with
    the join date "01-02-2020". *)
Definition form_of_dialog : member_form :=
  {| hobbies_entry := "";
     interests_entry := "";
     family_entry := "";
     other_personal_text := PyStr.nl;
     job_title_entry := "Dev";
     join_date_entry := "01-02-2020";
     birthday_entry := "03-04-1990";
     technical_skills_listbox := Some [];
     soft_skills_listbox := Some [];
     software_skills_listbox := None;
     certifications_listbox := Some [];
     form_goals_text := PyStr.nl;
     dev_plan_text := PyStr.nl;
     achieved_goals_text := PyStr.nl |}.

(** The application with the certifications "PMP" and "AWS" in the
    catalog. *)
Definition app_with_certifications : App :=
  self_after (add_certification (Some "AWS")
                (self_after (add_certification (Some "PMP") Sample.app))).

(** The application with the second member "Bob", entered through the
    dialog. *)
Definition app_with_team : App :=
  self_after (add_team_member (Some ("Bob", "Dev", "01-02-2020", "03-04-1990"))
                Sample.app).

Definition team : list (string * pyval) :=
  Sample.members ++ [("Bob", new_member "Dev" "01-02-2020" "03-04-1990")].

Definition meeting_fields (date title : string) : list (string * pyval) :=
  [("date", VStr date); ("title", VStr title); ("highlights", VStr "");
   ("notes", VStr ""); ("action_items", VStr "")].

Definition meeting_entries : meeting_form :=
  {| meeting_date_entry := "07/03/2024";
     meeting_title_entry := "Planning";
     meeting_highlights_text := PyStr.nl;
     meeting_notes_text := PyStr.nl;
     meeting_actions_text := PyStr.nl |}.

End Example.

(** ** Properties *)

Section Persistence.

Variable str_other : pyval -> string.

(** *** Loading *)

Lemma load_data_categories (f : file) (self : Initial) :
  categories (load_data str_other f self) = init_categories self.
Proof.
  destruct f as [| |data]; simpl; try reflexivity.
  unfold load_body.
  destruct (Py.get_default data "team_members" (VDict [])) as [tm|]; simpl; auto.
  destruct (Py.get_default data "skills_data" default_skills_data); simpl; auto.
  destruct (Py.get_default data "subskills_data" default_subskills_data); simpl; auto.
  destruct (Py.get_default data "meetings" (VList [])); simpl; auto.
  destruct (convert_members str_other tm); simpl; auto.
Qed.

(** *** Save and load *)

(** C1 (the code departs from the claim): [save_data] writes four
    attributes and leaves [categories] out.  A category added with
    [add_category] is saved at once by the handler, yet a load of that
    very file in a new process starts from the empty families: the
    taxonomy that was saved is not the taxonomy that is loaded. *)
Theorem C1_saved_category_is_lost :
  let before := load_data str_other Missing initialize_data_structures in
  let o := add_category "Technical Skills" (Some "Languages") [] before in
  let saved := self_after o in
  let reloaded := load_data str_other (save_data saved) initialize_data_structures in
  raised o = None
  /\ In (Write (save_data saved)) (shown o)
  /\ Dict.get "Technical Skills" (categories saved) = Some [("Languages", [])]
  /\ Dict.get "Technical Skills" (categories reloaded) = Some []
  /\ categories reloaded <> categories saved.
Proof.
  cbv zeta.
  repeat split; try reflexivity.
  - simpl. auto.
  - rewrite load_data_categories. simpl. discriminate.
Qed.

End Persistence.

Section ImportFrame.

Variable str_other : pyval -> string.

Lemma save_data_set_categories (c : taxonomy) (s : App) :
  save_data (set_categories c s) = save_data s.
Proof. reflexivity. Qed.

Lemma upload_skills_csv_frame (rows : list (list string)) (s : App) :
  exists c, self_after (upload_skills_csv rows s) = set_categories c s.
Proof.
  unfold upload_skills_csv.
  destruct rows as [|header data].
  - exists (categories s). destruct s; reflexivity.
  - destruct (for_each_keep data import_row (categories s)) as [c [e|]].
    + exists c. reflexivity.
    + exists c. destruct (refresh_categories "Technical Skills" (set_categories c s));
        reflexivity.
Qed.

(** C10: an import changes [self.categories] and nothing else, and
    [save_data] does not write [categories]: the document saved after an
    import, whatever the rows, is the document that would be saved
    without it, every file the import itself writes is that document,
    and a load of it starts from the empty families. *)
Theorem C10_import_is_not_persisted (rows : list (list string)) (s : App) :
  let s' := self_after (upload_skills_csv rows s) in
  save_data s' = save_data s
  /\ (forall f, In (Write f) (shown (upload_skills_csv rows s)) -> f = save_data s)
  /\ categories (load_data str_other (save_data s') initialize_data_structures)
     = init_categories initialize_data_structures.
Proof.
  cbv zeta. split; [|split].
  - destruct (upload_skills_csv_frame rows s) as [c ->].
    apply save_data_set_categories.
  - intros f. unfold upload_skills_csv.
    destruct rows as [|header data]; simpl.
    + intros [H|[]]. discriminate H.
    + destruct (for_each_keep data import_row (categories s)) as [c [e|]]; simpl.
      * intros [H|[]]. discriminate H.
      * destruct (refresh_categories "Technical Skills" (set_categories c s)); simpl;
          intros [H|[H|[]]]; try discriminate H; now inversion H.
  - apply load_data_categories.
Qed.

End ImportFrame.

Section Taxonomy.

Lemma dict_get_set_same {V : Type} (k : string) (v : V) (d : list (string * V)) :
  Dict.get k (Dict.set k v d) = Some v.
Proof.
  induction d as [|[k' v'] r IH]; simpl.
  - now rewrite String.eqb_refl.
  - destruct (String.eqb k' k) eqn:E; simpl; rewrite E; auto.
Qed.

Lemma dict_get_set_other {V : Type} (k k0 : string) (v : V) (d : list (string * V)) :
  k0 <> k -> Dict.get k0 (Dict.set k v d) = Dict.get k0 d.
Proof.
  intros Hne. induction d as [|[k' v'] r IH]; simpl.
  - destruct (String.eqb k k0) eqn:E; auto.
    apply String.eqb_eq in E. congruence.
  - destruct (String.eqb k' k) eqn:E; simpl.
    + apply String.eqb_eq in E; subst k'.
      destruct (String.eqb k k0) eqn:E0; auto.
      apply String.eqb_eq in E0. congruence.
    + now rewrite IH.
Qed.

Lemma dict_keys_set_present {V : Type} (k : string) (v v0 : V) (d : list (string * V)) :
  Dict.get k d = Some v0 -> Dict.keys (Dict.set k v d) = Dict.keys d.
Proof.
  induction d as [|[k' v'] r IH]; simpl; [discriminate|].
  destruct (String.eqb k' k) eqn:E; simpl; auto.
  intros H. now rewrite IH.
Qed.

Lemma dict_get_none_keys {V : Type} (k : string) (d : list (string * V)) :
  ~ In k (Dict.keys d) -> Dict.get k d = None.
Proof.
  induction d as [|[k' v'] r IH]; simpl; auto.
  intros H. destruct (String.eqb k' k) eqn:E.
  - apply String.eqb_eq in E. tauto.
  - apply IH. tauto.
Qed.

Lemma dict_del_present {V : Type} (k : string) (v : V) (d : list (string * V)) :
  Dict.get k d = Some v -> NoDup (Dict.keys d) ->
  exists d', Dict.del k d = Ok d'
             /\ Dict.get k d' = None
             /\ (forall k0, k0 <> k -> Dict.get k0 d' = Dict.get k0 d).
Proof.
  induction d as [|[k' v'] r IH]; simpl; [discriminate|].
  intros Hget Hnd. inversion Hnd as [|? ? Hnotin Hnd']; subst.
  destruct (String.eqb k' k) eqn:E.
  - apply String.eqb_eq in E; subst k'.
    exists r. repeat split.
    + now apply dict_get_none_keys.
    + intros k0 Hne. destruct (String.eqb k k0) eqn:E0; auto.
      apply String.eqb_eq in E0. congruence.
  - destruct (IH Hget Hnd') as (d' & Hdel & Hnone & Hother).
    exists ((k', v') :: d'). rewrite Hdel. simpl. rewrite E. auto.
    repeat split; auto.
    intros k0 Hne. destruct (String.eqb k' k0); auto.
Qed.

(** C9: deleting a category that is present removes it, with its
    subskills, from its family and keeps every other category and family;
    the members are not touched, whatever the answer to the confirmation,
    so a "category: subskill" string a member holds stays where it is. *)
Theorem C9_delete_category_keeps_member_skills
    (skill_type category : string) (s : App)
    (cats : list (string * list string)) (subskills : list string) :
  category <> EmptyString ->
  Dict.get skill_type (categories s) = Some cats ->
  NoDup (Dict.keys cats) ->
  Dict.get category cats = Some subskills ->
  let o := delete_category skill_type category true s in
  raised o = None
  /\ (exists cats',
        Dict.get skill_type (categories (self_after o)) = Some cats'
        /\ Dict.get category cats' = None
        /\ forall other, other <> category ->
                         Dict.get other cats' = Dict.get other cats)
  /\ (forall family, family <> skill_type ->
        Dict.get family (categories (self_after o)) = Dict.get family (categories s))
  /\ (forall confirm,
        team_members (self_after (delete_category skill_type category confirm s))
        = team_members s).
Proof.
  intros Hne Hfam Hnd Hcat. cbv zeta.
  destruct (dict_del_present category subskills cats Hcat Hnd)
    as (cats' & Hdel & Hnone & Hother).
  unfold delete_category.
  destruct category as [|c0 r0]; [congruence|]. simpl PyStr.truthy. cbv iota.
  simpl negb. cbv iota.
  unfold Dict.item. rewrite Hfam. simpl bind. rewrite Hdel. simpl.
  repeat split.
  - exists cats'. rewrite dict_get_set_same. auto.
  - intros family Hneq. now apply dict_get_set_other.
  - intros [|]; reflexivity.
Qed.

End Taxonomy.

Section Meetings.

Variable str_other : pyval -> string.

(** What the sort does do: the result is a rearrangement of the log, in
    descending order of the date texts, and entries with the same date
    keep their insertion order. *)

Lemma ltb_lt (a b : string) : String.ltb a b = true <-> String_as_OT.lt a b.
Proof.
  unfold String.ltb. rewrite <- String_as_OT.cmp_lt. unfold String_as_OT.cmp.
  destruct (String.compare a b); split; intros H; try reflexivity; discriminate.
Qed.

Lemma ltb_asym (a b : string) : String.ltb a b = true -> String.ltb b a = false.
Proof.
  intros H. destruct (String.ltb b a) eqn:E; [|reflexivity].
  apply ltb_lt in H. apply ltb_lt in E.
  exfalso. apply (String_as_OT.lt_not_eq a a); [|reflexivity].
  now apply (String_as_OT.lt_trans a b a).
Qed.

Lemma ltb_trans (a b c : string) :
  String.ltb a b = true -> String.ltb b c = true -> String.ltb a c = true.
Proof.
  rewrite !ltb_lt. apply String_as_OT.lt_trans.
Qed.

Lemma ltb_irrefl (a : string) : String.ltb a a = false.
Proof.
  destruct (String.ltb a a) eqn:E; [|reflexivity].
  now rewrite (ltb_asym a a E) in E.
Qed.

Lemma insert_desc_perm {A : Type} (kx : string * A) (l : list (string * A)) :
  Permutation (insert_desc kx l) (l ++ [kx]).
Proof.
  induction l as [|ky t IH]; simpl; [reflexivity|].
  destruct (String.ltb (fst ky) (fst kx)).
  - change (kx :: ky :: t) with ([kx] ++ (ky :: t)).
    change (ky :: t ++ [kx]) with ((ky :: t) ++ [kx]).
    apply Permutation_app_comm.
  - now constructor.
Qed.

Lemma insert_desc_sorted {A : Type} (kx : string * A) (l : list (string * A)) :
  StronglySorted not_below l -> StronglySorted not_below (insert_desc kx l).
Proof.
  induction l as [|ky t IH]; intros Hs; simpl.
  - repeat constructor.
  - inversion Hs as [|? ? Ht Hky]; subst.
    destruct (String.ltb (fst ky) (fst kx)) eqn:E.
    + constructor; [assumption|]. constructor.
      * now apply ltb_asym.
      * rewrite Forall_forall in *. intros z Hz. unfold not_below in *.
        destruct (String.ltb (fst kx) (fst z)) eqn:Ez; [|reflexivity].
        rewrite <- (Hky z Hz). symmetry. now apply (ltb_trans _ (fst kx)).
    + constructor; [now apply IH|].
      rewrite insert_desc_perm.
      apply Forall_app. split; [assumption|]. now constructor.
Qed.

Lemma insert_desc_with_key {A : Type} (k : string) (kx : string * A)
    (l : list (string * A)) :
  StronglySorted not_below l ->
  with_key k (insert_desc kx l) = with_key k (l ++ [kx]).
Proof.
  unfold with_key.
  induction l as [|ky t IH]; intros Hs; simpl; [reflexivity|].
  inversion Hs as [|? ? Ht Hky]; subst.
  destruct (String.ltb (fst ky) (fst kx)) eqn:E.
  - (* every entry of the list is below [kx] *)
    simpl. destruct (String.eqb (fst kx) k) eqn:Ek.
    + apply String.eqb_eq in Ek. subst k.
      assert (Hnone : forall z, In z (ky :: t) -> String.eqb (fst z) (fst kx) = false).
      { intros z Hz. apply String.eqb_neq. intros Heq.
        destruct Hz as [<-|Hz].
        - rewrite Heq, ltb_irrefl in E. discriminate.
        - rewrite Forall_forall in Hky. specialize (Hky z Hz).
          unfold not_below in Hky. rewrite Heq in Hky. congruence. }
      rewrite (Hnone ky (or_introl eq_refl)).
      rewrite filter_app. simpl. rewrite String.eqb_refl.
      assert (Hf : filter (fun x => String.eqb (fst x) (fst kx)) t = []).
      { clear - Hnone. induction t as [|z t IH]; [reflexivity|].
        simpl. rewrite (Hnone z (or_intror (or_introl eq_refl))).
        apply IH. intros w [<-|Hw]; apply Hnone; simpl; auto. }
      now rewrite Hf.
    + rewrite filter_app. simpl. rewrite Ek. now rewrite app_nil_r.
  - simpl. now rewrite (IH Ht).
Qed.

Lemma sorted_desc_from {A : Type} (l acc : list (string * A)) :
  StronglySorted not_below acc ->
  StronglySorted not_below (fold_left (fun acc kx => insert_desc kx acc) l acc)
  /\ Permutation (fold_left (fun acc kx => insert_desc kx acc) l acc) (acc ++ l)
  /\ forall k, with_key k (fold_left (fun acc kx => insert_desc kx acc) l acc)
               = with_key k (acc ++ l).
Proof.
  revert acc. induction l as [|kx r IH]; intros acc Hs; simpl.
  - rewrite app_nil_r. auto.
  - destruct (IH (insert_desc kx acc) (insert_desc_sorted kx acc Hs))
      as (H1 & H2 & H3).
    split; [assumption|]. split.
    + rewrite H2, insert_desc_perm, <- app_assoc. reflexivity.
    + intros k. rewrite H3.
      pose proof (insert_desc_with_key k kx acc Hs) as Hk.
      unfold with_key in *. rewrite !filter_app, Hk, filter_app, <- app_assoc.
      simpl. now destruct (String.eqb (fst kx) k).
Qed.

Lemma sorted_desc_spec {A : Type} (l : list (string * A)) :
  StronglySorted not_below (sorted_desc l)
  /\ Permutation (sorted_desc l) l
  /\ forall k, with_key k (sorted_desc l) = with_key k l.
Proof.
  apply (sorted_desc_from l []). constructor.
Qed.

(** C4 (the code departs from the claim): the listbox is filled from
    [sorted(self.meetings, key=lambda x: x['date'], reverse=True)], which
    compares the dates as text.  A log with 1 February 2024 entered before
    2 January 2024 is shown with the January meeting first, although its
    date is the earlier one.  Meetings of one date keep their insertion
    order, and the log itself is only read. *)
Theorem C4_meetings_are_sorted_as_text :
  refresh_meetings_list str_other
    (Sample.app_with_meetings
       [Sample.meeting "01/02/2024" "February";
        Sample.meeting "02/01/2024" "January"])
  = Ok ["02/01/2024 - January"; "01/02/2024 - February"]
  /\ Spec.parsed_date "02/01/2024" = Some 20240102%Z
  /\ Spec.parsed_date "01/02/2024" = Some 20240201%Z
  /\ refresh_meetings_list str_other
       (Sample.app_with_meetings
          [Sample.meeting "05/03/2024" "first";
           Sample.meeting "06/03/2024" "other";
           Sample.meeting "05/03/2024" "second"])
     = Ok ["06/03/2024 - other"; "05/03/2024 - first"; "05/03/2024 - second"].
Proof.
  repeat split; reflexivity.
Qed.

End Meetings.

Section Migration.

Variable str_other : pyval -> string.

Lemma new_skills_of_category (category : string) (skills : list string)
    (acc : list pyval) :
  for_each (map VStr skills)
    (fun skill new_skills =>
       Ok (new_skills ++ [VStr (category ++ ": " ++ py_str str_other skill)%string]))
    acc
  = Ok (acc ++ map (fun skill => VStr (category ++ ": " ++ skill)%string) skills).
Proof.
  revert acc. induction skills as [|sk r IH]; intros acc; simpl.
  - now rewrite app_nil_r.
  - rewrite IH. now rewrite <- app_assoc.
Qed.

Lemma new_skills_of_legacy (cats : list (string * list string)) (acc : list pyval) :
  for_each
    (map (fun '(category, skills) => (category, VList (map VStr skills))) cats)
    (fun '(category, skills) new_skills =>
       skills <- Py.iter skills ;;
       for_each skills
         (fun skill new_skills =>
            Ok (new_skills ++ [VStr (category ++ ": " ++ py_str str_other skill)%string]))
         new_skills)
    acc
  = Ok (acc ++ map VStr (Spec.flat_skills cats)).
Proof.
  revert acc. induction cats as [|[category skills] r IH]; intros acc; simpl.
  - now rewrite app_nil_r.
  - rewrite new_skills_of_category. simpl. rewrite IH.
    now rewrite map_app, map_map, app_assoc.
Qed.

Lemma convert_skill_type_legacy (skill_type : string) (d : list (string * pyval))
    (cats : list (string * list string)) :
  Dict.get skill_type d = Some (Spec.legacy_map cats) ->
  convert_skill_type str_other skill_type (VDict d)
  = Ok (VDict (Dict.set skill_type (VList (map VStr (Spec.flat_skills cats))) d)).
Proof.
  intros H. unfold convert_skill_type. simpl. rewrite H. simpl.
  now rewrite new_skills_of_legacy.
Qed.

Lemma convert_skill_type_flat (skill_type : string) (d : list (string * pyval)) :
  (forall v, Dict.get skill_type d = Some v -> Py.isinstance_dict v = false) ->
  convert_skill_type str_other skill_type (VDict d) = Ok (VDict d).
Proof.
  intros H. unfold convert_skill_type. simpl.
  destruct (Dict.get skill_type d) as [v|].
  - now rewrite (H v eq_refl).
  - reflexivity.
Qed.

(** One step of the migration keeps the keys and every other field. *)
Lemma convert_skill_type_frame (skill_type : string) (d : list (string * pyval)) :
  Spec.legacy_or_flat skill_type d ->
  exists d',
    convert_skill_type str_other skill_type (VDict d) = Ok (VDict d')
    /\ Dict.keys d' = Dict.keys d
    /\ forall k, k <> skill_type -> Dict.get k d' = Dict.get k d.
Proof.
  intros Hwf.
  destruct (Dict.get skill_type d) as [v|] eqn:Hget.
  - destruct (Py.isinstance_dict v) eqn:Hd.
    + destruct (Hwf v Hget Hd) as [cats ->].
      exists (Dict.set skill_type (VList (map VStr (Spec.flat_skills cats))) d).
      split; [now apply convert_skill_type_legacy|]. split.
      * eapply dict_keys_set_present; eauto.
      * intros k Hk. now apply dict_get_set_other.
    + exists d. split; [|auto].
      apply convert_skill_type_flat. intros v' Hv'. congruence.
  - exists d. split; [|auto].
    apply convert_skill_type_flat. intros v' Hv'. congruence.
Qed.

Lemma convert_member_legacy (skill_type : string) (d : list (string * pyval))
    (cats : list (string * list string)) :
  In skill_type ["technical_skills"; "soft_skills"] ->
  Spec.legacy_or_flat "technical_skills" d ->
  Spec.legacy_or_flat "soft_skills" d ->
  Dict.get skill_type d = Some (Spec.legacy_map cats) ->
  exists d',
    convert_member str_other (VDict d) = Ok (VDict d')
    /\ Dict.keys d' = Dict.keys d
    /\ Dict.get skill_type d' = Some (VList (map VStr (Spec.flat_skills cats)))
    /\ forall k, k <> "technical_skills" -> k <> "soft_skills" ->
                 Dict.get k d' = Dict.get k d.
Proof.
  intros Hin Htech Hsoft Hget. unfold convert_member. simpl for_each.
  destruct Hin as [<-|[<-|[]]].
  - (* the technical skills are migrated first *)
    rewrite (convert_skill_type_legacy _ _ _ Hget). simpl bind.
    set (d1 := Dict.set "technical_skills" _ d).
    assert (Hsoft1 : Spec.legacy_or_flat "soft_skills" d1).
    { intros v Hv. apply Hsoft. subst d1.
      rewrite dict_get_set_other in Hv; [assumption|discriminate]. }
    destruct (convert_skill_type_frame "soft_skills" d1 Hsoft1)
      as (d2 & Hc & Hk & Hf).
    exists d2. rewrite Hc. simpl. repeat split.
    + rewrite Hk. subst d1. eapply dict_keys_set_present; eauto.
    + rewrite Hf by discriminate. subst d1. apply dict_get_set_same.
    + intros k H1 H2. rewrite Hf by assumption. subst d1.
      now apply dict_get_set_other.
  - (* the soft skills come second *)
    destruct (convert_skill_type_frame "technical_skills" d Htech)
      as (d1 & Hc & Hk & Hf).
    rewrite Hc. simpl bind.
    assert (Hget1 : Dict.get "soft_skills" d1 = Some (Spec.legacy_map cats)).
    { rewrite Hf by discriminate. assumption. }
    rewrite (convert_skill_type_legacy _ _ _ Hget1). simpl.
    eexists. repeat split.
    + rewrite <- Hk. eapply dict_keys_set_present; eauto.
    + apply dict_get_set_same.
    + intros k H1 H2. rewrite dict_get_set_other by assumption. now apply Hf.
Qed.

Lemma convert_member_total (m : pyval) :
  Spec.well_formed_member m -> exists d', convert_member str_other m = Ok (VDict d').
Proof.
  intros (d & -> & Htech & Hsoft). unfold convert_member. simpl for_each.
  destruct (convert_skill_type_frame "technical_skills" d Htech)
    as (d1 & Hc & Hk & Hf).
  rewrite Hc. simpl bind.
  assert (Hsoft1 : Spec.legacy_or_flat "soft_skills" d1).
  { intros v Hv. apply Hsoft. rewrite <- Hf by discriminate. assumption. }
  destruct (convert_skill_type_frame "soft_skills" d1 Hsoft1) as (d2 & Hc2 & _).
  exists d2. rewrite Hc2. reflexivity.
Qed.

Lemma convert_members_spec (members : list (string * pyval)) :
  Forall Spec.well_formed_member (Dict.values members) ->
  exists members',
    convert_members str_other (VDict members) = Ok (VDict members')
    /\ Dict.keys members' = Dict.keys members
    /\ forall name m, Dict.get name members = Some m ->
         exists m', convert_member str_other m = Ok m'
                    /\ Dict.get name members' = Some m'.
Proof.
  unfold convert_members.
  induction members as [|[name0 m0] r IH]; intros Hwf; simpl.
  - exists []. repeat split. intros ? ? H. discriminate H.
  - inversion Hwf as [|? ? Hm0 Hr]; subst.
    destruct (convert_member_total m0 Hm0) as [d0 Hc0].
    destruct (IH Hr) as (r' & Hmap & Hkeys & Hget).
    rewrite Hc0. simpl.
    destruct (mapM _ r) as [r''|] eqn:E; simpl in Hmap; [|discriminate].
    inversion Hmap; subst r''. simpl.
    exists ((name0, VDict d0) :: r'). repeat split.
    + simpl. now rewrite Hkeys.
    + intros name m. simpl. destruct (String.eqb name0 name).
      * intros H; inversion H; subst. eauto.
      * apply Hget.
Qed.

(** C2: in a document whose members are dicts with skill fields in the
    legacy or in the flat layout, [load_data] replaces a legacy field of a
    member, in place, by the list of "category: skill" strings, one per
    skill, categories in their stored order and skills in their order
    within the category; the member keeps its place and its other fields. *)
Theorem C2_legacy_skills_are_flattened
    (doc members m : list (string * pyval)) (self : Initial)
    (name skill_type : string) (cats : list (string * list string)) :
  Dict.get "team_members" doc = Some (VDict members) ->
  Forall Spec.well_formed_member (Dict.values members) ->
  In skill_type ["technical_skills"; "soft_skills"] ->
  Dict.get name members = Some (VDict m) ->
  Dict.get skill_type m = Some (Spec.legacy_map cats) ->
  exists members' m',
    team_members (load_data str_other (Parsed (VDict doc)) self) = VDict members'
    /\ Dict.keys members' = Dict.keys members
    /\ Dict.get name members' = Some (VDict m')
    /\ Dict.keys m' = Dict.keys m
    /\ Dict.get skill_type m' = Some (VList (map VStr (Spec.flat_skills cats)))
    /\ forall k, k <> "technical_skills" -> k <> "soft_skills" ->
                 Dict.get k m' = Dict.get k m.
Proof.
  intros Hdoc Hwf Hin Hname Hfield.
  destruct (convert_members_spec members Hwf) as (members' & Hconv & Hkeys & Hget).
  destruct (Hget name (VDict m) Hname) as (mv & Hcm & Hname').
  assert (Hm : Spec.well_formed_member (VDict m)).
  { rewrite Forall_forall in Hwf. apply Hwf. unfold Dict.values.
    clear - Hname. induction members as [|[k v] r IH]; simpl in *; [discriminate|].
    destruct (String.eqb k name); [inversion Hname; auto|auto]. }
  destruct Hm as (d & Hd & Htech & Hsoft). inversion Hd; subst d.
  destruct (convert_member_legacy skill_type m cats Hin Htech Hsoft Hfield)
    as (m' & Hcm' & Hk & Hflat & Hframe).
  rewrite Hcm in Hcm'. inversion Hcm'; subst mv.
  exists members', m'.
  split; [|auto].
  unfold load_data, load_body, Py.get_default. rewrite Hdoc. cbn [bind].
  rewrite Hconv. reflexivity.
Qed.

End Migration.

Section Members.

Lemma py_item_dict (k : string) (d : list (string * pyval)) (v : pyval) :
  Dict.get k d = Some v -> Py.item (VDict d) k = Ok v.
Proof. intros H. unfold Py.item, Dict.item. now rewrite H. Qed.

Lemma truthy_nonempty (x : string) : x <> EmptyString -> PyStr.truthy x = true.
Proof. destruct x; [congruence|reflexivity]. Qed.

Lemma existsb_is_str (x : string) (l : list pyval) :
  existsb (Py.is_str x) l = true <-> In (VStr x) l.
Proof.
  rewrite existsb_exists. split.
  - intros (v & Hin & Hv). destruct v; simpl in Hv; try discriminate.
    apply String.eqb_eq in Hv. now subst.
  - intros Hin. exists (VStr x). split; [assumption|]. simpl. apply String.eqb_refl.
Qed.

Lemma existsb_is_str_false (x : string) (l : list pyval) :
  existsb (Py.is_str x) l = false <-> ~ In (VStr x) l.
Proof.
  rewrite <- existsb_is_str. destruct (existsb (Py.is_str x) l); split; intros H;
    try reflexivity; try discriminate; try congruence; try tauto.
Qed.

(** C7, as the code has it: for a Technical Skills or Soft Skills entry
    with a category and a subskill chosen, [add_skill_to_member] builds
    "category: subskill"; when the member's list of that family holds the
    string already, the duplicate is reported, nothing is written and the
    application is unchanged; otherwise the string is appended once at the
    end of that list, and every other member, field and attribute stays as
    it was. *)
Theorem C7_add_skill_to_member_rejects_duplicates
    (member_name skill_type category subskill : string) (s : App)
    (tm member : list (string * pyval)) (skill_list : list pyval) :
  member_name <> EmptyString ->
  category <> EmptyString ->
  subskill <> EmptyString ->
  In skill_type ["Technical Skills"; "Soft Skills"] ->
  team_members s = VDict tm ->
  Dict.get member_name tm = Some (VDict member) ->
  Dict.get (skill_key skill_type) member = Some (VList skill_list) ->
  let skill := (category ++ ": " ++ subskill)%string in
  let o := add_skill_to_member member_name skill_type [category; subskill] s in
  raised o = None
  /\ (In (VStr skill) skill_list ->
        self_after o = s
        /\ shown o = [ShowInfo "Info"
                        (skill ++ " is already in the member's " ++ skill_type
                         ++ " list.")%string])
  /\ (~ In (VStr skill) skill_list ->
        exists tm' member',
          self_after o = set_team_members (VDict tm') s
          /\ Dict.get member_name tm' = Some (VDict member')
          /\ Dict.get (skill_key skill_type) member'
             = Some (VList (skill_list ++ [VStr skill]))
          /\ (forall k, k <> skill_key skill_type ->
                        Dict.get k member' = Dict.get k member)
          /\ (forall other, other <> member_name ->
                            Dict.get other tm' = Dict.get other tm)
          /\ In (Write (save_data (self_after o))) (shown o)).
Proof.
  intros Hname Hcat Hsub Hfam Htm Hmember Hlist. cbv zeta.
  unfold add_skill_to_member.
  rewrite (truthy_nonempty _ Hname). cbn [negb].
  assert (Hargs : skill_of_args skill_type [category; subskill]
                  = Ok (Some (category ++ ": " ++ subskill)%string)).
  { unfold skill_of_args.
    rewrite (truthy_nonempty _ Hcat), (truthy_nonempty _ Hsub).
    destruct Hfam as [<-|[<-|[]]]; reflexivity. }
  rewrite Htm, (py_item_dict _ _ _ Hmember). cbn [bind].
  rewrite (py_item_dict _ _ _ Hlist). cbn [bind].
  rewrite Hargs. cbn [bind Py.contains].
  destruct (existsb (Py.is_str (category ++ ": " ++ subskill)) skill_list) eqn:E.
  - apply existsb_is_str in E.
    split; [reflexivity|]. split; [intros _; split; reflexivity|].
    intros Hnot. contradiction.
  - apply existsb_is_str_false in E.
    unfold Py.append. cbn [bind]. unfold store_member_field.
    rewrite Htm, Hmember. cbn [done self_after shown raised].
    split; [reflexivity|]. split; [intros Hin; contradiction|].
    intros _. do 2 eexists. split; [reflexivity|].
      split; [apply dict_get_set_same|].
      split; [apply dict_get_set_same|].
      split; [intros k Hk; now apply dict_get_set_other|].
      split; [intros other Ho; now apply dict_get_set_other|].
      simpl. auto.
Qed.

Lemma remove_at_split {A : Type} (i : nat) (l : list A) :
  i < length l ->
  exists before x after,
    l = before ++ x :: after /\ length before = i
    /\ nth_error l i = Some x /\ remove_at i l = before ++ after.
Proof.
  revert l. induction i as [|i IH]; intros [|a l] Hlt; simpl in Hlt; try lia.
  - exists [], a, l. repeat split.
  - destruct (IH l ltac:(lia)) as (before & x & after & -> & Hlen & Hnth & Hrm).
    exists (a :: before), x, after. repeat split; simpl; auto.
    unfold remove_at in *. simpl. simpl in Hrm. now rewrite Hrm.
Qed.

Lemma nth_nth_error {A : Type} (i : nat) (l : list A) (x d : A) :
  nth_error l i = Some x -> nth i l d = x.
Proof.
  revert l. induction i as [|i IH]; intros [|a l]; simpl; try discriminate.
  - now intros [= ->].
  - apply IH.
Qed.

(** C8, as the code has it: [move_goal_to_achievement] works on the lines
    of the goals text.  A line number outside [1, len(goals)] changes
    nothing and reports nothing.  A line number inside it removes that
    line from the goals text, keeping the other lines in their order, and,
    for a member with an achievements list, appends the removed goal to
    the member's achievements and saves. *)
Theorem C8_move_goal_to_achievement
    (line_num : Z) (text member_name : string) (s : App) :
  let goals := PyStr.split PyStr.newline (PyStr.strip text) in
  let r := move_goal_to_achievement line_num text member_name s in
  ((line_num < 1 \/ Z.of_nat (length goals) < line_num)%Z ->
     r = mk_goal_outcome text (done s []))
  /\ ((1 <= line_num <= Z.of_nat (length goals))%Z ->
      forall tm member achievements,
        team_members s = VDict tm ->
        Dict.get member_name tm = Some (VDict member) ->
        Dict.get "achievements" member = Some (VList achievements) ->
        exists before goal after tm' member',
          goals = before ++ goal :: after
          /\ Z.of_nat (length before) = (line_num - 1)%Z
          /\ goals_text r
             = (PyStr.join PyStr.nl (before ++ after) ++ PyStr.nl)%string
          /\ raised (app_outcome r) = None
          /\ self_after (app_outcome r) = set_team_members (VDict tm') s
          /\ Dict.get member_name tm' = Some (VDict member')
          /\ Dict.get "achievements" member'
             = Some (VList (achievements ++ [VStr goal]))
          /\ (forall other, other <> member_name ->
                            Dict.get other tm' = Dict.get other tm)
          /\ In (Write (save_data (self_after (app_outcome r))))
                (shown (app_outcome r))).
Proof.
  cbv zeta. unfold move_goal_to_achievement.
  set (goals := PyStr.split PyStr.newline (PyStr.strip text)).
  split.
  - intros Hout.
    destruct ((1 <=? line_num)%Z && (line_num <=? Z.of_nat (length goals))%Z) eqn:E;
      [|reflexivity].
    apply andb_true_iff in E. destruct E as [E1 E2].
    apply Z.leb_le in E1. apply Z.leb_le in E2. lia.
  - intros [H1 H2] tm member achievements Htm Hmember Hach.
    assert (E : ((1 <=? line_num)%Z && (line_num <=? Z.of_nat (length goals))%Z) = true).
    { apply andb_true_iff. split; now apply Z.leb_le. }
    rewrite E.
    destruct (remove_at_split (Z.to_nat (line_num - 1)) goals ltac:(lia))
      as (before & goal & after & Hgoals & Hlen & Hnth & Hrm).
    rewrite Hrm, (nth_nth_error _ _ goal EmptyString Hnth).
    rewrite Htm. unfold Py.get_default. rewrite Hmember. cbn [bind].
    rewrite (py_item_dict _ _ _ Hach). cbn [bind Py.append].
    unfold store_member_field. rewrite Htm, Hmember.
    exists before, goal, after. do 2 eexists.
    split; [assumption|]. split; [lia|].
    split; [reflexivity|]. split; [reflexivity|]. split; [reflexivity|].
    split; [apply dict_get_set_same|].
    split; [apply dict_get_set_same|].
    split; [intros other Ho; now apply dict_get_set_other|].
    simpl. auto.
Qed.

End Members.

Section BulkImport.

Lemma import_row_three (row : list string) (c : taxonomy) :
  Spec.three_fields row = true -> exists c', import_row row c = Ok c'.
Proof.
  unfold Spec.three_fields, import_row. intros H.
  apply Nat.eqb_eq in H.
  destruct (resolve_row row) as [|a [|b [|d [|e r]]]]; simpl in H; try discriminate.
  simpl. eauto.
Qed.

Lemma import_row_other (row : list string) (c : taxonomy) :
  Spec.three_fields row = false ->
  import_row row c = Raise (InvalidRowFormat (resolve_row row)).
Proof.
  unfold Spec.three_fields, import_row. intros H.
  destruct (resolve_row row) as [|a [|b [|d [|e r]]]]; simpl in H; try discriminate;
    reflexivity.
Qed.

Lemma import_all_three (rows : list (list string)) (c : taxonomy) :
  forallb Spec.three_fields rows = true ->
  exists c', for_each_keep rows import_row c = (c', None).
Proof.
  revert c. induction rows as [|row r IH]; intros c H; simpl.
  - eauto.
  - simpl in H. apply andb_true_iff in H. destruct H as [Hrow Hr].
    destruct (import_row_three row c Hrow) as [c1 ->]. now apply IH.
Qed.

Lemma import_stops_at (pre post : list (list string)) (bad : list string)
    (c : taxonomy) :
  forallb Spec.three_fields pre = true ->
  Spec.three_fields bad = false ->
  exists c', for_each_keep pre import_row c = (c', None)
             /\ for_each_keep (pre ++ bad :: post) import_row c
                = (c', Some (InvalidRowFormat (resolve_row bad))).
Proof.
  revert c. induction pre as [|row r IH]; intros c Hpre Hbad; simpl.
  - exists c. now rewrite (import_row_other bad c Hbad).
  - simpl in Hpre. apply andb_true_iff in Hpre. destruct Hpre as [Hrow Hr].
    destruct (import_row_three row c Hrow) as [c1 ->]. now apply IH.
Qed.

Lemma first_short_row (rows : list (list string)) :
  forallb Spec.three_fields rows = false ->
  exists pre bad post,
    rows = pre ++ bad :: post
    /\ forallb Spec.three_fields pre = true
    /\ Spec.three_fields bad = false.
Proof.
  induction rows as [|row r IH]; simpl; [discriminate|].
  destruct (Spec.three_fields row) eqn:E; simpl.
  - intros H. destruct (IH H) as (pre & bad & post & -> & Hpre & Hbad).
    exists (row :: pre), bad, post. simpl. rewrite E. auto.
  - intros _. exists [], row, r. auto.
Qed.

Lemma upload_three (header : list string) (data : list (list string)) (s : App) :
  forallb Spec.three_fields data = true ->
  exists c f e,
    for_each_keep data import_row (categories s) = (c, None)
    /\ self_after (upload_skills_csv (header :: data) s) = set_categories c s
    /\ shown (upload_skills_csv (header :: data) s) = [Write f; e].
Proof.
  intros H. destruct (import_all_three data (categories s) H) as [c Hc].
  unfold upload_skills_csv. rewrite Hc.
  destruct (refresh_categories "Technical Skills" (set_categories c s));
    simpl; eauto 6.
Qed.

(** C6, as the code has it: the import stops with the "Invalid row
    format" error exactly when some data row does not resolve to three
    fields (a row of one field being split again on commas); whether a
    field is empty is not looked at.  The first such row ends the loop:
    the rows before it stay applied to [categories], the rows after it
    are not read, and nothing is saved. *)
Theorem C6_import_fails_on_first_short_row
    (header : list string) (data : list (list string)) (s : App) :
  let o := upload_skills_csv (header :: data) s in
  ((exists row, shown o = [csv_error (InvalidRowFormat row)])
   <-> (exists row, In row data /\ Spec.three_fields row = false))
  /\ (forall pre bad post,
        data = pre ++ bad :: post ->
        forallb Spec.three_fields pre = true ->
        Spec.three_fields bad = false ->
        shown o = [csv_error (InvalidRowFormat (resolve_row bad))]
        /\ self_after o
           = self_after (upload_skills_csv (header :: pre) s)).
Proof.
  cbv zeta.
  assert (Hstop : forall pre bad post,
            data = pre ++ bad :: post ->
            forallb Spec.three_fields pre = true ->
            Spec.three_fields bad = false ->
            shown (upload_skills_csv (header :: data) s)
            = [csv_error (InvalidRowFormat (resolve_row bad))]
            /\ self_after (upload_skills_csv (header :: data) s)
               = self_after (upload_skills_csv (header :: pre) s)).
  { intros pre bad post -> Hpre Hbad.
    destruct (import_stops_at pre post bad (categories s) Hpre Hbad)
      as (c & Hc & Hstop).
    destruct (upload_three header pre s Hpre) as (c0 & f & e & Hc0 & Hself & _).
    rewrite Hself. rewrite Hc in Hc0. inversion Hc0; subst c0.
    unfold upload_skills_csv. rewrite Hstop. auto. }
  split; [|exact Hstop].
  split.
  - intros [row Hshown].
    destruct (forallb Spec.three_fields data) eqn:E.
    + destruct (upload_three header data s E) as (c & f & e & _ & _ & Hs).
      rewrite Hs in Hshown. discriminate.
    + destruct (first_short_row data E) as (pre & bad & post & -> & _ & Hbad).
      exists bad. split; [|assumption]. apply in_or_app. right. now left.
  - intros (row & Hin & Hrow).
    assert (E : forallb Spec.three_fields data = false).
    { destruct (forallb Spec.three_fields data) eqn:E; [|reflexivity].
      rewrite forallb_forall in E. rewrite (E row Hin) in Hrow. discriminate. }
    destruct (first_short_row data E) as (pre & bad & post & Hd & Hpre & Hbad).
    exists (resolve_row bad). now apply (Hstop pre bad post).
Qed.

End BulkImport.

Section Tokens.

(** Trimming the whole entry first does not change the trimmed tokens. *)

Lemma split_not_nil (sep : ascii) (s : string) : PyStr.split sep s <> [].
Proof.
  destruct s as [|c r]; simpl; [discriminate|].
  destruct (Ascii.eqb c sep); [discriminate|].
  destruct (PyStr.split sep r); discriminate.
Qed.

Lemma split_single (sep : ascii) (s y : string) :
  PyStr.split sep s = [y] -> y = s.
Proof.
  revert y. induction s as [|c r IH]; intros y; simpl.
  - now intros [= <-].
  - destruct (Ascii.eqb c sep).
    + intros H. inversion H as [[H1 H2]]. now apply split_not_nil in H2.
    + destruct (PyStr.split sep r) as [|h t] eqn:E.
      * now apply split_not_nil in E.
      * intros H. inversion H; subst. now rewrite (IH h eq_refl).
Qed.

Lemma rstrip_nonspace (c : ascii) (r : string) :
  PyStr.is_space c = false -> PyStr.rstrip (String c r) = String c (PyStr.rstrip r).
Proof.
  intros H. simpl. rewrite H. now destruct (PyStr.rstrip r).
Qed.

Lemma rstrip_space (c : ascii) (r : string) :
  PyStr.is_space c = true ->
  PyStr.rstrip (String c r)
  = match PyStr.rstrip r with
    | EmptyString => EmptyString
    | r' => String c r'
    end.
Proof.
  intros H. simpl. rewrite H. reflexivity.
Qed.

Lemma split_cons_other (sep c : ascii) (r : string) :
  Ascii.eqb c sep = false ->
  PyStr.split sep (String c r)
  = match PyStr.split sep r with
    | h :: t => String c h :: t
    | [] => [String c EmptyString]
    end.
Proof. intros H. simpl. now rewrite H. Qed.

Lemma split_cons_sep (sep c : ascii) (r : string) :
  Ascii.eqb c sep = true ->
  PyStr.split sep (String c r) = EmptyString :: PyStr.split sep r.
Proof. intros H. simpl. now rewrite H. Qed.

Lemma split_lstrip (sep : ascii) (s : string) :
  PyStr.is_space sep = false ->
  PyStr.split sep (PyStr.lstrip s) = map_first PyStr.lstrip (PyStr.split sep s).
Proof.
  intros Hsep. induction s as [|c r IH]; [reflexivity|].
  simpl PyStr.lstrip. destruct (PyStr.is_space c) eqn:Hc.
  - assert (Hne : Ascii.eqb c sep = false).
    { destruct (Ascii.eqb c sep) eqn:E; [|reflexivity].
      apply Ascii.eqb_eq in E. congruence. }
    rewrite IH. simpl PyStr.split. rewrite Hne.
    destruct (PyStr.split sep r) as [|h t] eqn:E.
    + now apply split_not_nil in E.
    + simpl. now rewrite Hc.
  - simpl PyStr.split. destruct (Ascii.eqb c sep).
    + reflexivity.
    + destruct (PyStr.split sep r) as [|h t]; simpl; now rewrite Hc.
Qed.

Lemma split_rstrip (sep : ascii) (s : string) :
  PyStr.is_space sep = false ->
  PyStr.split sep (PyStr.rstrip s) = map_last PyStr.rstrip (PyStr.split sep s).
Proof.
  intros Hsep. induction s as [|c r IH]; [reflexivity|].
  destruct (Ascii.eqb c sep) eqn:Hcs.
  - (* a separator is not a space *)
    assert (Hc : PyStr.is_space c = false).
    { apply Ascii.eqb_eq in Hcs. congruence. }
    rewrite (rstrip_nonspace c r Hc).
    rewrite !(split_cons_sep _ _ _ Hcs), IH.
    destruct (PyStr.split sep r) as [|h t] eqn:E.
    + now apply split_not_nil in E.
    + reflexivity.
  - rewrite (split_cons_other _ _ r Hcs).
    destruct (PyStr.split sep r) as [|h t] eqn:E.
    { now apply split_not_nil in E. }
    destruct (PyStr.is_space c) eqn:Hc.
    + rewrite (rstrip_space c r Hc).
      destruct (PyStr.rstrip r) as [|c' r'] eqn:Hr.
      * (* all of [r] is trimmed away *)
        destruct t as [|h2 t2].
        -- cbn [map_last] in *. inversion IH as [Hh].
           rewrite (rstrip_space c h Hc), <- Hh. reflexivity.
        -- exfalso. cbn [map_last] in IH. destruct t2; discriminate.
      * rewrite (split_cons_other _ _ _ Hcs), IH.
        destruct t as [|h2 t2].
        -- cbn [map_last]. rewrite (rstrip_space c h Hc).
           assert (Hh : h = r) by (now apply (split_single sep)).
           subst h. rewrite Hr. reflexivity.
        -- reflexivity.
    + rewrite (rstrip_nonspace c r Hc).
      rewrite (split_cons_other _ _ _ Hcs), IH.
      destruct t as [|h2 t2].
      * cbn [map_last]. now rewrite (rstrip_nonspace c h Hc).
      * reflexivity.
Qed.

Lemma lstrip_idem (s : string) : PyStr.lstrip (PyStr.lstrip s) = PyStr.lstrip s.
Proof.
  induction s as [|c r IH]; [reflexivity|].
  simpl. destruct (PyStr.is_space c) eqn:E; [assumption|]. simpl. now rewrite E.
Qed.

Lemma rstrip_idem (s : string) : PyStr.rstrip (PyStr.rstrip s) = PyStr.rstrip s.
Proof.
  induction s as [|c r IH]; [reflexivity|].
  destruct (PyStr.is_space c) eqn:E.
  - rewrite (rstrip_space c r E).
    destruct (PyStr.rstrip r) as [|c' r'] eqn:Hr; [reflexivity|].
    rewrite (rstrip_space c _ E), IH. reflexivity.
  - rewrite (rstrip_nonspace c r E), (rstrip_nonspace c _ E), IH. reflexivity.
Qed.

Lemma lstrip_rstrip (s : string) :
  PyStr.lstrip (PyStr.rstrip s) = PyStr.rstrip (PyStr.lstrip s).
Proof.
  induction s as [|c r IH]; [reflexivity|].
  destruct (PyStr.is_space c) eqn:E.
  - rewrite (rstrip_space c r E). simpl PyStr.lstrip at 2. rewrite E, <- IH.
    destruct (PyStr.rstrip r) as [|c' r']; [reflexivity|].
    simpl. now rewrite E.
  - rewrite (rstrip_nonspace c r E). simpl PyStr.lstrip. rewrite E.
    now rewrite (rstrip_nonspace c r E).
Qed.

Lemma strip_lstrip (s : string) : PyStr.strip (PyStr.lstrip s) = PyStr.strip s.
Proof. unfold PyStr.strip. now rewrite lstrip_idem. Qed.

Lemma strip_rstrip (s : string) : PyStr.strip (PyStr.rstrip s) = PyStr.strip s.
Proof. unfold PyStr.strip. now rewrite lstrip_rstrip, rstrip_idem. Qed.

Lemma map_map_first {A B : Type} (f : A -> B) (g : A -> A) (l : list A) :
  (forall x, f (g x) = f x) -> map f (map_first g l) = map f l.
Proof. intros H. destruct l; simpl; [reflexivity|now rewrite H]. Qed.

Lemma map_map_last {A B : Type} (f : A -> B) (g : A -> A) (l : list A) :
  (forall x, f (g x) = f x) -> map f (map_last g l) = map f l.
Proof.
  intros H. induction l as [|x t IH]; [reflexivity|].
  destruct t as [|y t']; simpl in *; [now rewrite H|now rewrite IH].
Qed.

Lemma filter_map_strip (l : list string) :
  map PyStr.strip (filter (fun s => PyStr.truthy (PyStr.strip s)) l)
  = filter PyStr.truthy (map PyStr.strip l).
Proof.
  induction l as [|x t IH]; [reflexivity|].
  simpl. destruct (PyStr.truthy (PyStr.strip x)); simpl; now rewrite IH.
Qed.

(** The list comprehension of [add_multiple_subskills], run on the
    trimmed entry, yields the tokens of the entry. *)
Lemma parse_subskills_tokens (entry : string) :
  parse_subskills (PyStr.strip entry) = Spec.tokens entry.
Proof.
  unfold parse_subskills, Spec.tokens. rewrite filter_map_strip. f_equal.
  unfold PyStr.strip at 2.
  rewrite split_rstrip by reflexivity.
  rewrite (map_map_last _ _ _ strip_rstrip).
  rewrite split_lstrip by reflexivity.
  now rewrite (map_map_first _ _ _ strip_lstrip).
Qed.

End Tokens.

Section BulkAdd.

Lemma filter_filter_comm {A : Type} (p q : A -> bool) (l : list A) :
  filter p (filter q l) = filter q (filter p l).
Proof.
  induction l as [|x t IH]; [reflexivity|].
  simpl. destruct (p x) eqn:Hp, (q x) eqn:Hq; simpl; rewrite ?Hp, ?Hq, IH; reflexivity.
Qed.

Lemma filter_absorbs (p : string -> bool) (x : string) (l : list string) :
  p x = false ->
  filter p (filter (fun y => negb (String.eqb y x)) l) = filter p l.
Proof.
  intros Hx. induction l as [|y t IH]; [reflexivity|].
  simpl. destruct (String.eqb y x) eqn:E; simpl.
  - apply String.eqb_eq in E; subst y. now rewrite Hx.
  - now rewrite IH.
Qed.

Lemma dedup_filter (p : string -> bool) (l : list string) :
  Spec.dedup (filter p l) = filter p (Spec.dedup l).
Proof.
  induction l as [|x t IH]; [reflexivity|].
  simpl. destruct (p x) eqn:Hp; simpl.
  - now rewrite IH, filter_filter_comm.
  - now rewrite IH, filter_absorbs.
Qed.

Lemma existsb_is_str_app (t x : string) (cur : list pyval) :
  existsb (Py.is_str t) (cur ++ [VStr x])
  = existsb (Py.is_str t) cur || String.eqb x t.
Proof.
  rewrite existsb_app. simpl. now rewrite orb_false_r.
Qed.

(** The loop appends what the specification calls the new tokens. *)
Lemma added_from_new_tokens (cur : list pyval) (toks : list string) :
  added_from cur toks = Spec.new_tokens cur toks.
Proof.
  unfold Spec.new_tokens. revert cur.
  induction toks as [|t r IH]; intros cur; [reflexivity|].
  simpl. destruct (existsb (Py.is_str t) cur) eqn:E; simpl.
  - apply IH.
  - f_equal. rewrite IH, <- dedup_filter, filter_filter_comm. f_equal.
    clear. induction r as [|y r IH]; [reflexivity|].
    simpl. rewrite existsb_is_str_app, negb_orb, String.eqb_sym.
    destruct (String.eqb y t); simpl;
      destruct (existsb (Py.is_str y) cur); simpl; now rewrite IH.
Qed.

Lemma added_skipped_length (cur : list pyval) (toks : list string) :
  length (skipped_from cur toks) + length (added_from cur toks) = length toks.
Proof.
  revert cur. induction toks as [|t r IH]; intros cur; [reflexivity|].
  simpl. destruct (existsb (Py.is_str t) cur); simpl.
  - now rewrite IH.
  - rewrite Nat.add_succ_r. now rewrite IH.
Qed.

Lemma skipped_from_in (cur : list pyval) (toks : list string) (t : string) :
  In t (skipped_from cur toks) -> In t toks.
Proof.
  revert cur. induction toks as [|t0 r IH]; intros cur; simpl; [tauto|].
  destruct (existsb (Py.is_str t0) cur); simpl.
  - intros [H|H]; eauto.
  - intros H; eauto.
Qed.

Lemma set_subskills_data_same (s : App) : set_subskills_data (subskills_data s) s = s.
Proof. now destruct s. Qed.

Lemma add_one_subskill_loop (skill_type category : string) (toks : list string) :
  forall (s : App) (by_type by_category : list (string * pyval))
         (cur : list pyval) (added : list string) (evs : list event),
    subskills_data s = VDict by_type ->
    Dict.get skill_type by_type = Some (VDict by_category) ->
    Dict.get category by_category = Some (VList cur) ->
    exists by_type' by_category',
      for_each_keep toks (add_one_subskill skill_type category) (s, added, evs)
      = ((set_subskills_data (VDict by_type') s,
          added ++ added_from cur toks,
          evs ++ map duplicate_warning (skipped_from cur toks)), None)
      /\ Dict.get skill_type by_type' = Some (VDict by_category')
      /\ Dict.get category by_category'
         = Some (VList (cur ++ map VStr (added_from cur toks)))
      /\ (forall k, k <> skill_type -> Dict.get k by_type' = Dict.get k by_type)
      /\ (forall k, k <> category ->
                    Dict.get k by_category' = Dict.get k by_category).
Proof.
  induction toks as [|t r IH]; intros s by_type by_category cur added evs Hs Hbt Hbc.
  - exists by_type, by_category. simpl. rewrite !app_nil_r, <- Hs.
    rewrite set_subskills_data_same. auto.
  - cbn [for_each_keep]. unfold add_one_subskill at 1. unfold subskills_of.
    rewrite Hs, (py_item_dict _ _ _ Hbt). cbn [bind].
    rewrite (py_item_dict _ _ _ Hbc). cbn [bind Py.contains added_from skipped_from].
    destruct (existsb (Py.is_str t) cur) eqn:E; cbn [negb bind].
    + destruct (IH s by_type by_category cur added (evs ++ [duplicate_warning t])
                  Hs Hbt Hbc) as (bt' & bc' & Hloop & H1 & H2 & H3 & H4).
      exists bt', bc'. unfold duplicate_warning at 1 in Hloop. rewrite Hloop.
      cbn [map]. rewrite <- app_assoc. auto.
    + cbn [Py.append bind]. unfold store_subskills. rewrite Hs, Hbt. cbn [bind].
      set (bc1 := Dict.set category (VList (cur ++ [VStr t])) by_category).
      set (bt1 := Dict.set skill_type (VDict bc1) by_type).
      destruct (IH (set_subskills_data (VDict bt1) s) bt1 bc1 (cur ++ [VStr t])
                  (added ++ [t]) evs eq_refl)
        as (bt' & bc' & Hloop & H1 & H2 & H3 & H4).
      { subst bt1. apply dict_get_set_same. }
      { subst bc1. apply dict_get_set_same. }
      exists bt', bc'. rewrite Hloop. repeat split.
      * now rewrite <- app_assoc.
      * assumption.
      * rewrite H2. cbn [map]. now rewrite <- app_assoc.
      * intros k Hk. rewrite (H3 k Hk). subst bt1. now apply dict_get_set_other.
      * intros k Hk. rewrite (H4 k Hk). subst bc1. now apply dict_get_set_other.
Qed.

(** C5, as the code has it: for a category that is present and an entry
    that is not blank, [add_multiple_subskills] splits the entry on
    commas, trims each token and drops the empty ones; every token that is
    not yet in the category is appended once, in input order; every other
    token is skipped with a "Duplicate" warning and does not stop the run;
    the number appended is reported after the save, or "No Changes" when
    it is zero.  Nothing else in the application changes. *)
Theorem C5_add_multiple_subskills
    (skill_type category entry : string) (s : App)
    (by_type by_category : list (string * pyval)) (existing : list pyval) :
  category <> EmptyString ->
  PyStr.strip entry <> EmptyString ->
  subskills_data s = VDict by_type ->
  Dict.get skill_type by_type = Some (VDict by_category) ->
  Dict.get category by_category = Some (VList existing) ->
  Dict.mem skill_type (categories s) = true ->
  let toks := Spec.tokens entry in
  let added := Spec.new_tokens existing toks in
  let o := add_multiple_subskills skill_type category entry s in
  raised o = None
  /\ (exists by_type' by_category',
        self_after o = set_subskills_data (VDict by_type') s
        /\ Dict.get skill_type by_type' = Some (VDict by_category')
        /\ Dict.get category by_category'
           = Some (VList (existing ++ map VStr added))
        /\ (forall k, k <> skill_type -> Dict.get k by_type' = Dict.get k by_type)
        /\ (forall k, k <> category ->
                      Dict.get k by_category' = Dict.get k by_category))
  /\ (exists skipped,
        length skipped + length added = length toks
        /\ (forall t, In t skipped -> In t toks)
        /\ shown o
           = map duplicate_warning skipped
             ++ match added with
                | [] => [ShowInfo "No Changes" "No new subskills were added."]
                | _ :: _ =>
                    [Write (save_data (self_after o));
                     ShowInfo "Success"
                       ("Added " ++ PyStr.of_nat (length added)
                        ++ " new subskills to '" ++ category ++ "'.")%string]
                end).
Proof.
  intros Hcat Hentry Hs Hbt Hbc Hfam. cbv zeta.
  unfold add_multiple_subskills.
  rewrite (truthy_nonempty _ Hcat), (truthy_nonempty _ Hentry). cbn [negb].
  rewrite parse_subskills_tokens.
  destruct (add_one_subskill_loop skill_type category (Spec.tokens entry)
              s by_type by_category existing [] [] Hs Hbt Hbc)
    as (bt' & bc' & Hloop & H1 & H2 & H3 & H4).
  rewrite Hloop. cbn [app].
  rewrite added_from_new_tokens in *.
  set (toks := Spec.tokens entry) in *.
  pose proof (added_skipped_length existing toks) as Hlen.
  rewrite added_from_new_tokens in Hlen.
  destruct (Spec.new_tokens existing toks) as [|a added'] eqn:Hadded.
  - cbn [done raised self_after shown]. split; [reflexivity|]. split.
    + exists bt', bc'. auto.
    + exists (skipped_from existing toks). repeat split; auto.
      intros t. apply skipped_from_in.
  - unfold refresh_categories, Dict.item.
    unfold Dict.mem in Hfam. cbn [categories set_subskills_data].
    destruct (Dict.get skill_type (categories s)); [|discriminate].
    cbn [bind done raised self_after shown]. split; [reflexivity|]. split.
    + exists bt', bc'. auto.
    + exists (skipped_from existing toks). repeat split; auto.
      * intros t. apply skipped_from_in.
      * now rewrite <- app_assoc.
Qed.

End BulkAdd.

Section RoundTrip.

Variable str_other : pyval -> string.

(** What [save_data] does write comes back: the four attributes of the
    document are read as they were saved, once the members are in the
    flat layout (as [load_data] leaves them). *)

Lemma convert_member_flat (m : pyval) :
  Spec.flat_member m -> convert_member str_other m = Ok m.
Proof.
  intros (d & -> & Htech & Hsoft). unfold convert_member. simpl for_each.
  rewrite (convert_skill_type_flat str_other _ _ Htech). simpl bind.
  now rewrite (convert_skill_type_flat str_other _ _ Hsoft).
Qed.

Lemma convert_members_flat (members : list (string * pyval)) :
  Forall Spec.flat_member (Dict.values members) ->
  convert_members str_other (VDict members) = Ok (VDict members).
Proof.
  unfold convert_members. intros H.
  assert (E : mapM (fun '(name, member) =>
                      member' <- convert_member str_other member ;;
                      Ok (name, member')) members = Ok members).
  { induction members as [|[name m] r IH]; [reflexivity|].
    inversion H as [|? ? Hm Hr]; subst. simpl.
    rewrite (convert_member_flat m Hm). simpl. now rewrite (IH Hr). }
  now rewrite E.
Qed.

Lemma save_load_persisted (s : App) (self : Initial)
    (members : list (string * pyval)) :
  team_members s = VDict members ->
  Forall Spec.flat_member (Dict.values members) ->
  load_data str_other (save_data s) self = set_categories (init_categories self) s.
Proof.
  intros Htm Hflat. unfold save_data, load_data, load_body. simpl.
  rewrite Htm, (convert_members_flat members Hflat). simpl.
  unfold set_categories. now rewrite Htm.
Qed.

Lemma convert_skill_type_result (skill_type : string) (m m' : pyval) :
  convert_skill_type str_other skill_type m = Ok m' ->
  exists d d',
    m = VDict d /\ m' = VDict d'
    /\ (forall v, Dict.get skill_type d' = Some v -> Py.isinstance_dict v = false)
    /\ (forall k, k <> skill_type -> Dict.get k d' = Dict.get k d).
Proof.
  unfold convert_skill_type. destruct m as [| | | | |d]; simpl; try discriminate.
  destruct (Dict.get skill_type d) as [old|] eqn:Hget.
  - destruct (Py.isinstance_dict old) eqn:Hd.
    + destruct old; simpl in Hd; try discriminate. simpl.
      match goal with
      | |- context [for_each ?l ?f ?a] => destruct (for_each l f a) as [ns|]
      end; simpl; [|discriminate].
      intros [= <-]. exists d. eexists. repeat split.
      * intros v. rewrite dict_get_set_same. now intros [= <-].
      * intros k Hk. now apply dict_get_set_other.
    + intros [= <-]. exists d, d. repeat split. intros v Hv. congruence.
  - simpl. intros [= <-]. exists d, d. repeat split. intros v Hv. congruence.
Qed.

Lemma convert_member_result (m m' : pyval) :
  convert_member str_other m = Ok m' -> Spec.flat_member m'.
Proof.
  unfold convert_member. simpl for_each.
  destruct (convert_skill_type str_other "technical_skills" m) as [m1|] eqn:E1;
    simpl; [|discriminate].
  destruct (convert_skill_type str_other "soft_skills" m1) as [m2|] eqn:E2;
    simpl; [|discriminate].
  intros [= <-].
  destruct (convert_skill_type_result _ _ _ E1) as (d & d1 & -> & -> & Ht & _).
  destruct (convert_skill_type_result _ _ _ E2) as (d1' & d2 & Hd1 & -> & Hs & Hf).
  inversion Hd1; subst d1'.
  exists d2. repeat split; auto.
  intros v Hv. apply Ht. rewrite <- Hf by discriminate. assumption.
Qed.

(** After [load_data] every member is in the flat layout. *)
Lemma load_data_flat (f : file) (self : Initial) :
  exists members,
    team_members (load_data str_other f self) = VDict members
    /\ Forall Spec.flat_member (Dict.values members).
Proof.
  assert (Hempty : exists members,
             team_members (initialize_empty_data self) = VDict members
             /\ Forall Spec.flat_member (Dict.values members)).
  { exists []. split; [reflexivity|constructor]. }
  destruct f as [| |data]; simpl; auto.
  unfold load_body.
  destruct (Py.get_default data "team_members" (VDict [])) as [tm|]; simpl; auto.
  destruct (Py.get_default data "skills_data" default_skills_data); simpl; auto.
  destruct (Py.get_default data "subskills_data" default_subskills_data); simpl; auto.
  destruct (Py.get_default data "meetings" (VList [])); simpl; auto.
  destruct (convert_members str_other tm) as [tm'|] eqn:E; simpl; auto.
  unfold convert_members in E. destruct tm as [| | | | |d]; try discriminate.
  destruct (mapM _ d) as [d'|] eqn:Hmap; simpl in E; [|discriminate].
  inversion E; subst tm'. exists d'. split; [reflexivity|].
  clear E. revert d' Hmap. induction d as [|[name m] r IH]; intros d' Hmap.
  - simpl in Hmap. inversion Hmap. constructor.
  - simpl in Hmap.
    destruct (convert_member str_other m) as [m'|] eqn:Hm; simpl in Hmap;
      [|discriminate].
    destruct (mapM _ r) as [r'|] eqn:Hr; simpl in Hmap; [|discriminate].
    inversion Hmap; subst d'. simpl. constructor.
    + now apply (convert_member_result m).
    + now apply IH.
Qed.

End RoundTrip.

Section StartupRun.

Variable str_other : pyval -> string.

(** *** Startup *)

Lemma refresh_team_list_flat (s : App) (members : list (string * pyval)) :
  team_members s = VDict members ->
  Forall Spec.flat_member (Dict.values members) ->
  refresh_team_list s = Ok tt.
Proof.
  intros Htm Hflat. unfold refresh_team_list. rewrite Htm. cbn [Py.items bind].
  assert (E : exists rows,
             mapM (fun '(_, data) =>
                     _ <- Py.get_default data "job_title" (VStr "") ;;
                     _ <- Py.get_default data "join_date" (VStr "") ;;
                     _ <- Py.get_default data "birthday" (VStr "") ;;
                     Ok tt) members = Ok rows).
  { clear Htm. induction members as [|[name m] r IH]; [now exists []|].
    inversion Hflat as [|? ? Hm Hr]; subst.
    destruct Hm as (d & -> & _). destruct (IH Hr) as [rows Hrows].
    simpl. rewrite Hrows. simpl. eauto. }
  destruct E as [rows ->]. reflexivity.
Qed.

Lemma startup_stops (f : file) :
  startup str_other f
  = propagate (load_data str_other f initialize_data_structures) [] KeyError.
Proof.
  unfold startup, create_widgets.
  destruct (load_data_flat str_other f initialize_data_structures)
    as (members & Htm & Hflat).
  unfold and_then at 1. unfold reading at 1.
  rewrite (refresh_team_list_flat _ members Htm Hflat).
  reflexivity.
Qed.

(** C3 (the code departs from the claim): startup never completes.
    [initialize_ui_components] empties the dictionary [category_vars]
    that [__init__] has just filled, so [create_skill_section], reached
    through [create_widgets], raises [KeyError] at
    [self.category_vars["Technical Skills"]] for every data file.  When
    the exception leaves [__init__] the application holds what
    [load_data] built, on the sample document the one meeting of the
    document; no dialog was shown, and the statement
    [self.meetings = []] that ends [create_widgets] was not reached. *)
Theorem C3_startup_never_completes :
  (forall f : file,
      raised (startup str_other f) = Some KeyError
      /\ shown (startup str_other f) = []
      /\ self_after (startup str_other f)
         = load_data str_other f initialize_data_structures)
  /\ raised (startup str_other (Parsed Sample.document)) = Some KeyError
  /\ meetings (self_after (startup str_other (Parsed Sample.document)))
     = VList [Sample.meeting "05/03/2024" "Review"].
Proof.
  split.
  - intros f. rewrite startup_stops. repeat split.
  - rewrite startup_stops. split; reflexivity.
Qed.

End StartupRun.

(** ** The properties on the sample data *)

Lemma sample_app_members : team_members Sample.app = VDict Sample.members.
Proof. reflexivity. Qed.

(** The example of the migration: [{"A": ["x", "y"]}] is read as
    [["A: x", "A: y"]]. *)
Example load_data_migrates_sample :
  team_members (load_data Sample.str_other (Parsed Sample.document)
                  initialize_data_structures)
  = VDict [("Ada", VDict (Sample.member_fields
                            (VList [VStr "A: x"; VStr "A: y"]) (VList [])
                            ["g1"; "g2"] []))].
Proof. reflexivity. Qed.

Lemma sample_members_well_formed :
  Forall Spec.well_formed_member (Dict.values Sample.members_stored).
Proof.
  constructor; [|constructor].
  exists Sample.ada_stored. split; [reflexivity|]. split.
  - intros v Hv _. exists [("A", ["x"; "y"])].
    simpl in Hv. now inversion Hv.
  - intros v Hv Hd. simpl in Hv. inversion Hv; subst v. discriminate Hd.
Defined.

Lemma C2_witness :
  Dict.get "team_members" Sample.document_fields = Some (VDict Sample.members_stored)
  /\ Forall Spec.well_formed_member (Dict.values Sample.members_stored)
  /\ In "technical_skills" ["technical_skills"; "soft_skills"]
  /\ Dict.get "Ada" Sample.members_stored = Some (VDict Sample.ada_stored)
  /\ Dict.get "technical_skills" Sample.ada_stored
     = Some (Spec.legacy_map [("A", ["x"; "y"])])
  /\ exists members' m',
       team_members (load_data Sample.str_other (Parsed (VDict Sample.document_fields))
                       initialize_data_structures) = VDict members'
       /\ Dict.keys members' = Dict.keys Sample.members_stored
       /\ Dict.get "Ada" members' = Some (VDict m')
       /\ Dict.keys m' = Dict.keys Sample.ada_stored
       /\ Dict.get "technical_skills" m' = Some (VList [VStr "A: x"; VStr "A: y"])
       /\ forall k, k <> "technical_skills" -> k <> "soft_skills" ->
                    Dict.get k m' = Dict.get k Sample.ada_stored.
Proof.
  split; [reflexivity|]. split; [exact sample_members_well_formed|].
  split; [simpl; auto|]. split; [reflexivity|]. split; [reflexivity|].
  apply (C2_legacy_skills_are_flattened Sample.str_other
           Sample.document_fields Sample.members_stored Sample.ada_stored
           initialize_data_structures "Ada" "technical_skills" [("A", ["x"; "y"])]).
  - reflexivity.
  - exact sample_members_well_formed.
  - simpl; auto.
  - reflexivity.
  - reflexivity.
Defined.

(** C5 as stated does not hold: an entry of blanks is turned down with an
    error dialog instead of a count, and a token that is already in the
    category is not skipped in silence but announced in a "Duplicate"
    warning. *)
Lemma C5_blank_entry_and_duplicate_are_reported :
  Spec.tokens "   " = []
  /\ shown (add_multiple_subskills "Technical Skills" "Languages" "   " Sample.app)
     = [ShowError "Error" "Please enter subskills separated by commas."]
  /\ In (duplicate_warning "Python")
        (shown (add_multiple_subskills "Technical Skills" "Languages"
                  "Python, Go" Sample.app))
  /\ raised (add_multiple_subskills "Technical Skills" "Languages"
               "Python, Go" Sample.app) = None
  /\ ~ Stated.bulk_add.
Proof.
  split; [reflexivity|]. split; [reflexivity|]. split; [simpl; auto|].
  split; [reflexivity|].
  intros H.
  destruct (H "Technical Skills" "Languages" "   " Sample.app
              Sample.subskills Sample.technical_subskills [VStr "Python"]
              (or_introl eq_refl) eq_refl eq_refl eq_refl) as (_ & _ & Hcount & _).
  destruct Hcount as [Heq|[]]. discriminate Heq.
Qed.

Lemma C5_witness :
  "Languages" <> EmptyString
  /\ PyStr.strip " Go, Python , , Rust,Go " <> EmptyString
  /\ subskills_data Sample.app = VDict Sample.subskills
  /\ Dict.get "Technical Skills" Sample.subskills = Some (VDict Sample.technical_subskills)
  /\ Dict.get "Languages" Sample.technical_subskills = Some (VList [VStr "Python"])
  /\ Dict.mem "Technical Skills" (categories Sample.app) = true
  /\ raised (add_multiple_subskills "Technical Skills" "Languages"
               " Go, Python , , Rust,Go " Sample.app) = None.
Proof.
  assert (H1 : "Languages" <> EmptyString) by discriminate.
  assert (H2 : PyStr.strip " Go, Python , , Rust,Go " <> EmptyString)
    by (vm_compute; discriminate).
  repeat (split; [first [assumption | reflexivity]|]).
  exact (proj1 (C5_add_multiple_subskills "Technical Skills" "Languages"
                  " Go, Python , , Rust,Go " Sample.app
                  Sample.subskills Sample.technical_subskills [VStr "Python"]
                  H1 H2 eq_refl eq_refl eq_refl eq_refl)).
Defined.

(** C6 as stated does not hold: a data row with an empty field is
    imported, and the import ends with the success dialog. *)
Lemma C6_empty_field_is_imported :
  map PyStr.strip (resolve_row ["Tech"; "  "; "Python"]) = ["Tech"; ""; "Python"]
  /\ shown (upload_skills_csv [Sample.header; ["Tech"; "  "; "Python"]] Sample.app)
     = [Write (save_data Sample.app);
        ShowInfo "Success" "Skills CSV uploaded and processed successfully."]
  /\ Dict.get "Tech"
       (categories (self_after (upload_skills_csv
                                  [Sample.header; ["Tech"; "  "; "Python"]] Sample.app)))
     = Some [("", ["Python"])]
  /\ ~ Stated.import_failure.
Proof.
  split; [reflexivity|]. split; [reflexivity|]. split; [reflexivity|].
  intros H.
  destruct (proj2 (H Sample.header [["Tech"; "  "; "Python"]] Sample.app))
    as [row Hrow].
  - exists ["Tech"; "  "; "Python"]. split; [simpl; auto|reflexivity].
  - discriminate Hrow.
Qed.

Lemma C6_witness :
  forallb Spec.three_fields [["Tech, Languages ,Python"]] = true
  /\ Spec.three_fields ["Tech"; "Languages"] = false
  /\ shown (upload_skills_csv
              (Sample.header
               :: [["Tech, Languages ,Python"]] ++ ["Tech"; "Languages"]
                  :: [["Tech"; "Languages"; "Go"]]) Sample.app)
     = [csv_error (InvalidRowFormat ["Tech"; "Languages"])]
  /\ Dict.get "Tech"
       (categories (self_after (upload_skills_csv
              (Sample.header
               :: [["Tech, Languages ,Python"]] ++ ["Tech"; "Languages"]
                  :: [["Tech"; "Languages"; "Go"]]) Sample.app)))
     = Some [("Languages", ["Python"])].
Proof.
  split; [reflexivity|]. split; [reflexivity|].
  destruct (proj2 (C6_import_fails_on_first_short_row Sample.header
                     ([["Tech, Languages ,Python"]] ++ ["Tech"; "Languages"]
                      :: [["Tech"; "Languages"; "Go"]]) Sample.app)
                  [["Tech, Languages ,Python"]] ["Tech"; "Languages"]
                  [["Tech"; "Languages"; "Go"]] eq_refl eq_refl eq_refl)
    as [Hshown Hself].
  split; [exact Hshown|]. rewrite Hself. reflexivity.
Defined.

(** C7 as stated does not hold for every hierarchical family: for
    Software Skills [add_skill_to_member] takes the branch of the flat
    families, so a category and a subskill are not put together (the two
    values do not unpack, nothing is appended) and a single value is
    appended as it is. *)
Lemma C7_software_skills_are_not_composed :
  In "Software Skills" Spec.hierarchical
  /\ raised (add_skill_to_member "Ada" "Software Skills" ["Design"; "Figma"] Sample.app)
     = Some ValueError
  /\ self_after (add_skill_to_member "Ada" "Software Skills" ["Design"; "Figma"]
                   Sample.app) = Sample.app
  /\ (member <- Py.item (team_members
                           (self_after (add_skill_to_member "Ada" "Software Skills"
                                          ["Figma"] Sample.app))) "Ada" ;;
      Py.item member "software_skills") = Ok (VList [VStr "Figma"])
  /\ ~ Stated.assign_skill.
Proof.
  assert (Hin : In "Software Skills" Spec.hierarchical) by (simpl; auto).
  split; [exact Hin|]. split; [reflexivity|]. split; [reflexivity|].
  split; [reflexivity|].
  intros H.
  assert (H1 : "Ada" <> EmptyString) by discriminate.
  assert (H2 : "Design" <> EmptyString) by discriminate.
  assert (H3 : "Figma" <> EmptyString) by discriminate.
  destruct (H "Ada" "Software Skills" "Design" "Figma" Sample.app []
              Hin H1 H2 H3 eq_refl) as [_ Hnew].
  assert (Hnot : ~ In (VStr "Design: Figma") []) by (simpl; tauto).
  specialize (Hnew Hnot). discriminate Hnew.
Qed.

Lemma C7_witness :
  "Ada" <> EmptyString /\ "A" <> EmptyString /\ "x" <> EmptyString
  /\ In "Technical Skills" ["Technical Skills"; "Soft Skills"]
  /\ team_members Sample.app = VDict Sample.members
  /\ Dict.get "Ada" Sample.members = Some (VDict Sample.ada)
  /\ Dict.get (skill_key "Technical Skills") Sample.ada
     = Some (VList [VStr "A: x"; VStr "A: y"])
  /\ self_after (add_skill_to_member "Ada" "Technical Skills" ["A"; "x"] Sample.app)
     = Sample.app
  /\ shown (add_skill_to_member "Ada" "Technical Skills" ["A"; "x"] Sample.app)
     = [ShowInfo "Info" "A: x is already in the member's Technical Skills list."].
Proof.
  assert (H1 : "Ada" <> EmptyString) by discriminate.
  assert (H2 : "A" <> EmptyString) by discriminate.
  assert (H3 : "x" <> EmptyString) by discriminate.
  assert (H4 : In "Technical Skills" ["Technical Skills"; "Soft Skills"])
    by (simpl; auto).
  repeat (split; [first [assumption | reflexivity]|]).
  apply (proj1 (proj2 (C7_add_skill_to_member_rejects_duplicates
                         "Ada" "Technical Skills" "A" "x" Sample.app
                         Sample.members Sample.ada [VStr "A: x"; VStr "A: y"]
                         H1 H2 H3 H4 eq_refl eq_refl eq_refl))).
  simpl. auto.
Defined.

(** C8 as stated does not hold: a position outside the goals is not
    reported as an error; the handler does nothing at all. *)
Lemma C8_out_of_range_is_silent :
  PyStr.split PyStr.newline (PyStr.strip Sample.goals_text) = ["g1"; "g2"]
  /\ move_goal_to_achievement 3 Sample.goals_text "Ada" Sample.app
     = mk_goal_outcome Sample.goals_text (done Sample.app [])
  /\ ~ Stated.move_goal.
Proof.
  split; [reflexivity|]. split; [reflexivity|].
  intros H.
  destruct (H 3%Z Sample.goals_text "Ada" Sample.app Sample.members Sample.ada []
              eq_refl eq_refl eq_refl) as [Hout _].
  destruct Hout as (title & message & Hin).
  - right. vm_compute. reflexivity.
  - simpl in Hin. exact Hin.
Qed.

Lemma C8_witness :
  (1 <= 1 <= Z.of_nat (length (PyStr.split PyStr.newline
                                 (PyStr.strip Sample.goals_text))))%Z
  /\ team_members Sample.app = VDict Sample.members
  /\ Dict.get "Ada" Sample.members = Some (VDict Sample.ada)
  /\ Dict.get "achievements" Sample.ada = Some (VList [])
  /\ (exists before goal after tm' member',
        ["g1"; "g2"] = before ++ goal :: after
        /\ Z.of_nat (length before) = 0%Z
        /\ goals_text (move_goal_to_achievement 1 Sample.goals_text "Ada" Sample.app)
           = (PyStr.join PyStr.nl (before ++ after) ++ PyStr.nl)%string
        /\ raised (app_outcome (move_goal_to_achievement 1 Sample.goals_text "Ada"
                                  Sample.app)) = None
        /\ self_after (app_outcome (move_goal_to_achievement 1 Sample.goals_text "Ada"
                                      Sample.app))
           = set_team_members (VDict tm') Sample.app
        /\ Dict.get "Ada" tm' = Some (VDict member')
        /\ Dict.get "achievements" member' = Some (VList ([] ++ [VStr goal]))
        /\ (forall other, other <> "Ada" ->
                          Dict.get other tm' = Dict.get other Sample.members)
        /\ In (Write (save_data
                        (self_after (app_outcome
                           (move_goal_to_achievement 1 Sample.goals_text "Ada"
                              Sample.app)))))
              (shown (app_outcome (move_goal_to_achievement 1 Sample.goals_text "Ada"
                                     Sample.app))))
  /\ move_goal_to_achievement 0 Sample.goals_text "Ada" Sample.app
     = mk_goal_outcome Sample.goals_text (done Sample.app []).
Proof.
  assert (H1 : (1 <= 1 <= Z.of_nat (length (PyStr.split PyStr.newline
                                              (PyStr.strip Sample.goals_text))))%Z)
    by (vm_compute; split; discriminate).
  split; [exact H1|]. split; [reflexivity|]. split; [reflexivity|].
  split; [reflexivity|]. split.
  - exact (proj2 (C8_move_goal_to_achievement 1 Sample.goals_text "Ada" Sample.app)
             H1 Sample.members Sample.ada [] eq_refl eq_refl eq_refl).
  - apply (proj1 (C8_move_goal_to_achievement 0 Sample.goals_text "Ada" Sample.app)).
    left. lia.
Defined.

(** The example of the move: the first of the goals "g1", "g2" goes to
    the achievements and the goals text keeps "g2".  The [goals] list
    stored with the member is not touched by the handler. *)
Example move_goal_sample :
  let r := move_goal_to_achievement 1 Sample.goals_text "Ada" Sample.app in
  goals_text r = ("g2" ++ PyStr.nl)%string
  /\ (member <- Py.item (team_members (self_after (app_outcome r))) "Ada" ;;
      Py.item member "achievements") = Ok (VList [VStr "g1"])
  /\ (member <- Py.item (team_members (self_after (app_outcome r))) "Ada" ;;
      Py.item member "goals") = Ok (VList [VStr "g1"; VStr "g2"]).
Proof. repeat split; reflexivity. Qed.

Lemma C9_witness :
  "A" <> EmptyString
  /\ Dict.get "Technical Skills" (categories Sample.app_with_category)
     = Some [("A", ["x"; "y"])]
  /\ NoDup (Dict.keys [("A", ["x"; "y"])])
  /\ Dict.get "A" [("A", ["x"; "y"])] = Some ["x"; "y"]
  /\ raised (delete_category "Technical Skills" "A" true Sample.app_with_category) = None
  /\ team_members (self_after (delete_category "Technical Skills" "A" true
                                 Sample.app_with_category))
     = VDict Sample.members.
Proof.
  assert (H1 : "A" <> EmptyString) by discriminate.
  assert (H3 : NoDup (Dict.keys [("A", ["x"; "y"])])).
  { constructor; [simpl; tauto|constructor]. }
  split; [exact H1|]. split; [reflexivity|]. split; [exact H3|]. split; [reflexivity|].
  destruct (C9_delete_category_keeps_member_skills "Technical Skills" "A"
              Sample.app_with_category [("A", ["x"; "y"])] ["x"; "y"]
              H1 eq_refl H3 eq_refl) as (Hraised & _ & _ & Hmembers).
  split; [exact Hraised|]. rewrite (Hmembers true). reflexivity.
Defined.

(** The example of the import: two rows for one subcategory give its two
    skills in order, in [categories] only; the saved document is the one
    of before. *)
Example upload_skills_csv_sample :
  let o := upload_skills_csv
             [Sample.header; ["Tech"; "Languages"; "Python"];
              ["Tech"; "Languages"; "Go"]] Sample.app in
  Dict.get "Tech" (categories (self_after o)) = Some [("Languages", ["Python"; "Go"])]
  /\ categories (self_after o) <> categories Sample.app
  /\ save_data (self_after o) = save_data Sample.app.
Proof.
  cbv zeta. split; [reflexivity|]. split; [|reflexivity].
  simpl. discriminate.
Qed.

(** ** Further properties of the code *)

Section MoreDict.

Context {V : Type}.

Lemma dict_set_absent (k : string) (v : V) (d : list (string * V)) :
  Dict.get k d = None -> Dict.set k v d = d ++ [(k, v)].
Proof.
  induction d as [|[k' v'] r IH]; simpl; [reflexivity|].
  destruct (String.eqb k' k); [discriminate|].
  intros H. now rewrite IH.
Qed.

Lemma dict_set_same_value (k : string) (v : V) (d : list (string * V)) :
  Dict.get k d = Some v -> Dict.set k v d = d.
Proof.
  induction d as [|[k' v'] r IH]; simpl; [discriminate|].
  destruct (String.eqb k' k) eqn:E.
  - now intros [= ->].
  - intros H. now rewrite IH.
Qed.

Lemma dict_set_set (k : string) (v v' : V) (d : list (string * V)) :
  Dict.set k v (Dict.set k v' d) = Dict.set k v d.
Proof.
  induction d as [|[k0 v0] r IH]; simpl.
  - now rewrite String.eqb_refl.
  - destruct (String.eqb k0 k) eqn:E; simpl; rewrite E; [reflexivity|].
    now rewrite IH.
Qed.

Lemma dict_del_appended (k : string) (v : V) (d : list (string * V)) :
  Dict.get k d = None -> Dict.del k (d ++ [(k, v)]) = Ok d.
Proof.
  induction d as [|[k' v'] r IH]; simpl.
  - now rewrite String.eqb_refl.
  - destruct (String.eqb k' k); [discriminate|].
    intros H. now rewrite IH.
Qed.

Lemma dict_mem_false (k : string) (d : list (string * V)) :
  Dict.mem k d = false -> Dict.get k d = None.
Proof. unfold Dict.mem. now destruct (Dict.get k d). Qed.

End MoreDict.

Section MorePersistence.

Variable str_other : pyval -> string.

Lemma mapM_raises {A B : Type} (f : A -> result B) (l : list A) (x : A) (e : exn) :
  In x l -> f x = Raise e -> exists e', mapM f l = Raise e'.
Proof.
  induction l as [|y t IH]; simpl; [tauto|].
  intros [<-|Hin] Hx.
  - rewrite Hx. simpl. eauto.
  - destruct (f y); simpl; [|eauto].
    destruct (IH Hin Hx) as [e' ->]. simpl. eauto.
Qed.

(** X1: One member that is not a dict makes [load_data] drop the whole
    document: every store is the empty one, although the other members,
    the taxonomy and the meetings of the document were readable. *)
Theorem load_data_drops_all_on_one_bad_member
    (doc members : list (string * pyval)) (name : string) (m : pyval)
    (self : Initial) :
  Dict.get "team_members" doc = Some (VDict members) ->
  In (name, m) members ->
  Py.isinstance_dict m = false ->
  load_data str_other (Parsed (VDict doc)) self = initialize_empty_data self.
Proof.
  intros Hdoc Hin Hm. unfold load_data, load_body, Py.get_default.
  rewrite Hdoc. cbn [bind]. unfold convert_members.
  destruct (mapM_raises
              (fun '(name, member) =>
                 member' <- convert_member str_other member ;; Ok (name, member'))
              members (name, m) AttributeError Hin) as [e' He'].
  - unfold convert_member. simpl for_each. unfold convert_skill_type.
    destruct m; try discriminate; reflexivity.
  - rewrite He'. reflexivity.
Qed.

(** X2: Whatever the data file holds, the state [load_data] builds from it
    survives a save and a load in a new process: the four saved
    attributes come back as they were, with the categories of the new
    process. *)
Theorem load_save_load (f : file) (self self' : Initial) :
  load_data str_other (save_data (load_data str_other f self)) self'
  = set_categories (init_categories self') (load_data str_other f self).
Proof.
  destruct (load_data_flat str_other f self) as (members & Htm & Hflat).
  now apply (save_load_persisted str_other _ self' members).
Qed.

End MorePersistence.

Section MoreTaxonomy.

Lemma set_categories_same (s : App) : set_categories (categories s) s = s.
Proof. now destruct s. Qed.

Lemma add_category_new (skill_type answer : string) (s : App)
    (cats : list (string * list string)) :
  PyStr.truthy answer = true ->
  Dict.get skill_type (categories s) = Some cats ->
  Dict.mem (PyStr.strip answer) cats = false ->
  let s' := set_categories
              (Dict.set skill_type (cats ++ [(PyStr.strip answer, [])]) (categories s))
              s in
  add_category skill_type (Some answer) [] s
  = done s' [Write (save_data s');
             ShowInfo "Success"
               ("Category '" ++ PyStr.strip answer ++ "' added to "
                ++ skill_type ++ ".")%string;
             Write (save_data s')].
Proof.
  intros Ht Hfam Hnew. cbv zeta. unfold add_category. rewrite Ht.
  unfold Dict.item at 1. rewrite Hfam, Hnew.
  rewrite (dict_set_absent _ _ _ (dict_mem_false _ _ Hnew)).
  unfold add_subskills_to_category. cbn [add_subskills_loop].
  unfold refresh_categories, Dict.item. cbn [categories set_categories].
  rewrite dict_get_set_same. cbn [bind].
  reflexivity.
Qed.

(** X4: A category that is not yet in its family is added once, at the end
    of the family, with no subskills; the same answer given again is
    turned down as a duplicate and changes nothing, whatever is answered
    to the subskill prompts. *)
Theorem add_category_once
    (skill_type answer : string) (answers : list (option string)) (s : App)
    (cats : list (string * list string)) :
  PyStr.truthy answer = true ->
  Dict.get skill_type (categories s) = Some cats ->
  Dict.mem (PyStr.strip answer) cats = false ->
  let s' := self_after (add_category skill_type (Some answer) [] s) in
  Dict.get skill_type (categories s') = Some (cats ++ [(PyStr.strip answer, [])])
  /\ add_category skill_type (Some answer) answers s'
     = done s' [ShowError "Error"
                  ("Category '" ++ PyStr.strip answer ++ "' already exists in "
                   ++ skill_type ++ ".")%string].
Proof.
  intros Ht Hfam Hnew. cbv zeta.
  rewrite (add_category_new _ _ _ _ Ht Hfam Hnew). cbn [self_after done].
  cbn [categories set_categories]. split; [apply dict_get_set_same|].
  unfold add_category. rewrite Ht. unfold Dict.item.
  cbn [categories set_categories]. rewrite dict_get_set_same.
  assert (Hmem : Dict.mem (PyStr.strip answer) (cats ++ [(PyStr.strip answer, [])])
                 = true).
  { rewrite <- (dict_set_absent _ _ _ (dict_mem_false _ _ Hnew)).
    unfold Dict.mem. now rewrite dict_get_set_same. }
  now rewrite Hmem.
Qed.

(** X5: Deleting a category right after it was added gives back the
    application as it was before the two steps. *)
Theorem add_then_delete_category
    (skill_type answer : string) (s : App) (cats : list (string * list string)) :
  PyStr.strip answer <> EmptyString ->
  Dict.get skill_type (categories s) = Some cats ->
  Dict.mem (PyStr.strip answer) cats = false ->
  self_after
    (delete_category skill_type (PyStr.strip answer) true
       (self_after (add_category skill_type (Some answer) [] s)))
  = s.
Proof.
  intros Hne Hfam Hnew.
  assert (Ht : PyStr.truthy answer = true).
  { destruct answer; [now elim Hne|reflexivity]. }
  rewrite (add_category_new _ _ _ _ Ht Hfam Hnew). cbn [self_after done].
  unfold delete_category. rewrite (truthy_nonempty _ Hne). cbn [negb].
  unfold Dict.item. cbn [categories set_categories].
  rewrite dict_get_set_same. cbn [bind].
  rewrite (dict_del_appended _ _ _ (dict_mem_false _ _ Hnew)). cbn [bind].
  cbn [self_after done]. rewrite dict_set_set.
  rewrite (dict_set_same_value _ _ _ Hfam).
  destruct s; reflexivity.
Qed.

(** X6: Nothing is deleted, and nothing is written, unless the deletion is
    confirmed for a category that is in the family: an empty selection is
    reported, a category or family that is missing raises [KeyError]. *)
Theorem delete_category_only_when_present
    (skill_type category : string) (confirm : bool) (s : App) :
  (confirm = false
   \/ category = EmptyString
   \/ Dict.get skill_type (categories s) = None
   \/ (exists cats, Dict.get skill_type (categories s) = Some cats
                    /\ Dict.get category cats = None)) ->
  let o := delete_category skill_type category confirm s in
  self_after o = s
  /\ (forall f, ~ In (Write f) (shown o))
  /\ (confirm = true -> category <> EmptyString -> raised o = Some KeyError).
Proof.
  intros H. cbv zeta. unfold delete_category.
  destruct category as [|c r]; simpl PyStr.truthy; cbn [negb].
  { repeat split; try congruence. intros f [Hf|[]]. discriminate Hf. }
  destruct confirm.
  2:{ repeat split; try congruence. intros f []. }
  assert (Hraise : (cats <- Dict.item skill_type (categories s) ;;
                    cats' <- Dict.del (String c r) cats ;;
                    Ok (Dict.set skill_type cats' (categories s)))
                   = Raise KeyError).
  { destruct H as [H|[H|[H|(cats & Hf & Hc)]]]; try discriminate.
    - unfold Dict.item. now rewrite H.
    - unfold Dict.item. rewrite Hf. cbn [bind].
      assert (Hdel : Dict.del (String c r) cats = Raise KeyError).
      { clear Hf. induction cats as [|[k v] t IH]; [reflexivity|].
        simpl in *. destruct (String.eqb k (String c r)); [discriminate|].
        now rewrite (IH Hc). }
      now rewrite Hdel. }
  rewrite Hraise. repeat split. intros f [].
Qed.

End MoreTaxonomy.

Section MoreBulkAdd.

Lemma strip_idem (x : string) : PyStr.strip (PyStr.strip x) = PyStr.strip x.
Proof.
  unfold PyStr.strip at 2. now rewrite strip_rstrip, strip_lstrip.
Qed.

Lemma has_char_lstrip (c : ascii) (s : string) :
  has_char c (PyStr.lstrip s) = true -> has_char c s = true.
Proof.
  induction s as [|a r IH]; simpl; [auto|].
  destruct (PyStr.is_space a); [|auto].
  intros H. rewrite (IH H). apply orb_true_r.
Qed.

Lemma has_char_rstrip (c : ascii) (s : string) :
  has_char c (PyStr.rstrip s) = true -> has_char c s = true.
Proof.
  induction s as [|a r IH]; [auto|].
  destruct (PyStr.is_space a) eqn:E.
  - rewrite (rstrip_space a r E).
    destruct (PyStr.rstrip r) as [|a' r'] eqn:Hr; [discriminate|].
    simpl in *. intros H. apply orb_true_iff in H. apply orb_true_iff.
    destruct H as [H|H]; [now left|right; now apply IH].
  - rewrite (rstrip_nonspace a r E). simpl.
    intros H. apply orb_true_iff in H. apply orb_true_iff.
    destruct H as [H|H]; [now left|right; now apply IH].
Qed.

Lemma has_char_strip (c : ascii) (s : string) :
  has_char c s = false -> has_char c (PyStr.strip s) = false.
Proof.
  intros H. destruct (has_char c (PyStr.strip s)) eqn:E; [|reflexivity].
  unfold PyStr.strip in E. apply has_char_rstrip, has_char_lstrip in E. congruence.
Qed.

Lemma split_parts_without_sep (sep : ascii) (s : string) :
  Forall (fun p => has_char sep p = false) (PyStr.split sep s).
Proof.
  induction s as [|a r IH]; simpl.
  - repeat constructor.
  - destruct (Ascii.eqb a sep) eqn:E.
    + constructor; [reflexivity|assumption].
    + destruct (PyStr.split sep r) as [|h t].
      * constructor; [simpl; now rewrite E|constructor].
      * inversion IH; subst. constructor; [simpl; now rewrite E|assumption].
Qed.

(** X7: The items [update_team_member] and [add_multiple_subskills] read
    from a separated text are clean: none is empty, none has blanks at
    its ends, none holds the separator; the comprehension of
    [add_multiple_subskills] is the one for commas. *)
Theorem stripped_items_are_clean (sep : ascii) (text item : string) :
  In item (stripped_items sep text) ->
  item <> EmptyString
  /\ PyStr.strip item = item
  /\ has_char sep item = false
  /\ parse_subskills text = stripped_items ","%char text.
Proof.
  unfold stripped_items. intros H.
  apply in_map_iff in H. destruct H as (x & <- & Hx).
  apply filter_In in Hx. destruct Hx as [Hin Ht].
  split; [|split; [|split]].
  - intros E. rewrite E in Ht. discriminate.
  - apply strip_idem.
  - apply has_char_strip.
    pose proof (split_parts_without_sep sep text) as Hall.
    rewrite Forall_forall in Hall. now apply Hall.
  - reflexivity.
Qed.

Lemma nodup_snoc {A : Type} (l : list A) (x : A) :
  NoDup l -> ~ In x l -> NoDup (l ++ [x]).
Proof.
  intros Hl Hx. induction l as [|a t IH]; simpl.
  - repeat constructor. tauto.
  - inversion Hl; subst. constructor.
    + rewrite in_app_iff. simpl. intros [H|[H|[]]]; [tauto|].
      subst. apply Hx. now left.
    + apply IH; [assumption|]. intros H. apply Hx. now right.
Qed.

Lemma nodup_added_from (cur : list pyval) (toks : list string) :
  NoDup cur -> NoDup (cur ++ map VStr (added_from cur toks)).
Proof.
  revert cur. induction toks as [|t r IH]; intros cur Hcur; simpl.
  - now rewrite app_nil_r.
  - destruct (existsb (Py.is_str t) cur) eqn:E.
    + now apply IH.
    + simpl. change (cur ++ VStr t :: map VStr (added_from (cur ++ [VStr t]) r))
        with (cur ++ [VStr t] ++ map VStr (added_from (cur ++ [VStr t]) r)).
      rewrite app_assoc. apply IH. apply nodup_snoc; [assumption|].
      now apply existsb_is_str_false.
Qed.

Lemma parse_subskills_blank : parse_subskills EmptyString = [].
Proof. reflexivity. Qed.

(** X8: The bulk add keeps a category free of duplicates: if the subskills
    of the category were pairwise different before the call, they are
    after it, whatever the entry holds and however the call ends. *)
Theorem add_multiple_subskills_keeps_distinct
    (skill_type category entry : string) (s : App)
    (by_type by_category : list (string * pyval)) (existing : list pyval) :
  subskills_data s = VDict by_type ->
  Dict.get skill_type by_type = Some (VDict by_category) ->
  Dict.get category by_category = Some (VList existing) ->
  NoDup existing ->
  exists subskills,
    subskills_of skill_type category
      (self_after (add_multiple_subskills skill_type category entry s))
    = Ok (VList subskills)
    /\ NoDup subskills.
Proof.
  intros Hs Hbt Hbc Hnd.
  assert (Hsame : subskills_of skill_type category s = Ok (VList existing)).
  { unfold subskills_of. rewrite Hs, (py_item_dict _ _ _ Hbt). cbn [bind].
    now apply py_item_dict. }
  unfold add_multiple_subskills.
  destruct (negb (PyStr.truthy category)); [exists existing; auto|].
  destruct (negb (PyStr.truthy (PyStr.strip entry))); [exists existing; auto|].
  destruct (add_one_subskill_loop skill_type category
              (parse_subskills (PyStr.strip entry))
              s by_type by_category existing [] [] Hs Hbt Hbc)
    as (bt' & bc' & Hloop & H1 & H2 & _ & _).
  rewrite Hloop. cbn [app].
  set (added := added_from existing (parse_subskills (PyStr.strip entry))) in *.
  exists (existing ++ map VStr added).
  split; [|now apply nodup_added_from].
  assert (Hafter : subskills_of skill_type category
                     (set_subskills_data (VDict bt') s)
                   = Ok (VList (existing ++ map VStr added))).
  { unfold subskills_of. cbn [subskills_data set_subskills_data].
    rewrite (py_item_dict _ _ _ H1). cbn [bind]. now apply py_item_dict. }
  destruct added as [|a r].
  - exact Hafter.
  - destruct (refresh_categories skill_type (set_subskills_data (VDict bt') s));
      exact Hafter.
Qed.

Lemma present_after_added (cur : list pyval) (toks : list string) (t : string) :
  In t toks \/ existsb (Py.is_str t) cur = true ->
  existsb (Py.is_str t) (cur ++ map VStr (added_from cur toks)) = true.
Proof.
  revert cur. induction toks as [|t0 r IH]; intros cur H; simpl.
  - rewrite app_nil_r. destruct H as [[]|H]. exact H.
  - destruct (existsb (Py.is_str t0) cur) eqn:E.
    + apply IH. destruct H as [[<-|H]|H]; auto.
    + simpl. change (cur ++ VStr t0 :: map VStr (added_from (cur ++ [VStr t0]) r))
        with (cur ++ [VStr t0] ++ map VStr (added_from (cur ++ [VStr t0]) r)).
      rewrite app_assoc. apply IH.
      rewrite existsb_is_str_app.
      destruct H as [[<-|H]|H]; auto.
      * right. rewrite String.eqb_refl. apply orb_true_r.
      * right. now rewrite H.
Qed.

Lemma add_one_subskill_all_present (skill_type category : string)
    (toks : list string) (s : App) (by_type by_category : list (string * pyval))
    (cur : list pyval) (added : list string) (evs : list event) :
  subskills_data s = VDict by_type ->
  Dict.get skill_type by_type = Some (VDict by_category) ->
  Dict.get category by_category = Some (VList cur) ->
  (forall t, In t toks -> existsb (Py.is_str t) cur = true) ->
  for_each_keep toks (add_one_subskill skill_type category) (s, added, evs)
  = ((s, added, evs ++ map duplicate_warning toks), None).
Proof.
  intros Hs Hbt Hbc. revert evs.
  induction toks as [|t r IH]; intros evs Hall; simpl.
  - now rewrite app_nil_r.
  - unfold add_one_subskill at 1. unfold subskills_of.
    rewrite Hs, (py_item_dict _ _ _ Hbt). cbn [bind].
    rewrite (py_item_dict _ _ _ Hbc). cbn [bind Py.contains].
    rewrite (Hall t (or_introl eq_refl)). cbn [negb].
    fold (duplicate_warning t).
    rewrite IH by (intros t' Ht'; apply Hall; now right).
    now rewrite <- app_assoc.
Qed.

(** X9: Entering the same subskills a second time adds nothing: the second
    run leaves the application as the first run left it, writes nothing,
    warns about every token and reports "No Changes". *)
Theorem add_multiple_subskills_again
    (skill_type category entry : string) (s : App)
    (by_type by_category : list (string * pyval)) (existing : list pyval) :
  category <> EmptyString ->
  PyStr.strip entry <> EmptyString ->
  subskills_data s = VDict by_type ->
  Dict.get skill_type by_type = Some (VDict by_category) ->
  Dict.get category by_category = Some (VList existing) ->
  let s1 := self_after (add_multiple_subskills skill_type category entry s) in
  add_multiple_subskills skill_type category entry s1
  = done s1 (map duplicate_warning (Spec.tokens entry)
             ++ [ShowInfo "No Changes" "No new subskills were added."]).
Proof.
  intros Hcat Hentry Hs Hbt Hbc. cbv zeta.
  assert (Hfirst : exists bt' bc',
             self_after (add_multiple_subskills skill_type category entry s)
             = set_subskills_data (VDict bt') s
             /\ Dict.get skill_type bt' = Some (VDict bc')
             /\ Dict.get category bc'
                = Some (VList (existing
                               ++ map VStr (added_from existing (Spec.tokens entry))))).
  { unfold add_multiple_subskills.
    rewrite (truthy_nonempty _ Hcat), (truthy_nonempty _ Hentry). cbn [negb].
    rewrite parse_subskills_tokens.
    destruct (add_one_subskill_loop skill_type category (Spec.tokens entry)
                s by_type by_category existing [] [] Hs Hbt Hbc)
      as (bt' & bc' & Hloop & H1 & H2 & _ & _).
    rewrite Hloop. cbn [app]. exists bt', bc'.
    split; [|auto].
    destruct (added_from existing (Spec.tokens entry)); [reflexivity|].
    destruct (refresh_categories skill_type (set_subskills_data (VDict bt') s));
      reflexivity. }
  destruct Hfirst as (bt' & bc' & Hs1 & H1 & H2). rewrite Hs1.
  unfold add_multiple_subskills.
  rewrite (truthy_nonempty _ Hcat), (truthy_nonempty _ Hentry). cbn [negb].
  rewrite parse_subskills_tokens.
  rewrite (add_one_subskill_all_present skill_type category (Spec.tokens entry)
             (set_subskills_data (VDict bt') s) bt' bc' _ [] [] eq_refl H1 H2).
  - reflexivity.
  - intros t Ht. apply present_after_added. now left.
Qed.

(** X10: A category made with [add_category] cannot take subskills from the
    bulk add: [add_category] writes to [categories], the bulk add looks
    the category up in [subskills_data], so for a category the document
    did not have the first token raises [KeyError] and nothing is added. *)
Theorem bulk_add_after_add_category
    (skill_type answer entry : string) (s : App)
    (cats : list (string * list string))
    (by_type by_category : list (string * pyval)) :
  PyStr.strip answer <> EmptyString ->
  Dict.get skill_type (categories s) = Some cats ->
  Dict.mem (PyStr.strip answer) cats = false ->
  subskills_data s = VDict by_type ->
  Dict.get skill_type by_type = Some (VDict by_category) ->
  Dict.get (PyStr.strip answer) by_category = None ->
  Spec.tokens entry <> [] ->
  let s1 := self_after (add_category skill_type (Some answer) [] s) in
  Dict.mem (PyStr.strip answer)
    (match Dict.get skill_type (categories s1) with Some c => c | None => [] end)
  = true
  /\ add_multiple_subskills skill_type (PyStr.strip answer) entry s1
     = propagate s1 [] KeyError.
Proof.
  intros Hne Hfam Hnew Hs Hbt Hbc Htok. cbv zeta.
  assert (Ht : PyStr.truthy answer = true).
  { destruct answer; [now elim Hne|reflexivity]. }
  rewrite (add_category_new _ _ _ _ Ht Hfam Hnew). cbn [self_after done].
  split.
  - cbn [categories set_categories]. rewrite dict_get_set_same.
    rewrite <- (dict_set_absent _ _ _ (dict_mem_false _ _ Hnew)).
    unfold Dict.mem. now rewrite dict_get_set_same.
  - unfold add_multiple_subskills. rewrite (truthy_nonempty _ Hne). cbn [negb].
    assert (Hentry : PyStr.strip entry <> EmptyString).
    { intros E. apply Htok. rewrite <- parse_subskills_tokens, E. reflexivity. }
    rewrite (truthy_nonempty _ Hentry). cbn [negb].
    rewrite parse_subskills_tokens.
    destruct (Spec.tokens entry) as [|t r]; [congruence|].
    cbn [for_each_keep]. unfold add_one_subskill at 1. unfold subskills_of.
    cbn [subskills_data set_categories]. rewrite Hs, (py_item_dict _ _ _ Hbt).
    cbn [bind]. unfold Py.item, Dict.item. rewrite Hbc. reflexivity.
Qed.

End MoreBulkAdd.

Section MoreImport.

Lemma existsb_eqb_in (x : string) (l : list string) :
  existsb (String.eqb x) l = true <-> In x l.
Proof.
  rewrite existsb_exists. split.
  - intros (y & Hin & Hy). apply String.eqb_eq in Hy. now subst.
  - intros H. exists x. split; [assumption|apply String.eqb_refl].
Qed.

Lemma add_skill_row_fixed (category subcategory skill : string) (c : taxonomy) :
  has_skill category subcategory skill c ->
  add_skill_row category subcategory skill c = c.
Proof.
  intros (subs & skills & Hc & Hs & Hin). unfold add_skill_row. cbv zeta.
  unfold Dict.mem. repeat (rewrite ?Hc, ?Hs; cbn iota).
  rewrite (proj2 (existsb_eqb_in skill skills) Hin).
  rewrite (dict_set_same_value _ _ _ Hs). now apply dict_set_same_value.
Qed.

Lemma add_skill_row_has (category subcategory skill : string) (c : taxonomy) :
  has_skill category subcategory skill (add_skill_row category subcategory skill c).
Proof.
  unfold add_skill_row, has_skill.
  set (c1 := if Dict.mem category c then c else Dict.set category [] c).
  set (subs := match Dict.get category c1 with Some d => d | None => [] end).
  set (subs1 := if Dict.mem subcategory subs then subs
                else Dict.set subcategory [] subs).
  set (skills := match Dict.get subcategory subs1 with Some l => l | None => [] end).
  set (skills1 := if existsb (String.eqb skill) skills then skills
                  else skills ++ [skill]).
  exists (Dict.set subcategory skills1 subs1), skills1.
  rewrite !dict_get_set_same. repeat split.
  subst skills1. destruct (existsb (String.eqb skill) skills) eqn:E.
  - now apply existsb_eqb_in.
  - apply in_or_app. right. now left.
Qed.

Lemma add_skill_row_keeps (category subcategory skill a b x : string) (c : taxonomy) :
  has_skill a b x c ->
  has_skill a b x (add_skill_row category subcategory skill c).
Proof.
  intros (subs0 & skills0 & Hc & Hs & Hin). unfold add_skill_row, has_skill.
  cbv zeta.
  destruct (String.eqb_spec a category) as [->|Hac].
  - replace (Dict.mem category c) with true by (unfold Dict.mem; now rewrite Hc).
    cbn iota. rewrite !Hc. rewrite dict_get_set_same.
    destruct (String.eqb_spec b subcategory) as [->|Hbs].
    + replace (Dict.mem subcategory subs0) with true
        by (unfold Dict.mem; now rewrite Hs).
      cbn iota. rewrite !Hs.
      eexists. eexists. split; [reflexivity|]. rewrite dict_get_set_same.
      split; [reflexivity|].
      destruct (existsb (String.eqb skill) skills0); [assumption|].
      apply in_or_app. now left.
    + eexists. exists skills0. split; [reflexivity|].
      rewrite dict_get_set_other by assumption.
      split; [|assumption].
      destruct (Dict.mem subcategory subs0); [assumption|].
      now rewrite dict_get_set_other.
  - exists subs0, skills0. rewrite dict_get_set_other by assumption.
    split; [|auto].
    destruct (Dict.mem category c); [assumption|].
    now rewrite dict_get_set_other.
Qed.

Lemma import_row_fields (row : list string) (c : taxonomy) :
  import_row row c
  = match row_fields row with
    | Some (category, subcategory, skill) =>
        Ok (add_skill_row category subcategory skill c)
    | None => Raise (InvalidRowFormat (resolve_row row))
    end.
Proof.
  unfold import_row, row_fields.
  destruct (map PyStr.strip (resolve_row row)) as [|a [|b [|d [|e r]]]]; reflexivity.
Qed.

Lemma import_keeps (rows : list (list string)) (c : taxonomy) (a b x : string) :
  has_skill a b x c ->
  has_skill a b x (fst (for_each_keep rows import_row c)).
Proof.
  revert c. induction rows as [|row r IH]; intros c H; simpl; [assumption|].
  rewrite import_row_fields.
  destruct (row_fields row) as [[[category subcategory] skill]|]; simpl.
  - apply IH. now apply add_skill_row_keeps.
  - assumption.
Qed.

Lemma import_adds (rows : list (list string)) (c : taxonomy) :
  forallb Spec.three_fields rows = true ->
  snd (for_each_keep rows import_row c) = None
  /\ forall row a b x,
       In row rows -> row_fields row = Some (a, b, x) ->
       has_skill a b x (fst (for_each_keep rows import_row c)).
Proof.
  revert c. induction rows as [|row r IH]; intros c H; simpl.
  - split; [reflexivity|]. intros ? ? ? ? [].
  - simpl in H. apply andb_true_iff in H. destruct H as [Hrow Hr].
    rewrite import_row_fields.
    destruct (row_fields row) as [[[category subcategory] skill]|] eqn:E.
    + destruct (IH (add_skill_row category subcategory skill c) Hr) as [Hnone Hall].
      split; [assumption|].
      intros row' a b x [<-|Hin] Hf.
      * rewrite E in Hf. inversion Hf; subst.
        apply import_keeps. apply add_skill_row_has.
      * now apply (Hall row').
    + exfalso. unfold row_fields in E. unfold Spec.three_fields in Hrow.
      apply Nat.eqb_eq in Hrow.
      destruct (resolve_row row) as [|a [|b [|d [|e t]]]]; simpl in *; discriminate.
Qed.

Lemma import_again (rows : list (list string)) (c : taxonomy) :
  (forall row, In row rows ->
     exists a b x, row_fields row = Some (a, b, x) /\ has_skill a b x c) ->
  for_each_keep rows import_row c = (c, None).
Proof.
  induction rows as [|row r IH]; intros H; simpl; [reflexivity|].
  destruct (H row (or_introl eq_refl)) as (a & b & x & Hf & Hhas).
  rewrite import_row_fields, Hf, (add_skill_row_fixed _ _ _ _ Hhas).
  apply IH. intros row' Hin. apply H. now right.
Qed.

Lemma upload_categories (header : list string) (data : list (list string)) (s : App) :
  self_after (upload_skills_csv (header :: data) s)
  = set_categories (fst (for_each_keep data import_row (categories s))) s.
Proof.
  unfold upload_skills_csv.
  destruct (for_each_keep data import_row (categories s)) as [c [e|]]; simpl;
    [reflexivity|].
  destruct (refresh_categories "Technical Skills" (set_categories c s)); reflexivity.
Qed.

(** X11: An import only adds: a skill listed before the import is listed
    after it, whether the import ends well or at a malformed row; and
    when every data row has three fields, every row's skill is listed
    under its subcategory and category afterwards. *)
Theorem upload_skills_csv_adds
    (header : list string) (data : list (list string)) (s : App) :
  let c' := categories (self_after (upload_skills_csv (header :: data) s)) in
  (forall a b x, has_skill a b x (categories s) -> has_skill a b x c')
  /\ (forallb Spec.three_fields data = true ->
      forall row a b x,
        In row data -> row_fields row = Some (a, b, x) -> has_skill a b x c').
Proof.
  cbv zeta. rewrite upload_categories. cbn [categories set_categories]. split.
  - intros a b x. apply import_keeps.
  - intros H. apply (import_adds data (categories s) H).
Qed.

(** X12: Importing the same rows again changes nothing: after an import of
    rows of three fields, a second import of these rows (under any
    header) leaves the application as the first one left it. *)
Theorem upload_skills_csv_again
    (header header' : list string) (data : list (list string)) (s : App) :
  forallb Spec.three_fields data = true ->
  let s1 := self_after (upload_skills_csv (header :: data) s) in
  self_after (upload_skills_csv (header' :: data) s1) = s1.
Proof.
  intros H. cbv zeta. rewrite (upload_categories header' data).
  rewrite import_again.
  - apply set_categories_same.
  - intros row Hin. rewrite upload_categories. cbn [categories set_categories].
    destruct (row_fields row) as [[[a b] x]|] eqn:E.
    + exists a, b, x. split; [reflexivity|].
      now apply (proj2 (import_adds data (categories s) H) row).
    + exfalso. rewrite forallb_forall in H. specialize (H row Hin).
      unfold row_fields in E. unfold Spec.three_fields in H.
      apply Nat.eqb_eq in H.
      destruct (resolve_row row) as [|a [|b [|d [|e t]]]]; simpl in *; discriminate.
Qed.

End MoreImport.

Section MoreMembers.

Lemma set_team_members_same (s : App) : set_team_members (team_members s) s = s.
Proof. now destruct s. Qed.

Lemma set_team_members_twice (v w : pyval) (s : App) :
  set_team_members v (set_team_members w s) = set_team_members v s.
Proof. reflexivity. Qed.

Lemma remove_first_appended (x : string) (l : list pyval) :
  ~ In (VStr x) l -> PyMore.remove_first x (l ++ [VStr x]) = Some l.
Proof.
  induction l as [|v t IH]; intros H; simpl.
  - now rewrite String.eqb_refl.
  - destruct (Py.is_str x v) eqn:E.
    + exfalso. apply H. left. destruct v; simpl in E; try discriminate.
      apply String.eqb_eq in E. now subst.
    + rewrite IH; [reflexivity|]. intros Hin. apply H. now right.
Qed.

Lemma add_team_member_new (name job_title join_date birthday : string) (s : App)
    (tm : list (string * pyval)) :
  team_members s = VDict tm ->
  Dict.get name tm = None ->
  add_team_member (Some (name, job_title, join_date, birthday)) s
  = let s1 := set_team_members
                (VDict (tm ++ [(name, new_member job_title join_date birthday)])) s in
    done s1 [Write (save_data s1);
             ShowInfo "Success" (name ++ " has been added to the team.")%string].
Proof.
  intros Htm Hnew. unfold add_team_member. rewrite Htm. cbn [Py.contains].
  unfold Dict.mem. rewrite Hnew. cbn [PyMore.setitem].
  now rewrite (dict_set_absent _ _ _ Hnew).
Qed.

Lemma store_member_field_dict (member_name key : string) (v : pyval) (s : App)
    (tm member : list (string * pyval)) :
  team_members s = VDict tm ->
  Dict.get member_name tm = Some (VDict member) ->
  store_member_field member_name key v s
  = Ok (set_team_members
          (VDict (Dict.set member_name (VDict (Dict.set key v member)) tm)) s).
Proof. intros Htm Hm. unfold store_member_field. now rewrite Htm, Hm. Qed.

(** X13: Removing the skill that was just added undoes the addition: for a
    member whose list of the family does not hold the skill yet,
    [add_skill_to_member] followed by [remove_skill_from_member] on
    that skill, confirmed, gives the application as it was, and neither
    step raises. *)
Theorem add_then_remove_skill
    (member_name skill_type skill : string) (args : list string) (s : App)
    (tm member : list (string * pyval)) (skill_list : list pyval) :
  member_name <> EmptyString ->
  skill_of_args skill_type args = Ok (Some skill) ->
  team_members s = VDict tm ->
  Dict.get member_name tm = Some (VDict member) ->
  Dict.get (skill_key skill_type) member = Some (VList skill_list) ->
  ~ In (VStr skill) skill_list ->
  let added := add_skill_to_member member_name skill_type args s in
  let removed := remove_skill_from_member skill_type (Some skill) member_name true
                   (self_after added) in
  raised added = None /\ raised removed = None /\ self_after removed = s.
Proof.
  intros Hname Hargs Htm Hmember Hlist Hnew. cbv zeta.
  unfold add_skill_to_member.
  rewrite (truthy_nonempty _ Hname). cbn [negb].
  rewrite Htm, (py_item_dict _ _ _ Hmember). cbn [bind].
  rewrite (py_item_dict _ _ _ Hlist). cbn [bind]. rewrite Hargs. cbn [bind].
  cbn [Py.contains]. rewrite (proj2 (existsb_is_str_false _ _) Hnew).
  cbn [Py.append bind].
  rewrite (store_member_field_dict _ _ _ _ _ _ Htm Hmember).
  cbn [done self_after raised].
  split; [reflexivity|].
  unfold remove_skill_from_member.
  set (member' := Dict.set (skill_key skill_type)
                    (VList (skill_list ++ [VStr skill])) member).
  set (tm' := Dict.set member_name (VDict member') tm).
  assert (Htm' : team_members (set_team_members (VDict tm') s) = VDict tm')
    by reflexivity.
  assert (Hmember' : Dict.get member_name tm' = Some (VDict member'))
    by apply dict_get_set_same.
  rewrite Htm', (py_item_dict _ _ _ Hmember'). cbn [bind].
  assert (Hlist' : Dict.get (skill_key skill_type) member'
                   = Some (VList (skill_list ++ [VStr skill])))
    by apply dict_get_set_same.
  rewrite (py_item_dict _ _ _ Hlist').
  cbn [bind PyMore.remove]. rewrite (remove_first_appended _ _ Hnew).
  cbn [bind].
  rewrite (store_member_field_dict _ _ _ _ _ _ Htm' Hmember').
  cbn [done self_after raised]. split; [reflexivity|].
  subst tm' member'. rewrite !dict_set_set.
  rewrite (dict_set_same_value _ _ _ Hlist), (dict_set_same_value _ _ _ Hmember).
  rewrite set_team_members_twice, <- Htm. apply set_team_members_same.
Qed.

(** X14: A goal clicked while no member with an achievements list is selected
    is lost: for a line number in range, when the selected name is not a
    member, or the member has no "achievements" entry, the line is
    removed from the goals text, nothing is added to any member, nothing
    is saved, and the only thing shown is the error dialog. *)
Theorem move_goal_without_achievements_loses_goal
    (line_num : Z) (text member_name : string) (s : App)
    (tm : list (string * pyval)) :
  let goals := PyStr.split PyStr.newline (PyStr.strip text) in
  (1 <= line_num <= Z.of_nat (length goals))%Z ->
  team_members s = VDict tm ->
  (Dict.get member_name tm = None
   \/ exists member, Dict.get member_name tm = Some (VDict member)
                     /\ Dict.get "achievements" member = None) ->
  exists before goal after,
    goals = before ++ goal :: after
    /\ Z.of_nat (length before) = (line_num - 1)%Z
    /\ move_goal_to_achievement line_num text member_name s
       = mk_goal_outcome (PyStr.join PyStr.nl (before ++ after) ++ PyStr.nl)%string
           (done s [ShowError "Error"
                      "Failed to move goal to achievement. Please try again."]).
Proof.
  cbv zeta. intros [H1 H2] Htm Hmember. unfold move_goal_to_achievement.
  set (goals := PyStr.split PyStr.newline (PyStr.strip text)) in *.
  assert (E : ((1 <=? line_num)%Z && (line_num <=? Z.of_nat (length goals))%Z) = true).
  { apply andb_true_iff. split; now apply Z.leb_le. }
  rewrite E.
  destruct (remove_at_split (Z.to_nat (line_num - 1)) goals ltac:(lia))
    as (before & goal & after & Hgoals & Hlen & Hnth & Hrm).
  exists before, goal, after. split; [assumption|]. split; [lia|].
  rewrite Hrm, Htm. unfold Py.get_default.
  destruct Hmember as [Hnone|(member & Hsome & Hach)].
  - rewrite Hnone. reflexivity.
  - rewrite Hsome. cbn [bind]. unfold Py.item, Dict.item. rewrite Hach. reflexivity.
Qed.

Lemma split_empty (sep : ascii) : PyStr.split sep EmptyString = [EmptyString].
Proof. reflexivity. Qed.

(** X15: A click in a goals text that holds only white space records an empty
    achievement: the text counts as one empty goal, so line 1 is in
    range, the empty string is appended to the member's achievements,
    and the change is saved. *)
Theorem move_goal_blank_text_records_empty
    (text member_name : string) (s : App)
    (tm member : list (string * pyval)) (achievements : list pyval) :
  PyStr.strip text = EmptyString ->
  team_members s = VDict tm ->
  Dict.get member_name tm = Some (VDict member) ->
  Dict.get "achievements" member = Some (VList achievements) ->
  let s' := set_team_members
              (VDict (Dict.set member_name
                        (VDict (Dict.set "achievements"
                                  (VList (achievements ++ [VStr EmptyString]))
                                  member)) tm)) s in
  move_goal_to_achievement 1 text member_name s
  = mk_goal_outcome PyStr.nl
      (done s' [Write (save_data s');
                ShowInfo "Goal Achieved"
                  "The goal '' has been moved to achievements!"]).
Proof.
  intros Hblank Htm Hmember Hach. cbv zeta. unfold move_goal_to_achievement.
  rewrite Hblank, split_empty. cbn [length Z.of_nat Z.leb Z.compare andb].
  cbn [Z.sub Z.add Z.opp Z.pos_sub Z.to_nat nth remove_at firstn skipn app PyStr.join].
  rewrite Htm. unfold Py.get_default. rewrite Hmember. cbn [bind].
  rewrite (py_item_dict _ _ _ Hach). cbn [bind Py.append].
  rewrite (store_member_field_dict _ _ _ _ _ _ Htm Hmember).
  reflexivity.
Qed.

End MoreMembers.

Section MoreDates.

Lemma first_match_some {A B : Type} (rest : A -> option B) (l : list A) (y : B) :
  Strptime.first_match rest l = Some y -> exists x, In x l /\ rest x = Some y.
Proof.
  induction l as [|x t IH]; simpl; [discriminate|].
  destruct (rest x) as [y'|] eqn:E.
  - intros [= ->]. exists x. auto.
  - intros H. destruct (IH H) as (x' & Hin & Hx'). exists x'. auto.
Qed.

Lemma digit_between_range (lo hi : nat) (c : ascii) (x : Z) :
  hi <= 9 -> Strptime.digit_between lo hi c = Some x ->
  48 <= nat_of_ascii c <= 57.
Proof.
  unfold Strptime.digit_between. intros Hhi.
  destruct ((48 + lo <=? nat_of_ascii c) && (nat_of_ascii c <=? 48 + hi))%nat eqn:E;
    [|discriminate].
  intros _. apply andb_true_iff in E. destruct E as [E1 E2].
  apply Nat.leb_le in E1. apply Nat.leb_le in E2. lia.
Qed.

Lemma two_in (first second : ascii -> option Z) (s r : string) (n : Z) :
  In (n, r) (Strptime.two first second s) ->
  exists a b x y, s = String a (String b r)
                  /\ first a = Some x /\ second b = Some y.
Proof.
  unfold Strptime.two. destruct s as [|a [|b t]]; try (intros []).
  destruct (first a) as [x|] eqn:Ea; [|intros []].
  destruct (second b) as [y|] eqn:Eb; [|intros []].
  intros [[= _ <-]|[]]. exists a, b, x, y. auto.
Qed.

Lemma one_in (only : ascii -> option Z) (s r : string) (n : Z) :
  In (n, r) (Strptime.one only s) -> exists a, s = String a r /\ only a = Some n.
Proof.
  unfold Strptime.one. destruct s as [|a t]; [intros []|].
  destruct (only a) as [x|] eqn:Ea; [|intros []].
  intros [[= <- <-]|[]]. exists a. auto.
Qed.

(** What the day of the pattern takes from the text: one character, or
    two of which the second is a digit. *)
Lemma day_in (s r : string) (d : Z) :
  In (d, r) (Strptime.day s) ->
  (exists a, s = String a r)
  \/ (exists a b, s = String a (String b r) /\ 48 <= nat_of_ascii b <= 57).
Proof.
  unfold Strptime.day. rewrite !in_app_iff.
  intros [H|[H|[H|[H|H]]]];
    try (apply two_in in H; destruct H as (a & b & x & y & -> & _ & Hb);
         right; exists a, b; split; [reflexivity|];
         eapply digit_between_range; [|exact Hb]; lia).
  apply one_in in H. destruct H as (a & -> & _). left. now exists a.
Qed.

Lemma literal_some (sep : ascii) (s r : string) :
  Strptime.literal sep s = Some r -> s = String sep r.
Proof.
  unfold Strptime.literal. destruct s as [|c t]; [discriminate|].
  destruct (Ascii.eqb c sep) eqn:E; [|discriminate].
  apply Ascii.eqb_eq in E. now intros [= ->]; subst.
Qed.

(** A text that [strptime] accepts with the separator [sep] has [sep] as
    its second or its third character, after a digit in the latter
    case. *)
Lemma strptime_separator (sep : ascii) (s : string) (date : Z * Z * Z) :
  Strptime.strptime sep s = Some date ->
  (exists a r, s = String a (String sep r))
  \/ (exists a b r, s = String a (String b (String sep r))
                    /\ 48 <= nat_of_ascii b <= 57).
Proof.
  unfold Strptime.strptime, Strptime.regex_match.
  destruct (Strptime.first_match (Strptime.after_day sep) (Strptime.day s))
    as [[[[d m] y] rest]|] eqn:E; [|discriminate].
  intros _. apply first_match_some in E. destruct E as ([d0 r0] & Hin & Hrest).
  unfold Strptime.after_day in Hrest.
  destruct (Strptime.literal sep r0) as [r1|] eqn:El; [|discriminate].
  apply literal_some in El. subst r0.
  apply day_in in Hin. destruct Hin as [(a & ->)|(a & b & -> & Hb)].
  - left. now exists a, r1.
  - right. now exists a, b, r1.
Qed.

Lemma strptime_one_separator (date_text : string) (d1 d2 : Z * Z * Z) :
  Strptime.strptime "/" date_text = Some d1 ->
  Strptime.strptime "-" date_text = Some d2 -> False.
Proof.
  intros E1 E2.
  apply strptime_separator in E1. apply strptime_separator in E2.
  destruct E1 as [(a & r & H1)|(a & b & r & H1 & Hb)];
    destruct E2 as [(a' & r' & H2)|(a' & b' & r' & H2 & Hb')];
    rewrite H1 in H2; inversion H2; subst;
    try (cbv in Hb; lia); try (cbv in Hb'; lia).
Qed.

Lemma dialog_date_is_no_date (date_text : string) :
  dialog_validate_date date_text = true -> validate_date date_text = false.
Proof.
  unfold validate_date, dialog_validate_date.
  destruct (Strptime.strptime "/" date_text) as [d1|] eqn:E1; [|reflexivity].
  destruct (Strptime.strptime "-" date_text) as [d2|] eqn:E2; [|discriminate].
  destruct (strptime_one_separator _ _ _ E1 E2).
Qed.

(** X16: No text is a date for both validations: what [AscentPro.validate_date]
    accepts (day/month/year), [TeamMemberDialog.validate_date]
    (day-month-year) refuses, and the other way round. *)
Theorem date_formats_are_disjoint (date_text : string) :
  validate_date date_text && dialog_validate_date date_text = false.
Proof.
  destruct (dialog_validate_date date_text) eqn:E.
  - now rewrite (dialog_date_is_no_date _ E).
  - apply andb_false_r.
Qed.

Lemma on_ok_result (name_entry job_title_entry join_date_entry birthday_entry : string)
    (r : dialog_result) (evs : list event) :
  on_ok name_entry job_title_entry join_date_entry birthday_entry = (Some r, evs) ->
  r = (PyStr.strip name_entry, PyStr.strip job_title_entry,
       PyStr.strip join_date_entry, PyStr.strip birthday_entry)
  /\ evs = []
  /\ PyStr.truthy (PyStr.strip name_entry) = true
  /\ dialog_validate_date (PyStr.strip join_date_entry) = true
  /\ dialog_validate_date (PyStr.strip birthday_entry) = true.
Proof.
  unfold on_ok.
  destruct (PyStr.truthy (PyStr.strip name_entry)); [|discriminate].
  destruct (dialog_validate_date (PyStr.strip join_date_entry)); [|discriminate].
  destruct (dialog_validate_date (PyStr.strip birthday_entry)); [|discriminate].
  cbn [negb]. intros [= <- <-]. auto.
Qed.

(** X17: A member entered through the dialog cannot be updated with the dates
    the dialog accepted: when [on_ok] accepts the entries and
    [add_team_member] stores the new member, [update_team_member] on a
    details form that shows the stored join date refuses it as an
    invalid date and changes nothing. *)
Theorem dialog_dates_are_refused_by_update
    (name_entry job_title_entry join_date_entry0 birthday_entry0 : string)
    (name job_title join_date birthday : string) (evs : list event)
    (form : member_form) (s : App) (tm : list (string * pyval)) :
  on_ok name_entry job_title_entry join_date_entry0 birthday_entry0
  = (Some (name, job_title, join_date, birthday), evs) ->
  team_members s = VDict tm ->
  Dict.get name tm = None ->
  join_date_entry form = join_date ->
  let s1 := self_after
              (add_team_member (Some (name, job_title, join_date, birthday)) s) in
  Py.contains (team_members s1) name = Ok true
  /\ update_team_member name form s1
     = done s1 [ShowError "Invalid Date"
                  "Join Date is not in the correct format (DD-MM-YYYY)."].
Proof.
  intros Hok Htm Hnew Hform. cbv zeta.
  apply on_ok_result in Hok. destruct Hok as (Hr & _ & _ & Hjoin & _).
  injection Hr as Hn Hj Hjd Hb.
  rewrite (add_team_member_new _ _ _ _ _ _ Htm Hnew). cbv zeta.
  cbn [done self_after].
  set (tm' := (tm ++ [(name, new_member job_title join_date birthday)])).
  assert (Hget : Dict.get name tm'
                 = Some (new_member job_title join_date birthday)).
  { unfold tm'. rewrite <- (dict_set_absent _ _ _ Hnew). apply dict_get_set_same. }
  assert (Hmem : Dict.mem name tm' = true).
  { unfold Dict.mem. now rewrite Hget. }
  split.
  - cbn [team_members set_team_members Py.contains]. now rewrite Hmem.
  - unfold update_team_member.
    cbn [team_members set_team_members Py.contains bind]. rewrite Hmem.
    rewrite (py_item_dict name tm' _ Hget). cbn [bind].
    rewrite Hform, Hjd, strip_idem.
    rewrite (dialog_date_is_no_date _ Hjoin). reflexivity.
Qed.

End MoreDates.

Section MoreTeam.

Lemma dict_get_app {V : Type} (k : string) (a b : list (string * V)) :
  Dict.get k (a ++ b)
  = match Dict.get k a with Some v => Some v | None => Dict.get k b end.
Proof.
  induction a as [|[k' v'] r IH]; simpl; [reflexivity|].
  now destruct (String.eqb k' k).
Qed.

Lemma dict_del_split {V : Type} (k : string) (v : V) (d : list (string * V)) :
  Dict.get k d = Some v ->
  exists pre post,
    d = pre ++ (k, v) :: post /\ Dict.get k pre = None
    /\ Dict.del k d = Ok (pre ++ post).
Proof.
  induction d as [|[k' v'] r IH]; simpl; [discriminate|].
  destruct (String.eqb k' k) eqn:E.
  - apply String.eqb_eq in E. intros [= ->]. subst k'. now exists [], r.
  - intros H. destruct (IH H) as (pre & post & -> & Hpre & Hdel).
    exists ((k', v') :: pre), post. simpl. rewrite E, Hdel. auto.
Qed.

(** X18: Deleting the member that was just added undoes the addition: for a
    name that is not in the team, [add_team_member] followed by
    [delete_team_member] on that name, confirmed, gives the application
    as it was. *)
Theorem add_then_delete_team_member
    (name job_title join_date birthday : string) (s : App)
    (tm : list (string * pyval)) :
  team_members s = VDict tm ->
  Dict.get name tm = None ->
  let added := add_team_member (Some (name, job_title, join_date, birthday)) s in
  self_after (delete_team_member (Some name) true (self_after added)) = s.
Proof.
  intros Htm Hnew. cbv zeta.
  rewrite (add_team_member_new _ _ _ _ _ _ Htm Hnew). cbv zeta.
  cbn [done self_after]. unfold delete_team_member.
  cbn [team_members set_team_members PyMore.delitem].
  rewrite (dict_del_appended _ _ _ Hnew). cbn [bind done self_after].
  rewrite set_team_members_twice, <- Htm. apply set_team_members_same.
Qed.

(** X19: Renaming a member through [modify_team_member] moves the member to
    the end of the team: for a member with the three profile fields and
    a new name that differs from the old one and is not in use, the
    member's record leaves its place, is stored last under the new name
    with the three profile fields replaced and its other fields kept,
    the other members keep their records and their order, and the team
    is saved in this state. *)
Theorem modify_team_member_rename_moves_last
    (name new_name job_title join_date birthday : string) (s : App)
    (tm member : list (string * pyval)) (v1 v2 v3 : pyval) :
  team_members s = VDict tm ->
  Dict.get name tm = Some (VDict member) ->
  Dict.get "job_title" member = Some v1 ->
  Dict.get "join_date" member = Some v2 ->
  Dict.get "birthday" member = Some v3 ->
  new_name <> name ->
  Dict.get new_name tm = None ->
  exists pre post,
    tm = pre ++ (name, VDict member) :: post
    /\ Dict.get name pre = None
    /\ let member' := Dict.set "birthday" (VStr birthday)
                        (Dict.set "join_date" (VStr join_date)
                           (Dict.set "job_title" (VStr job_title) member)) in
       let s' := set_team_members
                   (VDict (pre ++ post ++ [(new_name, VDict member')])) s in
       let o := modify_team_member (Some name)
                  (Some (new_name, job_title, join_date, birthday)) s in
       self_after o = s' /\ In (Write (save_data s')) (shown o).
Proof.
  intros Htm Hmember H1 H2 H3 Hne Hfresh.
  destruct (dict_del_split _ _ _ Hmember) as (pre & post & Hsplit & Hpre & Hdel).
  exists pre, post. split; [assumption|]. split; [assumption|]. cbv zeta.
  assert (Hfresh' : Dict.get new_name (pre ++ post) = None).
  { rewrite Hsplit, dict_get_app in Hfresh. rewrite dict_get_app.
    destruct (Dict.get new_name pre); [discriminate|].
    simpl in Hfresh. destruct (String.eqb name new_name); [discriminate|assumption]. }
  unfold modify_team_member. rewrite Htm.
  rewrite (py_item_dict _ _ _ Hmember). cbn [bind].
  rewrite (py_item_dict _ _ _ H1), (py_item_dict _ _ _ H2), (py_item_dict _ _ _ H3).
  cbn [bind].
  assert (E : String.eqb new_name name = false) by now apply String.eqb_neq.
  rewrite E. cbn [negb Py.contains]. unfold Dict.mem. rewrite Hfresh.
  unfold PyMore.pop, Dict.item. rewrite Hmember, Hdel. cbn [bind fst snd PyMore.setitem].
  rewrite (dict_set_absent _ _ _ Hfresh').
  unfold set_profile.
  assert (Hlast : Dict.get new_name ((pre ++ post) ++ [(new_name, VDict member)])
                  = Some (VDict member)).
  { rewrite <- (dict_set_absent _ _ _ Hfresh'). apply dict_get_set_same. }
  rewrite (py_item_dict _ _ _ Hlast). cbn [bind PyMore.setitem].
  rewrite <- (dict_set_absent _ (VDict member) _ Hfresh'), dict_set_set.
  rewrite (dict_set_absent _ _ _ Hfresh'), <- app_assoc.
  cbn [done self_after shown]. split; [reflexivity|now left].
Qed.

(** X20: [update_team_member] never gets to its save: no listbox is ever
    stored for the software skills, so for a member of the team and two
    dates that pass the validation the loop over the four families
    raises [AttributeError] at the third one.  By then the member's
    technical and soft skills are replaced by the content of their
    listboxes in memory; no other field is set, nothing is written and
    no dialog is shown. *)
Theorem update_team_member_stops_at_software_skills
    (name : string) (form : member_form) (s : App)
    (tm member : list (string * pyval)) (technical soft : list string) :
  team_members s = VDict tm ->
  Dict.get name tm = Some (VDict member) ->
  validate_date (PyStr.strip (join_date_entry form)) = true ->
  validate_date (PyStr.strip (birthday_entry form)) = true ->
  technical_skills_listbox form = Some technical ->
  soft_skills_listbox form = Some soft ->
  software_skills_listbox form = None ->
  update_team_member name form s
  = propagate
      (set_team_members
         (VDict (Dict.set name
                   (VDict (Dict.set "soft_skills" (str_list soft)
                             (Dict.set "technical_skills" (str_list technical)
                                member))) tm)) s)
      [] AttributeError.
Proof.
  intros Htm Hmember Hjoin Hbirth Htech Hsoft Hsoftware.
  unfold update_team_member. rewrite Htm. cbn [Py.contains bind].
  unfold Dict.mem. rewrite Hmember. rewrite (py_item_dict _ _ _ Hmember).
  cbn [bind]. rewrite Hjoin, Hbirth. cbn [negb].
  cbn [for_each_keep]. unfold set_skills_from_listbox.
  change (listbox_of form "Technical Skills") with (technical_skills_listbox form).
  change (listbox_of form "Soft Skills") with (soft_skills_listbox form).
  change (listbox_of form "Software Skills") with (software_skills_listbox form).
  change (skill_key "Technical Skills") with "technical_skills".
  change (skill_key "Soft Skills") with "soft_skills".
  rewrite Htech. unfold set_member_field at 1.
  rewrite (py_item_dict _ _ _ Hmember). cbn [bind PyMore.setitem].
  rewrite Hsoft. unfold set_member_field at 1.
  rewrite (py_item_dict _ _ _ (dict_get_set_same name _ tm)).
  cbn [bind PyMore.setitem]. rewrite Hsoftware. rewrite dict_set_set.
  reflexivity.
Qed.

End MoreTeam.

Section MoreCertifications.

Lemma in_map_vstr (x : string) (l : list string) :
  In (VStr x) (map VStr l) <-> In x l.
Proof.
  rewrite in_map_iff. split.
  - intros (y & [= ->] & Hin). assumption.
  - intros Hin. now exists x.
Qed.

Lemma remove_first_strings (x : string) (l : list string) (l2 : list pyval) :
  PyMore.remove_first x (map VStr l) = Some l2 ->
  exists l', l2 = map VStr l'
             /\ (forall y, In y l' -> In y l)
             /\ (NoDup l -> NoDup l').
Proof.
  revert l2. induction l as [|a t IH]; intros l2; simpl; [discriminate|].
  destruct (String.eqb a x).
  - intros [= <-]. exists t. split; [reflexivity|]. split; [auto|].
    intros H. now inversion H.
  - destruct (PyMore.remove_first x (map VStr t)) as [t2|]; [|discriminate].
    intros [= <-]. destruct (IH t2 eq_refl) as (t' & -> & Hsub & Hnd).
    exists (a :: t'). split; [reflexivity|]. split.
    + intros y [<-|Hy]; [now left|right; auto].
    + intros H. inversion H; subst. constructor; auto.
Qed.

Lemma replace_first_strings (old new : string) (l : list string) (l2 : list pyval) :
  PyMore.replace_first old (VStr new) (map VStr l) = Some l2 ->
  exists l', l2 = map VStr l'
             /\ (forall y, In y l' -> In y l \/ y = new)
             /\ (~ In new l -> NoDup l -> NoDup l').
Proof.
  revert l2. induction l as [|a t IH]; intros l2; simpl; [discriminate|].
  destruct (String.eqb a old).
  - intros [= <-]. exists (new :: t). split; [reflexivity|]. split.
    + intros y [<-|Hy]; auto.
    + intros Hnew H. inversion H; subst. constructor; [tauto|assumption].
  - destruct (PyMore.replace_first old (VStr new) (map VStr t)) as [t2|];
      [|discriminate].
    intros [= <-]. destruct (IH t2 eq_refl) as (t' & -> & Hsub & Hnd).
    exists (a :: t'). split; [reflexivity|]. split.
    + intros y [<-|Hy]; [auto|]. destruct (Hsub y Hy); auto.
    + intros Hnew H. inversion H; subst. constructor.
      * intros Hin. destruct (Hsub a Hin) as [Ht| ->]; [tauto|].
        apply Hnew. now left.
      * apply Hnd; [|assumption]. intros Hin. apply Hnew. now right.
Qed.

Lemma store_certifications_distinct (l : list string) (s : App)
    (d : list (string * pyval)) :
  skills_data s = VDict d -> NoDup l ->
  exists s', store_certifications (str_list l) s = Ok s'
             /\ distinct_catalog s' /\ same_but_skills_data s s'.
Proof.
  intros Hd Hl. unfold store_certifications. rewrite Hd. eexists.
  split; [reflexivity|]. split.
  - exists (Dict.set "Certifications" (str_list l) d), l.
    cbn [skills_data set_skills_data]. rewrite dict_get_set_same. auto.
  - repeat split.
Qed.

Lemma same_but_skills_data_refl (s : App) : same_but_skills_data s s.
Proof. repeat split. Qed.

Lemma remove_one_certification_distinct (cert : string) (s : App) :
  distinct_catalog s ->
  exists s', remove_one_certification cert s = Ok s'
             /\ distinct_catalog s' /\ same_but_skills_data s s'.
Proof.
  intros (d & l & Hd & Hget & Hnd). unfold remove_one_certification, certifications.
  rewrite Hd, (py_item_dict _ _ _ Hget). cbn [bind]. unfold str_list, PyMore.remove.
  destruct (PyMore.remove_first cert (map VStr l)) as [l2|] eqn:E.
  - destruct (remove_first_strings _ _ _ E) as (l' & -> & _ & Hnd').
    apply (store_certifications_distinct l' s d Hd (Hnd' Hnd)).
  - exists s. split; [reflexivity|]. split.
    + now exists d, l.
    + apply same_but_skills_data_refl.
Qed.

Lemma remove_certifications_distinct (selection : list string) (s : App) :
  distinct_catalog s ->
  snd (for_each_keep selection remove_one_certification s) = None
  /\ distinct_catalog (fst (for_each_keep selection remove_one_certification s))
  /\ same_but_skills_data s
       (fst (for_each_keep selection remove_one_certification s)).
Proof.
  revert s. induction selection as [|cert r IH]; intros s H; simpl.
  - split; [reflexivity|]. split; [assumption|apply same_but_skills_data_refl].
  - destruct (remove_one_certification_distinct cert s H) as (s' & -> & H' & Hsame).
    destruct (IH s' H') as (Hnone & Hd & Hsame').
    split; [assumption|]. split; [assumption|].
    destruct Hsame as (A1 & A2 & A3 & A4). destruct Hsame' as (B1 & B2 & B3 & B4).
    repeat split; congruence.
Qed.

(** X21: The three handlers of the certification catalog keep it a list of
    pairwise different names, and change nothing but the catalog: the
    members keep the certifications they hold, also one that was
    renamed in the catalog or removed from it. *)
Theorem certification_catalog_stays_distinct
    (s : App) (answer selected : option string) (selection : list string)
    (confirm : bool) :
  distinct_catalog s ->
  let added := self_after (add_certification answer s) in
  let removed := self_after (remove_certification selection confirm s) in
  let renamed := self_after (modify_certification selected answer s) in
  (distinct_catalog added /\ same_but_skills_data s added)
  /\ (distinct_catalog removed /\ same_but_skills_data s removed
      /\ raised (remove_certification selection confirm s) = None)
  /\ (distinct_catalog renamed /\ same_but_skills_data s renamed).
Proof.
  intros H. cbv zeta.
  assert (Hs : distinct_catalog s /\ same_but_skills_data s s)
    by (split; [assumption|apply same_but_skills_data_refl]).
  pose proof H as (d & l & Hd & Hget & Hnd). unfold str_list in Hget.
  split; [|split].
  - unfold add_certification. destruct answer as [cert|]; [|exact Hs].
    destruct (PyStr.truthy cert); [|exact Hs].
    unfold certifications. rewrite Hd, (py_item_dict _ _ _ Hget).
    cbn [bind Py.contains].
    destruct (existsb (Py.is_str (PyStr.strip cert)) (map VStr l)) eqn:E;
      [exact Hs|].
    apply existsb_is_str_false in E. rewrite in_map_vstr in E.
    cbn [Py.append bind].
    change [VStr (PyStr.strip cert)] with (map VStr [PyStr.strip cert]).
    rewrite <- map_app.
    destruct (store_certifications_distinct (l ++ [PyStr.strip cert]) s d Hd
                (nodup_snoc _ _ Hnd E)) as (s' & Hs' & Hdist & Hsame).
    unfold str_list in Hs'. rewrite Hs'. cbn [done self_after]. auto.
  - unfold remove_certification. destruct selection as [|c r].
    { cbn [done self_after raised]. destruct Hs. auto. }
    destruct confirm; [|cbn [done self_after raised]; destruct Hs; auto].
    destruct (remove_certifications_distinct (c :: r) s H) as (Hnone & Hdist & Hsame).
    destruct (for_each_keep (c :: r) remove_one_certification s) as [s' [e|]];
      simpl in *; [discriminate|auto].
  - unfold modify_certification. destruct selected as [old_cert|]; [|exact Hs].
    destruct answer as [new_cert|]; [|exact Hs].
    destruct (PyStr.truthy new_cert); [|exact Hs].
    unfold certifications. rewrite Hd, (py_item_dict _ _ _ Hget).
    cbn [bind Py.contains].
    destruct (existsb (Py.is_str (PyStr.strip new_cert)) (map VStr l)) eqn:E;
      [exact Hs|].
    apply existsb_is_str_false in E. rewrite in_map_vstr in E.
    cbn [PyMore.rename_in].
    destruct (PyMore.replace_first old_cert (VStr (PyStr.strip new_cert))
                (map VStr l)) as [l2|] eqn:Er; cbn [bind]; [|exact Hs].
    destruct (replace_first_strings _ _ _ _ Er) as (l' & -> & _ & Hnd').
    destruct (store_certifications_distinct l' s d Hd (Hnd' E Hnd))
      as (s' & Hs' & Hdist & Hsame).
    unfold str_list in Hs'. rewrite Hs'. cbn [done self_after]. auto.
Qed.

End MoreCertifications.

Section MoreMeetings.

Variable str_other : pyval -> string.

Lemma insert_desc_last {A : Type} (kx : string * A) (l : list (string * A)) :
  Forall (fun ky => not_below ky kx) l -> insert_desc kx l = l ++ [kx].
Proof.
  induction l as [|ky t IH]; intros H; simpl; [reflexivity|].
  inversion H as [|? ? Hky Ht]; subst. unfold not_below in Hky. rewrite Hky.
  now rewrite IH.
Qed.

Lemma sorted_before {A : Type} (R : A -> A -> Prop) (acc : list A) (x : A)
    (r : list A) :
  StronglySorted R (acc ++ x :: r) -> Forall (fun y => R y x) acc.
Proof.
  induction acc as [|a t IH]; simpl; intros H; [constructor|].
  inversion H as [|? ? Ht Ha]; subst. constructor.
  - rewrite Forall_forall in Ha. apply Ha. apply in_or_app. right. now left.
  - now apply IH.
Qed.

Lemma sorted_desc_in_place {A : Type} (l acc : list (string * A)) :
  StronglySorted not_below (acc ++ l) ->
  fold_left (fun acc kx => insert_desc kx acc) l acc = acc ++ l.
Proof.
  revert acc. induction l as [|kx r IH]; intros acc H; simpl.
  - now rewrite app_nil_r.
  - rewrite (insert_desc_last kx acc (sorted_before _ _ _ _ H)).
    rewrite IH; rewrite <- app_assoc; [reflexivity|assumption].
Qed.

(** X22: The sort behind the meetings listbox leaves a log in place exactly
    when it is stored in descending order of the date texts: only then
    is the index of a row the position of its meeting in
    [self.meetings], which is what [update_meeting] and
    [delete_meeting] take it for. *)
Theorem rows_follow_storage_iff_descending {A : Type} (keyed : list (string * A)) :
  sorted_desc keyed = keyed <-> StronglySorted not_below keyed.
Proof.
  split.
  - intros H. rewrite <- H. apply sorted_desc_spec.
  - intros H. apply (sorted_desc_in_place keyed []). exact H.
Qed.

(** X23: [update_meeting] and [delete_meeting] act on the stored position,
    not on the row shown: in a log of two meetings where the first one
    stored has the smaller date text, the listbox shows the second one
    in its first row; deleting that row removes the first meeting stored
    and keeps the one the row shows, and updating that row overwrites
    the first meeting stored. *)
Theorem meeting_row_is_taken_for_position
    (m1 m2 : list (string * pyval)) (date1 title1 date2 title2 : string)
    (form : meeting_form) (s : App) :
  Dict.get "date" m1 = Some (VStr date1) ->
  Dict.get "title" m1 = Some (VStr title1) ->
  Dict.get "date" m2 = Some (VStr date2) ->
  Dict.get "title" m2 = Some (VStr title2) ->
  String.ltb date1 date2 = true ->
  meetings s = VList [VDict m1; VDict m2] ->
  validate_date (meeting_date_entry form) = true ->
  refresh_meetings_list str_other s
  = Ok [(date2 ++ " - " ++ title2)%string; (date1 ++ " - " ++ title1)%string]
  /\ meetings (log_after (delete_meeting str_other (Some 0) true s))
     = VList [VDict m2]
  /\ meetings (log_after (update_meeting str_other (Some 0) form s))
     = VList [meeting_of form; VDict m2].
Proof.
  intros Hd1 Ht1 Hd2 Ht2 Hlt Hms Hvalid. split; [|split].
  - unfold refresh_meetings_list. rewrite Hms. cbn [Py.iter bind mapM].
    unfold date_key. rewrite (py_item_dict _ _ _ Hd1), (py_item_dict _ _ _ Hd2).
    cbn [bind]. unfold sorted_desc. cbn [fold_left insert_desc fst]. rewrite Hlt.
    cbn [mapM bind].
    rewrite (py_item_dict _ _ _ Hd1), (py_item_dict _ _ _ Hd2),
      (py_item_dict _ _ _ Ht1), (py_item_dict _ _ _ Ht2).
    reflexivity.
  - unfold delete_meeting. rewrite Hms. cbn [length Nat.ltb Nat.leb].
    unfold saved_meetings.
    destruct (refresh_meetings_list str_other
                (set_meetings (VList (remove_at 0 [VDict m1; VDict m2])) s));
      reflexivity.
  - unfold update_meeting. rewrite Hvalid, Hms. cbn [negb length Nat.ltb Nat.leb].
    unfold saved_meetings.
    destruct (refresh_meetings_list str_other
                (set_meetings
                   (VList (replace_at 0 (meeting_of form) [VDict m1; VDict m2])) s));
      reflexivity.
Qed.

(** X24: Deleting the meeting that was just added undoes the addition: the
    new meeting is stored last, so for a log of [n] meetings and a date
    that passes the validation, [add_meeting] followed by
    [delete_meeting] on row [n], confirmed, gives the application as it
    was. *)
Theorem add_then_delete_meeting
    (form : meeting_form) (s : App) (l : list pyval) :
  meetings s = VList l ->
  validate_date (meeting_date_entry form) = true ->
  log_after (delete_meeting str_other (Some (length l)) true
               (log_after (add_meeting str_other form s))) = s.
Proof.
  intros Hms Hvalid. unfold add_meeting. rewrite Hvalid, Hms.
  cbn [negb Py.append].
  assert (Hafter : forall s' message, log_after (saved_meetings str_other s' message) = s').
  { intros s' message. unfold saved_meetings.
    destruct (refresh_meetings_list str_other s'); reflexivity. }
  rewrite Hafter. unfold delete_meeting. cbn [meetings set_meetings].
  assert (Hlt : (length l <? length (l ++ [meeting_of form]))%nat = true).
  { apply Nat.ltb_lt. rewrite length_app. simpl. lia. }
  rewrite Hlt, Hafter.
  unfold remove_at. rewrite firstn_app, Nat.sub_diag, firstn_all. cbn [firstn].
  rewrite app_nil_r, skipn_all2 by (rewrite length_app; simpl; lia).
  rewrite app_nil_r. destruct s; simpl in *. now subst.
Qed.

End MoreMeetings.

(** ** The further properties on the sample data *)

Lemma load_data_drops_all_on_one_bad_member_witness :
  In ("Bob", VStr "x") Example.broken_members
  /\ load_data Sample.str_other (Parsed (VDict Example.broken_document))
       initialize_data_structures
     = initialize_empty_data initialize_data_structures.
Proof.
  split; [simpl; auto|].
  apply (load_data_drops_all_on_one_bad_member Sample.str_other
           Example.broken_document Example.broken_members "Bob" (VStr "x")).
  - reflexivity.
  - simpl; auto.
  - reflexivity.
Defined.

Lemma add_category_once_witness :
  let s' := self_after (add_category "Technical Skills" (Some " Cloud ") [] Sample.app) in
  Dict.get "Technical Skills" (categories s') = Some [("Cloud", [])]
  /\ add_category "Technical Skills" (Some " Cloud ") [Some "x"] s'
     = done s' [ShowError "Error"
                  "Category 'Cloud' already exists in Technical Skills."].
Proof.
  apply (add_category_once "Technical Skills" " Cloud " [Some "x"] Sample.app []);
    reflexivity.
Defined.

Lemma add_then_delete_category_witness :
  self_after
    (delete_category "Technical Skills" "Cloud" true
       (self_after (add_category "Technical Skills" (Some " Cloud ") [] Sample.app)))
  = Sample.app.
Proof.
  apply (add_then_delete_category "Technical Skills" " Cloud " Sample.app []).
  - vm_compute. discriminate.
  - reflexivity.
  - reflexivity.
Defined.

Lemma delete_category_only_when_present_witness :
  let o := delete_category "Technical Skills" "Cloud" true Sample.app in
  self_after o = Sample.app
  /\ (forall f, ~ In (Write f) (shown o))
  /\ (true = true -> "Cloud" <> EmptyString -> raised o = Some KeyError).
Proof.
  apply (delete_category_only_when_present "Technical Skills" "Cloud" true Sample.app).
  right. right. right. exists []. split; reflexivity.
Defined.

Lemma stripped_items_are_clean_witness :
  stripped_items "," " a, b ,,c " = ["a"; "b"; "c"]
  /\ "b" <> EmptyString
  /\ PyStr.strip "b" = "b"
  /\ has_char "," "b" = false
  /\ parse_subskills " a, b ,,c " = stripped_items "," " a, b ,,c ".
Proof.
  split; [reflexivity|].
  apply (stripped_items_are_clean "," " a, b ,,c " "b").
  vm_compute. auto.
Defined.

Lemma add_multiple_subskills_keeps_distinct_witness :
  NoDup [VStr "Python"]
  /\ exists subskills,
       subskills_of "Technical Skills" "Languages"
         (self_after (add_multiple_subskills "Technical Skills" "Languages"
                        "Go, Python, Go" Sample.app))
       = Ok (VList subskills)
       /\ NoDup subskills.
Proof.
  assert (H : NoDup [VStr "Python"]) by (repeat constructor; simpl; tauto).
  split; [exact H|].
  apply (add_multiple_subskills_keeps_distinct "Technical Skills" "Languages"
           "Go, Python, Go" Sample.app Sample.subskills Sample.technical_subskills
           [VStr "Python"]); try reflexivity.
  exact H.
Defined.

Lemma add_multiple_subskills_again_witness :
  let s1 := self_after (add_multiple_subskills "Technical Skills" "Languages"
                          "Go, Rust" Sample.app) in
  add_multiple_subskills "Technical Skills" "Languages" "Go, Rust" s1
  = done s1 (map duplicate_warning (Spec.tokens "Go, Rust")
             ++ [ShowInfo "No Changes" "No new subskills were added."]).
Proof.
  apply (add_multiple_subskills_again "Technical Skills" "Languages" "Go, Rust"
           Sample.app Sample.subskills Sample.technical_subskills [VStr "Python"]);
    try reflexivity; vm_compute; discriminate.
Defined.

Lemma bulk_add_after_add_category_witness :
  let s1 := self_after (add_category "Technical Skills" (Some "Cloud") [] Sample.app) in
  Dict.mem "Cloud"
    (match Dict.get "Technical Skills" (categories s1) with
     | Some c => c
     | None => []
     end) = true
  /\ add_multiple_subskills "Technical Skills" "Cloud" "AWS, Azure" s1
     = propagate s1 [] KeyError.
Proof.
  apply (bulk_add_after_add_category "Technical Skills" "Cloud" "AWS, Azure"
           Sample.app [] Sample.subskills Sample.technical_subskills);
    try reflexivity; vm_compute; discriminate.
Defined.

Lemma upload_skills_csv_adds_witness :
  has_skill "Tech" "Languages" "Python"
    (categories
       (self_after
          (upload_skills_csv
             [Sample.header; ["Tech"; "Languages"; "Python"]; ["Tech, Languages, Go"]]
             Sample.app))).
Proof.
  apply (proj2 (upload_skills_csv_adds Sample.header
                  [["Tech"; "Languages"; "Python"]; ["Tech, Languages, Go"]]
                  Sample.app)
           eq_refl ["Tech"; "Languages"; "Python"]).
  - simpl; auto.
  - reflexivity.
Defined.

Lemma upload_skills_csv_again_witness :
  let s1 := self_after
              (upload_skills_csv
                 [Sample.header; ["Tech"; "Languages"; "Python"]] Sample.app) in
  self_after
    (upload_skills_csv [["Category"]; ["Tech"; "Languages"; "Python"]] s1) = s1.
Proof.
  apply (upload_skills_csv_again Sample.header ["Category"]
           [["Tech"; "Languages"; "Python"]] Sample.app).
  reflexivity.
Defined.

Lemma add_then_remove_skill_witness :
  let added := add_skill_to_member "Ada" "Technical Skills" ["B"; "z"] Sample.app in
  let removed := remove_skill_from_member "Technical Skills" (Some "B: z") "Ada" true
                   (self_after added) in
  raised added = None /\ raised removed = None /\ self_after removed = Sample.app.
Proof.
  apply (add_then_remove_skill "Ada" "Technical Skills" "B: z" ["B"; "z"] Sample.app
           Sample.members Sample.ada [VStr "A: x"; VStr "A: y"]);
    try reflexivity.
  - discriminate.
  - simpl. intros [H|[H|[]]]; discriminate H.
Defined.

Lemma move_goal_without_achievements_loses_goal_witness :
  exists before goal after,
    PyStr.split PyStr.newline (PyStr.strip Sample.goals_text)
    = before ++ goal :: after
    /\ Z.of_nat (length before) = (1 - 1)%Z
    /\ move_goal_to_achievement 1 Sample.goals_text "Nobody" Sample.app
       = mk_goal_outcome (PyStr.join PyStr.nl (before ++ after) ++ PyStr.nl)%string
           (done Sample.app
              [ShowError "Error"
                 "Failed to move goal to achievement. Please try again."]).
Proof.
  apply (move_goal_without_achievements_loses_goal 1 Sample.goals_text "Nobody"
           Sample.app Sample.members).
  - vm_compute. split; discriminate.
  - reflexivity.
  - left. reflexivity.
Defined.

Lemma move_goal_blank_text_records_empty_witness :
  let s' := set_team_members
              (VDict (Dict.set "Ada"
                        (VDict (Dict.set "achievements" (VList [VStr EmptyString])
                                  Sample.ada)) Sample.members)) Sample.app in
  move_goal_to_achievement 1 "  " "Ada" Sample.app
  = mk_goal_outcome PyStr.nl
      (done s' [Write (save_data s');
                ShowInfo "Goal Achieved"
                  "The goal '' has been moved to achievements!"]).
Proof.
  apply (move_goal_blank_text_records_empty "  " "Ada" Sample.app
           Sample.members Sample.ada []); reflexivity.
Defined.

Lemma dialog_dates_are_refused_by_update_witness :
  let s1 := self_after
              (add_team_member (Some ("Bob", "Dev", "01-02-2020", "03-04-1990"))
                 Sample.app) in
  Py.contains (team_members s1) "Bob" = Ok true
  /\ update_team_member "Bob" Example.form_of_dialog s1
     = done s1 [ShowError "Invalid Date"
                  "Join Date is not in the correct format (DD-MM-YYYY)."].
Proof.
  apply (dialog_dates_are_refused_by_update " Bob " "Dev" "01-02-2020" "03-04-1990"
           "Bob" "Dev" "01-02-2020" "03-04-1990" [] Example.form_of_dialog
           Sample.app Sample.members); reflexivity.
Defined.

Lemma add_then_delete_team_member_witness :
  self_after (delete_team_member (Some "Bob") true Example.app_with_team)
  = Sample.app.
Proof.
  apply (add_then_delete_team_member "Bob" "Dev" "01-02-2020" "03-04-1990"
           Sample.app Sample.members); reflexivity.
Defined.

Lemma modify_team_member_rename_moves_last_witness :
  exists pre post,
    Example.team = pre ++ ("Ada", VDict Sample.ada) :: post
    /\ Dict.get "Ada" pre = None
    /\ let member' := Dict.set "birthday" (VStr "03-04-1990")
                         (Dict.set "join_date" (VStr "01-02-2020")
                            (Dict.set "job_title" (VStr "Lead") Sample.ada)) in
       let s' := set_team_members
                   (VDict (pre ++ post ++ [("Ada L", VDict member')]))
                   Example.app_with_team in
       let o := modify_team_member (Some "Ada")
                  (Some ("Ada L", "Lead", "01-02-2020", "03-04-1990"))
                  Example.app_with_team in
       self_after o = s' /\ In (Write (save_data s')) (shown o).
Proof.
  apply (modify_team_member_rename_moves_last "Ada" "Ada L" "Lead" "01-02-2020"
           "03-04-1990" Example.app_with_team Example.team Sample.ada
           (VStr "Engineer") (VStr "01/02/2020") (VStr "03/04/1990"));
    try reflexivity.
  discriminate.
Defined.

Lemma update_team_member_stops_at_software_skills_witness :
  update_team_member "Ada" Example.form Sample.app
  = propagate
      (set_team_members
         (VDict (Dict.set "Ada"
                   (VDict (Dict.set "soft_skills" (str_list [])
                             (Dict.set "technical_skills" (str_list ["A: x"])
                                Sample.ada))) Sample.members)) Sample.app)
      [] AttributeError.
Proof.
  apply (update_team_member_stops_at_software_skills "Ada" Example.form Sample.app
           Sample.members Sample.ada ["A: x"] []); reflexivity.
Defined.

Lemma certification_catalog_stays_distinct_witness :
  distinct_catalog
    (self_after (modify_certification (Some "PMP") (Some " PMI-ACP ")
                   Example.app_with_certifications)).
Proof.
  apply (certification_catalog_stays_distinct Example.app_with_certifications
           (Some " PMI-ACP ") (Some "PMP") ["AWS"] true).
  eexists. exists ["PMP"; "AWS"]. split; [reflexivity|]. split; [reflexivity|].
  repeat constructor; simpl; intros H; repeat destruct H as [H|H]; try discriminate H;
    assumption.
Defined.

Lemma rows_follow_storage_iff_descending_witness :
  sorted_desc [("05/03/2024", 1); ("02/01/2024", 2); ("02/01/2024", 3)]
  = [("05/03/2024", 1); ("02/01/2024", 2); ("02/01/2024", 3)].
Proof.
  apply (proj2 (rows_follow_storage_iff_descending
                  [("05/03/2024", 1); ("02/01/2024", 2); ("02/01/2024", 3)])).
  repeat constructor.
Defined.

Lemma meeting_row_is_taken_for_position_witness :
  let s := Sample.app_with_meetings
             [Sample.meeting "01/02/2024" "February";
              Sample.meeting "02/01/2024" "January"] in
  refresh_meetings_list Sample.str_other s
  = Ok ["02/01/2024 - January"; "01/02/2024 - February"]
  /\ meetings (log_after (delete_meeting Sample.str_other (Some 0) true s))
     = VList [Sample.meeting "02/01/2024" "January"]
  /\ meetings (log_after (update_meeting Sample.str_other (Some 0)
                            Example.meeting_entries s))
     = VList [meeting_of Example.meeting_entries;
              Sample.meeting "02/01/2024" "January"].
Proof.
  apply (meeting_row_is_taken_for_position Sample.str_other
           (Example.meeting_fields "01/02/2024" "February")
           (Example.meeting_fields "02/01/2024" "January")
           "01/02/2024" "February" "02/01/2024" "January"
           Example.meeting_entries
           (Sample.app_with_meetings
              [Sample.meeting "01/02/2024" "February";
               Sample.meeting "02/01/2024" "January"])); reflexivity.
Defined.

Lemma add_then_delete_meeting_witness :
  meetings Sample.app = VList [Sample.meeting "05/03/2024" "Review"]
  /\ log_after (delete_meeting Sample.str_other (Some 1) true
                  (log_after (add_meeting Sample.str_other Example.meeting_entries
                                Sample.app)))
     = Sample.app.
Proof.
  split; [reflexivity|].
  apply (add_then_delete_meeting Sample.str_other Example.meeting_entries
           Sample.app [Sample.meeting "05/03/2024" "Review"]); reflexivity.
Defined.
